(** * SIMUHATER: signal conditioning and mapping core of [flight_stick_reader.py]

    A shallow embedding of the classes [ControlPanelConfig] and
    [FlightControls]: per-channel calibration of the auxiliary panel, the
    idle-split throttle calibration, the profile mappings onto the virtual
    gamepad and the vJoy device, and the toggle bookkeeping of
    [process_control_panel]. *)

From Stdlib Require Import ZArith QArith Qabs Qround Lqa Floats.
From stdpp Require Import base option list strings pretty gmap.

Set Warnings "-inexact-float".

(** ** Python numbers

    The source computes on Python numbers: [int] constants and settings,
    [float] samples and results.  Every function of the embedding is written
    once, over an interface of the operations the source uses, and is read
    at two instances: IEEE binary64 (what CPython runs) and exact rationals
    (the arithmetic the calibration laws are stated in). *)

Class PyNum (N : Type) := {
  of_int : Z -> N;            (* an int constant, or int -> float *)
  padd : N -> N -> N;
  psub : N -> N -> N;
  pmul : N -> N -> N;
  pdiv : N -> N -> N;         (* true division; every use is guarded *)
  pabs : N -> N;
  plt : N -> N -> bool;       (* a < b *)
  ple : N -> N -> bool;       (* a <= b *)
  peq : N -> N -> bool;       (* a == b *)
  int_of : N -> option Z      (* int(x): truncation toward zero; None where
                                 CPython raises (nan, infinities) *)
}.

Declare Scope py_scope.
Delimit Scope py_scope with py.
Infix "+" := padd : py_scope.
Infix "-" := psub : py_scope.
Infix "*" := pmul : py_scope.
Infix "/" := pdiv : py_scope.
Infix "<?" := plt : py_scope.
Infix "<=?" := ple : py_scope.
Infix "==?" := peq (at level 70) : py_scope.
Notation "a >? b" := (plt b a) (at level 70) : py_scope.
Notation "a >=? b" := (ple b a) (at level 70) : py_scope.

Section PyBuiltins.
Context {N : Type} `{PyNum N}.

(** A decimal literal of the source text, [n / d] with [d] a power of ten:
    at binary64 the correctly rounded quotient is the double the literal
    denotes. *)
Definition lit (n : Z) (d : positive) : N := (of_int n / of_int (Zpos d))%py.

(** [max(a, b)] and [min(a, b)] keep the first argument unless the second
    is strictly better. *)
Definition py_max (a b : N) : N := if (b >? a)%py then b else a.
Definition py_min (a b : N) : N := if (b <? a)%py then b else a.

End PyBuiltins.

(** *** Exact rationals *)

Definition Qtrunc (q : Q) : Z := Z.quot (Qnum q) (Zpos (Qden q)).

#[export] Instance PyNum_Q : PyNum Q := {|
  of_int := inject_Z;
  padd := Qplus;
  psub := Qminus;
  pmul := Qmult;
  pdiv := Qdiv;
  pabs := Qabs;
  plt := fun a b => negb (Qle_bool b a);
  ple := Qle_bool;
  peq := Qeq_bool;
  int_of := fun q => Some (Qtrunc q)
|}.

(** *** IEEE binary64

    [float_of_Z] is exact up to 2^53 in magnitude, which covers every
    constant of the source; [float_trunc] drops the fraction of a finite
    float and has no value at nan and the infinities. *)

Definition float_of_Z (z : Z) : float :=
  match z with
  | Z0 => PrimFloat.zero
  | Zpos _ => PrimFloat.of_uint63 (Uint63.of_Z z)
  | Zneg _ => PrimFloat.opp (PrimFloat.of_uint63 (Uint63.of_Z (Z.opp z)))
  end.

Definition float_trunc (x : float) : option Z :=
  match Prim2SF x with
  | S754_zero _ => Some 0%Z
  | S754_finite s m e =>
      let v := match e with
               | Zneg p => Z.shiftr (Zpos m) (Zpos p)
               | _ => Z.shiftl (Zpos m) e
               end in
      Some (if s then Z.opp v else v)
  | S754_infinity _ | S754_nan => None
  end.

#[export] Instance PyNum_float : PyNum float := {|
  of_int := float_of_Z;
  padd := PrimFloat.add;
  psub := PrimFloat.sub;
  pmul := PrimFloat.mul;
  pdiv := PrimFloat.div;
  pabs := PrimFloat.abs;
  plt := PrimFloat.ltb;
  ple := PrimFloat.leb;
  peq := PrimFloat.eqb;
  int_of := float_trunc
|}.

(** ** ControlPanelConfig *)

(** One entry of [pot_config]: the dictionary built in
    [ControlPanelConfig.__init__], a field per key. *)
Module Pot.
Record t (N : Type) := mk {
  name : string;
  type : string;               (* "Axis", "Switch", "Button" or "Disabled" *)
  invert : bool;
  min : N;
  max : N;
  threshold : N;               (* for switch/button mode *)
  vjoy_axis : option string;   (* None, or the axis name *)
  button_id : option Z;        (* None, or the button number *)
  calibrated_min : N;
  calibrated_max : N
}.
Arguments mk {N}.
Arguments name {N}.
Arguments type {N}.
Arguments invert {N}.
Arguments min {N}.
Arguments max {N}.
Arguments threshold {N}.
Arguments vjoy_axis {N}.
Arguments button_id {N}.
Arguments calibrated_min {N}.
Arguments calibrated_max {N}.

Section Update.
Context {N : Type}.
(** [config[key] = v], key by key. *)
Definition set_name (v : string) (c : t N) : t N :=
  mk v (type c) (invert c) (min c) (max c) (threshold c) (vjoy_axis c)
     (button_id c) (calibrated_min c) (calibrated_max c).
Definition set_type (v : string) (c : t N) : t N :=
  mk (name c) v (invert c) (min c) (max c) (threshold c) (vjoy_axis c)
     (button_id c) (calibrated_min c) (calibrated_max c).
Definition set_invert (v : bool) (c : t N) : t N :=
  mk (name c) (type c) v (min c) (max c) (threshold c) (vjoy_axis c)
     (button_id c) (calibrated_min c) (calibrated_max c).
Definition set_threshold (v : N) (c : t N) : t N :=
  mk (name c) (type c) (invert c) (min c) (max c) v (vjoy_axis c)
     (button_id c) (calibrated_min c) (calibrated_max c).
Definition set_vjoy_axis (v : option string) (c : t N) : t N :=
  mk (name c) (type c) (invert c) (min c) (max c) (threshold c) v
     (button_id c) (calibrated_min c) (calibrated_max c).
Definition set_button_id (v : option Z) (c : t N) : t N :=
  mk (name c) (type c) (invert c) (min c) (max c) (threshold c) (vjoy_axis c)
     v (calibrated_min c) (calibrated_max c).
Definition set_calibrated_min (v : N) (c : t N) : t N :=
  mk (name c) (type c) (invert c) (min c) (max c) (threshold c) (vjoy_axis c)
     (button_id c) v (calibrated_max c).
Definition set_calibrated_max (v : N) (c : t N) : t N :=
  mk (name c) (type c) (invert c) (min c) (max c) (threshold c) (vjoy_axis c)
     (button_id c) (calibrated_min c) v.
End Update.
End Pot.

Section ControlPanelConfig.
Context {N : Type} `{PyNum N}.

Record ControlPanelConfig := {
  pot_config : list (Pot.t N)
}.

(** [self.CONTROL_TYPES], assigned once in [__init__]. *)
Definition CONTROL_TYPES : list string := ["Axis"; "Switch"; "Button"; "Disabled"].

(** [ControlPanelConfig.__init__]: the loop [for i in range(7)] appends one
    dictionary per pot. *)
Definition default_pot (i : nat) : Pot.t N :=
  Pot.mk ("Pot " +:+ pretty (i + 1)%nat) "Axis" false (of_int 0) (of_int 100)
         (of_int 50) None None (of_int 0) (of_int 100).

Definition ControlPanelConfig_init : ControlPanelConfig :=
  {| pot_config := default_pot <$> seq 0 7 |}.

(** A method of [ControlPanelConfig]: it receives [self] and hands back its
    result together with [self] as the call leaves it. *)
Definition method (A : Type) : Type := ControlPanelConfig -> A * ControlPanelConfig.

(** [0 <= index < len(self.pot_config)] *)
Definition index_ok (index : Z) (self : ControlPanelConfig) : bool :=
  (0 <=? index)%Z && (index <? Z.of_nat (length (pot_config self)))%Z.

(** [self.pot_config[index][key] = v] for an index already checked. *)
Definition update_pot (index : Z) (f : Pot.t N -> Pot.t N)
    (self : ControlPanelConfig) : ControlPanelConfig :=
  {| pot_config := alter f (Z.to_nat index) (pot_config self) |}.

Definition get_pot_names : method (list string) := fun self =>
  (Pot.name <$> pot_config self, self).

Definition set_pot_name (index : Z) (name : string) : method unit := fun self =>
  if index_ok index self
  then (tt, update_pot index (Pot.set_name name) self)
  else (tt, self).

Definition set_pot_type (index : Z) (type_name : string) : method unit := fun self =>
  if index_ok index self && bool_decide (type_name ∈ CONTROL_TYPES)
  then (tt, update_pot index (Pot.set_type type_name) self)
  else (tt, self).

Definition set_pot_threshold (index : Z) (threshold : N) : method unit := fun self =>
  if index_ok index self
  then (tt, update_pot index (Pot.set_threshold threshold) self)
  else (tt, self).

Definition toggle_pot_inversion (index : Z) : method unit := fun self =>
  if index_ok index self
  then (tt, update_pot index (fun c => Pot.set_invert (negb (Pot.invert c)) c) self)
  else (tt, self).

Definition calibrate_pot_min (index : Z) (value : N) : method unit := fun self =>
  if index_ok index self
  then (tt, update_pot index (Pot.set_calibrated_min value) self)
  else (tt, self).

Definition calibrate_pot_max (index : Z) (value : N) : method unit := fun self =>
  if index_ok index self
  then (tt, update_pot index (Pot.set_calibrated_max value) self)
  else (tt, self).

(** The calibration bounds [process_pot_value] maps over: the configured
    ones, or the full raw range when they are not strictly ordered. *)
Definition effective_bounds (config : Pot.t N) : N * N :=
  let cal_min := Pot.calibrated_min config in
  let cal_max := Pot.calibrated_max config in
  if (cal_min >=? cal_max)%py then (of_int 0, of_int 1023) else (cal_min, cal_max).

(** [raw_value = max(0, min(1023, raw_value))] *)
Definition clamp_raw (raw_value : N) : N :=
  py_max (of_int 0) (py_min (of_int 1023) raw_value).

(** Lines 104-120 of [process_pot_value]: [calibrated] before inversion. *)
Definition calibrate_pot (config : Pot.t N) (raw_value : N) : N :=
  let raw_value := clamp_raw raw_value in
  let '(cal_min, cal_max) := effective_bounds config in
  if (cal_max ==? cal_min)%py then of_int 50
  else
    let calibrated := ((raw_value - cal_min) / (cal_max - cal_min) * of_int 100)%py in
    py_max (of_int 0) (py_min (of_int 100) calibrated).

(** Lines 122-124: [calibrated] after the optional inversion. *)
Definition inverted_pot (config : Pot.t N) (raw_value : N) : N :=
  let calibrated := calibrate_pot config raw_value in
  if Pot.invert config then (of_int 100 - calibrated)%py else calibrated.

(** Lines 126-132: the interpretation by type. *)
Definition interpret_pot (config : Pot.t N) (calibrated : N) : N :=
  if String.eqb (Pot.type config) "Axis" then calibrated
  else if String.eqb (Pot.type config) "Switch" || String.eqb (Pot.type config) "Button"
  then (if (calibrated >? Pot.threshold config)%py then of_int 100 else of_int 0)
  else calibrated.

Definition process_pot_value (index : Z) (raw_value : N) : method N := fun self =>
  if (index <? 0)%Z || (Z.of_nat (length (pot_config self)) <=? index)%Z
  then (of_int 0, self)
  else
    match pot_config self !! Z.to_nat index with
    | None => (of_int 0, self)
    | Some config =>
        if String.eqb (Pot.type config) "Disabled" then (of_int 0, self)
        else (interpret_pot config (inverted_pot config raw_value), self)
    end.

End ControlPanelConfig.
Arguments ControlPanelConfig N : clear implicits.
Arguments method N : clear implicits.

(** ** FlightControls: state *)

Inductive ControlProfile := MSFS | DCS | XPLANE | IL2 | WAR_THUNDER.
Inductive ControllerType := XBOX | VJOY.

(** The keys of [self.calibration] and [self.invert_axis]. *)
Inductive Control := throttle | reverse | prop | mixture.

(** One entry of [self.calibration]. *)
Module Cal.
Record t (N : Type) := mk { min : N; max : N; idle : N }.
Arguments mk {N}.
Arguments min {N}.
Arguments max {N}.
Arguments idle {N}.
End Cal.

(** The virtual gamepad as the sink sees it: the arguments of the last
    [right_trigger], [left_trigger], [right_joystick] and [left_joystick]
    calls (narrowing to the fields of the XInput report is the library's). *)
Record Gamepad := {
  right_trigger : Z;
  left_trigger : Z;
  right_joystick : Z * Z;
  left_joystick : Z * Z
}.

(** [vjoy_dev.data], the position record of pyvjoy. *)
Record JoystickData := {
  wAxisX : Z; wAxisY : Z; wAxisZ : Z;
  wAxisXRot : Z; wAxisYRot : Z; wAxisZRot : Z;
  wSlider : Z; wDial : Z;
  lButtons : Z
}.

(** A vJoy device: the position being edited and the position last handed
    to the driver by [update()]. *)
Record VJoyDevice := {
  data : JoystickData;
  reported : JoystickData
}.

Record FlightControls (N : Type) := {
  controller_type : ControllerType;
  gamepad : Gamepad;
  current_profile : ControlProfile;
  vjoy_dev : option VJoyDevice;          (* None when vJoy failed to open *)
  calibration : Control -> Cal.t N;
  invert_axis : Control -> bool;
  prop_as_speedbrake : bool;
  control_panel : ControlPanelConfig N;
  button_states : gmap string Z;
  last_pot_values : gmap string bool;
  controls_active : option bool          (* None: the attribute is not set *)
}.
Arguments controller_type {N}.
Arguments gamepad {N}.
Arguments current_profile {N}.
Arguments vjoy_dev {N}.
Arguments calibration {N}.
Arguments invert_axis {N}.
Arguments prop_as_speedbrake {N}.
Arguments control_panel {N}.
Arguments button_states {N}.
Arguments last_pot_values {N}.
Arguments controls_active {N}.

(** Exceptions the modelled code can meet: [int()] of a nan or an infinity,
    and a call that misses a required argument. *)
Inductive exn := ValueError | TypeError.

Inductive outcome (A : Type) := Return (a : A) | Raise (e : exn).
Arguments Return {A}.
Arguments Raise {A}.

Section FlightControlsMonad.
Context {N : Type}.

(** A method of [FlightControls]: state in, outcome and state out.  What a
    raised exception leaves written stays written. *)
Definition M (A : Type) : Type := FlightControls N -> outcome A * FlightControls N.

Definition ret {A} (a : A) : M A := fun self => (Return a, self).
Definition raise {A} (e : exn) : M A := fun self => (Raise e, self).
Definition bind {A B} (m : M A) (k : A -> M B) : M B := fun self =>
  match m self with
  | (Return a, self') => k a self'
  | (Raise e, self') => (Raise e, self')
  end.
(** [try: m except Exception: h] *)
Definition try_except {A} (m : M A) (h : exn -> M A) : M A := fun self =>
  match m self with
  | (Return a, self') => (Return a, self')
  | (Raise e, self') => h e self'
  end.
Definition get : M (FlightControls N) := fun self => (Return self, self).
Definition modify (f : FlightControls N -> FlightControls N) : M unit :=
  fun self => (Return tt, f self).
(** A value whose computation may raise. *)
Definition lift {A} (o : option A) (e : exn) : M A :=
  match o with Some a => ret a | None => raise e end.

#[export] Instance M_ret : MRet M := @ret.
#[export] Instance M_bind : MBind M := fun A B k m => bind m k.

End FlightControlsMonad.
Arguments M N A : clear implicits.

Section FieldUpdates.
Context {N : Type}.

Definition with_gamepad (g : Gamepad) (s : FlightControls N) : FlightControls N :=
  {| controller_type := controller_type s; gamepad := g;
     current_profile := current_profile s; vjoy_dev := vjoy_dev s;
     calibration := calibration s; invert_axis := invert_axis s;
     prop_as_speedbrake := prop_as_speedbrake s; control_panel := control_panel s;
     button_states := button_states s; last_pot_values := last_pot_values s;
     controls_active := controls_active s |}.
Definition with_current_profile (p : ControlProfile) (s : FlightControls N) : FlightControls N :=
  {| controller_type := controller_type s; gamepad := gamepad s;
     current_profile := p; vjoy_dev := vjoy_dev s;
     calibration := calibration s; invert_axis := invert_axis s;
     prop_as_speedbrake := prop_as_speedbrake s; control_panel := control_panel s;
     button_states := button_states s; last_pot_values := last_pot_values s;
     controls_active := controls_active s |}.
Definition with_controller_type (c : ControllerType) (s : FlightControls N) : FlightControls N :=
  {| controller_type := c; gamepad := gamepad s;
     current_profile := current_profile s; vjoy_dev := vjoy_dev s;
     calibration := calibration s; invert_axis := invert_axis s;
     prop_as_speedbrake := prop_as_speedbrake s; control_panel := control_panel s;
     button_states := button_states s; last_pot_values := last_pot_values s;
     controls_active := controls_active s |}.
Definition with_vjoy_dev (d : option VJoyDevice) (s : FlightControls N) : FlightControls N :=
  {| controller_type := controller_type s; gamepad := gamepad s;
     current_profile := current_profile s; vjoy_dev := d;
     calibration := calibration s; invert_axis := invert_axis s;
     prop_as_speedbrake := prop_as_speedbrake s; control_panel := control_panel s;
     button_states := button_states s; last_pot_values := last_pot_values s;
     controls_active := controls_active s |}.
Definition with_calibration (c : Control -> Cal.t N) (s : FlightControls N) : FlightControls N :=
  {| controller_type := controller_type s; gamepad := gamepad s;
     current_profile := current_profile s; vjoy_dev := vjoy_dev s;
     calibration := c; invert_axis := invert_axis s;
     prop_as_speedbrake := prop_as_speedbrake s; control_panel := control_panel s;
     button_states := button_states s; last_pot_values := last_pot_values s;
     controls_active := controls_active s |}.
Definition with_invert_axis (i : Control -> bool) (s : FlightControls N) : FlightControls N :=
  {| controller_type := controller_type s; gamepad := gamepad s;
     current_profile := current_profile s; vjoy_dev := vjoy_dev s;
     calibration := calibration s; invert_axis := i;
     prop_as_speedbrake := prop_as_speedbrake s; control_panel := control_panel s;
     button_states := button_states s; last_pot_values := last_pot_values s;
     controls_active := controls_active s |}.
Definition with_control_panel (c : ControlPanelConfig N) (s : FlightControls N) : FlightControls N :=
  {| controller_type := controller_type s; gamepad := gamepad s;
     current_profile := current_profile s; vjoy_dev := vjoy_dev s;
     calibration := calibration s; invert_axis := invert_axis s;
     prop_as_speedbrake := prop_as_speedbrake s; control_panel := c;
     button_states := button_states s; last_pot_values := last_pot_values s;
     controls_active := controls_active s |}.
Definition with_button_states (b : gmap string Z) (s : FlightControls N) : FlightControls N :=
  {| controller_type := controller_type s; gamepad := gamepad s;
     current_profile := current_profile s; vjoy_dev := vjoy_dev s;
     calibration := calibration s; invert_axis := invert_axis s;
     prop_as_speedbrake := prop_as_speedbrake s; control_panel := control_panel s;
     button_states := b; last_pot_values := last_pot_values s;
     controls_active := controls_active s |}.
Definition with_last_pot_values (l : gmap string bool) (s : FlightControls N) : FlightControls N :=
  {| controller_type := controller_type s; gamepad := gamepad s;
     current_profile := current_profile s; vjoy_dev := vjoy_dev s;
     calibration := calibration s; invert_axis := invert_axis s;
     prop_as_speedbrake := prop_as_speedbrake s; control_panel := control_panel s;
     button_states := button_states s; last_pot_values := l;
     controls_active := controls_active s |}.

(** [self.gamepad.right_trigger(value=v)] and its siblings. *)
Definition gamepad_right_trigger (v : Z) : M N unit :=
  modify (fun s => with_gamepad
    {| right_trigger := v; left_trigger := left_trigger (gamepad s);
       right_joystick := right_joystick (gamepad s);
       left_joystick := left_joystick (gamepad s) |} s).
Definition gamepad_left_trigger (v : Z) : M N unit :=
  modify (fun s => with_gamepad
    {| right_trigger := right_trigger (gamepad s); left_trigger := v;
       right_joystick := right_joystick (gamepad s);
       left_joystick := left_joystick (gamepad s) |} s).
Definition gamepad_right_joystick (x y : Z) : M N unit :=
  modify (fun s => with_gamepad
    {| right_trigger := right_trigger (gamepad s);
       left_trigger := left_trigger (gamepad s);
       right_joystick := (x, y);
       left_joystick := left_joystick (gamepad s) |} s).
Definition gamepad_left_joystick (x y : Z) : M N unit :=
  modify (fun s => with_gamepad
    {| right_trigger := right_trigger (gamepad s);
       left_trigger := left_trigger (gamepad s);
       right_joystick := right_joystick (gamepad s);
       left_joystick := (x, y) |} s).

(** [self.vjoy_dev.data.<field> = v]: an edit of the position record of a
    device that is there. *)
Definition vjoy_edit (f : JoystickData -> JoystickData) : M N unit :=
  modify (fun s =>
    match vjoy_dev s with
    | Some d => with_vjoy_dev (Some {| data := f (data d); reported := reported d |}) s
    | None => s
    end).

(** [self.vjoy_dev.update()] *)
Definition vjoy_update : M N unit :=
  modify (fun s =>
    match vjoy_dev s with
    | Some d => with_vjoy_dev (Some {| data := data d; reported := data d |}) s
    | None => s
    end).

End FieldUpdates.

Definition set_wAxisX (v : Z) (d : JoystickData) : JoystickData :=
  {| wAxisX := v; wAxisY := wAxisY d; wAxisZ := wAxisZ d; wAxisXRot := wAxisXRot d;
     wAxisYRot := wAxisYRot d; wAxisZRot := wAxisZRot d; wSlider := wSlider d;
     wDial := wDial d; lButtons := lButtons d |}.
Definition set_wAxisY (v : Z) (d : JoystickData) : JoystickData :=
  {| wAxisX := wAxisX d; wAxisY := v; wAxisZ := wAxisZ d; wAxisXRot := wAxisXRot d;
     wAxisYRot := wAxisYRot d; wAxisZRot := wAxisZRot d; wSlider := wSlider d;
     wDial := wDial d; lButtons := lButtons d |}.
Definition set_wAxisZ (v : Z) (d : JoystickData) : JoystickData :=
  {| wAxisX := wAxisX d; wAxisY := wAxisY d; wAxisZ := v; wAxisXRot := wAxisXRot d;
     wAxisYRot := wAxisYRot d; wAxisZRot := wAxisZRot d; wSlider := wSlider d;
     wDial := wDial d; lButtons := lButtons d |}.
Definition set_wAxisXRot (v : Z) (d : JoystickData) : JoystickData :=
  {| wAxisX := wAxisX d; wAxisY := wAxisY d; wAxisZ := wAxisZ d; wAxisXRot := v;
     wAxisYRot := wAxisYRot d; wAxisZRot := wAxisZRot d; wSlider := wSlider d;
     wDial := wDial d; lButtons := lButtons d |}.
Definition set_wAxisYRot (v : Z) (d : JoystickData) : JoystickData :=
  {| wAxisX := wAxisX d; wAxisY := wAxisY d; wAxisZ := wAxisZ d; wAxisXRot := wAxisXRot d;
     wAxisYRot := v; wAxisZRot := wAxisZRot d; wSlider := wSlider d;
     wDial := wDial d; lButtons := lButtons d |}.
Definition set_wAxisZRot (v : Z) (d : JoystickData) : JoystickData :=
  {| wAxisX := wAxisX d; wAxisY := wAxisY d; wAxisZ := wAxisZ d; wAxisXRot := wAxisXRot d;
     wAxisYRot := wAxisYRot d; wAxisZRot := v; wSlider := wSlider d;
     wDial := wDial d; lButtons := lButtons d |}.
Definition set_wSlider (v : Z) (d : JoystickData) : JoystickData :=
  {| wAxisX := wAxisX d; wAxisY := wAxisY d; wAxisZ := wAxisZ d; wAxisXRot := wAxisXRot d;
     wAxisYRot := wAxisYRot d; wAxisZRot := wAxisZRot d; wSlider := v;
     wDial := wDial d; lButtons := lButtons d |}.
Definition set_wDial (v : Z) (d : JoystickData) : JoystickData :=
  {| wAxisX := wAxisX d; wAxisY := wAxisY d; wAxisZ := wAxisZ d; wAxisXRot := wAxisXRot d;
     wAxisYRot := wAxisYRot d; wAxisZRot := wAxisZRot d; wSlider := wSlider d;
     wDial := v; lButtons := lButtons d |}.
Definition set_lButtons (v : Z) (d : JoystickData) : JoystickData :=
  {| wAxisX := wAxisX d; wAxisY := wAxisY d; wAxisZ := wAxisZ d; wAxisXRot := wAxisXRot d;
     wAxisYRot := wAxisYRot d; wAxisZRot := wAxisZRot d; wSlider := wSlider d;
     wDial := wDial d; lButtons := v |}.

(** ** FlightControls: methods *)

Section FlightControls.
Context {N : Type} `{PyNum N}.

Definition zero_position : JoystickData :=
  {| wAxisX := 0; wAxisY := 0; wAxisZ := 0; wAxisXRot := 0; wAxisYRot := 0;
     wAxisZRot := 0; wSlider := 0; wDial := 0; lButtons := 0 |}.

(** [FlightControls.__init__]; [vjoy_ok] tells whether opening vJoy device 1
    and the first [update()] went through. *)
Definition FlightControls_init (vjoy_ok : bool) : FlightControls N :=
  let d := set_wAxisXRot 0 (set_wAxisZ 16384 (set_wAxisY 16384
             (set_wAxisX 16384 zero_position))) in
  {| controller_type := XBOX;
     gamepad := {| right_trigger := 0; left_trigger := 0;
                   right_joystick := (0, 0)%Z; left_joystick := (0, 0)%Z |};
     current_profile := MSFS;
     vjoy_dev := if vjoy_ok then Some {| data := d; reported := d |} else None;
     calibration := fun _ => Cal.mk (of_int 0) (of_int 100) (of_int 0);
     invert_axis := fun _ => false;
     prop_as_speedbrake := false;
     control_panel := ControlPanelConfig_init;
     button_states := ∅;
     last_pot_values := ∅;
     controls_active := None |}.

Definition calibrate_simple (self : FlightControls N) (value : N) (control_type : Control) : N :=
  let cal := calibration self control_type in
  if (value <=? Cal.idle cal)%py then of_int 0
  else if (Cal.max cal ==? Cal.idle cal)%py then of_int 100
  else
    let ratio := ((value - Cal.idle cal) / (Cal.max cal - Cal.idle cal))%py in
    let ratio := py_max (of_int 0) (py_min (of_int 1) ratio) in
    (ratio * of_int 100)%py.

Definition calibrate_throttle (self : FlightControls N) (value : N) : N :=
  let cal := calibration self throttle in
  if (value <=? Cal.idle cal)%py then of_int 0
  else if (Cal.max cal ==? Cal.idle cal)%py then of_int 100
  else
    let ratio := ((value - Cal.idle cal) / (Cal.max cal - Cal.idle cal))%py in
    let ratio := py_max (of_int 0) (py_min (of_int 1) ratio) in
    (ratio * of_int 100)%py.

Definition calibrate_reverse (self : FlightControls N) (value : N) : N :=
  let cal := calibration self reverse in
  if (value >=? Cal.idle cal)%py then of_int 0
  else if (Cal.idle cal ==? Cal.min cal)%py then of_int 100
  else
    let ratio := ((Cal.idle cal - value) / (Cal.idle cal - Cal.min cal))%py in
    let ratio := py_max (of_int 0) (py_min (of_int 1) ratio) in
    (ratio * of_int 100)%py.

Definition apply_inversion (self : FlightControls N) (value : N) (control_type : Control) : N :=
  if invert_axis self control_type then (of_int 100 - value)%py else value.

Definition process_throttle_input (self : FlightControls N) (raw_value : N) : N * N :=
  let forward := calibrate_throttle self raw_value in
  let reverse_ := calibrate_reverse self raw_value in
  let forward := apply_inversion self forward throttle in
  let reverse_ := apply_inversion self reverse_ reverse in
  (forward, reverse_).

(** [int(x)] where the source writes it. *)
Definition int (x : N) : M N Z := lift (int_of x) ValueError.

Definition map_controls_msfs (throttle_ prop_ mixture_ : N) : M N unit :=
  (if (throttle_ >=? of_int 0)%py
   then
     v ← int (throttle_ * lit 32767 100)%py ;
     gamepad_right_trigger v ;;
     gamepad_left_trigger 0
   else
     gamepad_right_trigger 0 ;;
     v ← int (pabs throttle_ * lit 32767 100)%py ;
     gamepad_left_trigger v) ;;
  y ← int (prop_ * lit 65534 100 - of_int 32768)%py ;
  gamepad_right_joystick 0 y ;;
  y ← int (mixture_ * lit 65534 100 - of_int 32768)%py ;
  gamepad_left_joystick 0 y.

Definition map_controls_dcs (throttle_ prop_ mixture_ : N) : M N unit :=
  x ← int (prop_ * lit 65534 100 - of_int 32768)%py ;
  y ← int (throttle_ * lit 65534 100 - of_int 32768)%py ;
  gamepad_left_joystick x y ;;
  y ← int (mixture_ * lit 65534 100 - of_int 32768)%py ;
  gamepad_right_joystick 0 y.

Definition map_controls_xplane (throttle_ prop_ mixture_ : N) : M N unit :=
  (if (throttle_ >=? of_int 0)%py
   then
     v ← int (throttle_ * lit 32767 100)%py ;
     gamepad_right_trigger v
   else
     v ← int (pabs throttle_ * lit 32767 100)%py ;
     gamepad_left_trigger v) ;;
  x ← int (mixture_ * lit 65534 100 - of_int 32768)%py ;
  y ← int (prop_ * lit 65534 100 - of_int 32768)%py ;
  gamepad_right_joystick x y.

(** The last call passes [y_value] alone; vgamepad declares
    [left_joystick(self, x_value, y_value)] without defaults, so the call
    fails once its argument is evaluated. *)
Definition map_controls_il2 (throttle_ prop_ mixture_ : N) : M N unit :=
  v ← int ((mixture_ + of_int 100) * lit 163835 1000)%py ;
  gamepad_left_trigger v ;;
  v ← int ((prop_ + of_int 100) * lit 163835 1000)%py ;
  gamepad_right_trigger v ;;
  y ← int (throttle_ * lit 65534 100 - of_int 32768)%py ;
  raise TypeError.

(** [max(0, min(32768, int(x * 327.68)))] *)
Definition vjoy_scale (x : N) : M N Z :=
  v ← int (x * lit 32768 100)%py ;
  ret (Z.max 0 (Z.min 32768 v)).

(** The body of the [try] of [map_controls_vjoy] (and of its copy
    [map_controls_war_thunder]); both branches on [prop_as_speedbrake]
    compute the same. *)
Definition vjoy_mapping (throttle_raw prop_raw mixture_raw : N) : M N (N * N * N * N) :=
  self ← get ;
  let '(forward_throttle, reverse_throttle) := process_throttle_input self throttle_raw in
  let prop_ :=
    if prop_as_speedbrake self
    then apply_inversion self (calibrate_simple self prop_raw prop) prop
    else apply_inversion self (calibrate_simple self prop_raw prop) prop in
  let mixture_ := apply_inversion self (calibrate_simple self mixture_raw mixture) mixture in
  forward_value ← vjoy_scale forward_throttle ;
  vjoy_edit (set_wAxisX forward_value) ;;
  reverse_value ← vjoy_scale reverse_throttle ;
  vjoy_edit (set_wAxisXRot reverse_value) ;;
  prop_value ← vjoy_scale prop_ ;
  vjoy_edit (set_wAxisY prop_value) ;;
  mixture_value ← vjoy_scale mixture_ ;
  vjoy_edit (set_wAxisZ mixture_value) ;;
  vjoy_update ;;
  ret (forward_throttle, reverse_throttle, prop_, mixture_).

(** [return 0, 0, 0, 0] *)
Definition zeros : N * N * N * N := (of_int 0, of_int 0, of_int 0, of_int 0).

Definition map_controls_vjoy (throttle_raw prop_raw mixture_raw : N) : M N (N * N * N * N) :=
  self ← get ;
  match vjoy_dev self with
  | None => ret zeros
  | Some _ =>
      try_except (vjoy_mapping throttle_raw prop_raw mixture_raw) (fun _ => ret zeros)
  end.

Definition map_controls_war_thunder (throttle_raw prop_raw mixture_raw : N) : M N (N * N * N * N) :=
  self ← get ;
  match vjoy_dev self with
  | None => ret zeros
  | Some _ =>
      try_except (vjoy_mapping throttle_raw prop_raw mixture_raw) (fun _ => ret zeros)
  end.

(** [mapping_functions[self.current_profile]]: the dictionary has no entry
    for War Thunder, which never reaches the lookup. *)
Definition mapping_functions (p : ControlProfile) : option (N -> N -> N -> M N unit) :=
  match p with
  | MSFS => Some map_controls_msfs
  | DCS => Some map_controls_dcs
  | XPLANE => Some map_controls_xplane
  | IL2 => Some map_controls_il2
  | WAR_THUNDER => None
  end.

Definition is_VJOY (c : ControllerType) : bool :=
  match c with VJOY => true | XBOX => false end.
Definition is_WAR_THUNDER (p : ControlProfile) : bool :=
  match p with WAR_THUNDER => true | _ => false end.

Definition apply_mapping (throttle_raw prop_raw mixture_raw : N) : M N (N * N * N * N) :=
  self ← get ;
  let prop_ := calibrate_simple self prop_raw prop in
  let mixture_ := calibrate_simple self mixture_raw mixture in
  let prop_ := apply_inversion self prop_ prop in
  let mixture_ := apply_inversion self mixture_ mixture in
  if is_VJOY (controller_type self) || is_WAR_THUNDER (current_profile self)
  then map_controls_vjoy throttle_raw prop_raw mixture_raw
  else
    let '(forward, reverse_) := process_throttle_input self throttle_raw in
    match mapping_functions (current_profile self) with
    | Some f => f (forward - reverse_)%py prop_ mixture_
    | None => raise TypeError
    end ;;
    ret (forward, reverse_, prop_, mixture_).

(** *** The auxiliary panel *)

(** [f"pot_{i}_button_{button_id}"] *)
Definition button_key (i : nat) (button_id : Z) : string :=
  "pot_" +:+ pretty i +:+ "_button_" +:+ pretty button_id.

(** [d.get(key, default)] *)
Definition dict_get {V} (d : gmap string V) (key : string) (default_ : V) : V :=
  default default_ (d !! key).

(** The [if]/[elif] chain on [config['vjoy_axis']]; an unknown name writes
    nothing. *)
Definition axis_setter (axis : string) (axis_value : Z) : JoystickData -> JoystickData :=
  if String.eqb axis "X" then set_wAxisX axis_value
  else if String.eqb axis "Y" then set_wAxisY axis_value
  else if String.eqb axis "Z" then set_wAxisZ axis_value
  else if String.eqb axis "RX" then set_wAxisXRot axis_value
  else if String.eqb axis "RY" then set_wAxisYRot axis_value
  else if String.eqb axis "RZ" then set_wAxisZRot axis_value
  else if String.eqb axis "SL0" then set_wSlider axis_value
  else if String.eqb axis "SL1" then set_wDial axis_value
  else id.

(** A call of a [ControlPanelConfig] method on [self.control_panel]. *)
Definition on_control_panel {A} (m : method N A) : M N A := fun self =>
  let '(a, cp) := m (control_panel self) in
  (Return a, with_control_panel cp self).

(** [1 if current_button_state == 0 else 0] *)
Definition toggled (current_button_state : Z) : Z :=
  if (current_button_state =? 0)%Z then 1 else 0.

(** The toggle bookkeeping of a Switch or Button pot (lines 546-576): it
    returns [button_state]. *)
Definition update_button_state (config : Pot.t N) (button_key : string)
    (current_threshold_state : bool) : M N Z :=
  self ← get;
  let previous_threshold_state := dict_get (last_pot_values self) button_key false in
  button_state ←
    (if String.eqb (Pot.type config) "Switch"
     then
       (if negb (eqb current_threshold_state previous_threshold_state)
        then
          if current_threshold_state
          then
            let current_button_state := dict_get (button_states self) button_key 0%Z in
            let new_button_state := toggled current_button_state in
            modify (fun s => with_button_states
                               (<[button_key := new_button_state]> (button_states s)) s)
          else ret tt
        else ret tt) ;;
       self ← get;
       ret (dict_get (button_states self) button_key 0%Z)
     else
       let button_state := if current_threshold_state then 1%Z else 0%Z in
       modify (fun s => with_button_states
                          (<[button_key := button_state]> (button_states s)) s) ;;
       ret button_state);
  modify (fun s => with_last_pot_values
                     (<[button_key := current_threshold_state]> (last_pot_values s)) s) ;;
  ret button_state.

(** The button bit of [lButtons] (lines 583-595); [1 << bit_position]
    raises for a negative count. *)
Definition set_button_bit (button_id button_state : Z) : M N unit :=
  let bit_position := (button_id - 1)%Z in
  button_mask ← lift (if (bit_position <? 0)%Z then None
                      else Some (Z.shiftl 1 bit_position)) ValueError;
  vjoy_edit (fun d =>
    let current_buttons := lButtons d in
    if (button_state =? 0)%Z
    then set_lButtons (Z.land current_buttons (Z.lnot button_mask)) d
    else set_lButtons (Z.lor current_buttons button_mask) d).

(** The [try] block of a Switch or Button pot with a button id (lines
    539-608).  The fallback [set_button] talks to the driver directly and
    edits no field of [data]. *)
Definition map_button (i : nat) (config : Pot.t N) (button_id : Z)
    (processed raw_value : N) : M N unit :=
  try_except
    (let button_key := button_key i button_id in
     let current_threshold_state := (processed >? Pot.threshold config)%py in
     button_state ← update_button_state config button_key current_threshold_state;
     int raw_value ;;
     try_except (set_button_bit button_id button_state) (fun _ => ret tt))
    (fun _ => ret tt).

(** One turn of the loop of [process_control_panel] for pot [i]: the value
    appended to [processed_values], after the writes of that turn. *)
Definition process_pot (controls_active_ : bool) (i : nat) (raw_value : option N) : M N N :=
  self ← get;
  match pot_config (control_panel self) !! i with
  | None => ret (of_int 0)
  | Some config =>
      match raw_value with
      | None => ret (of_int 0)
      | Some raw_value =>
          processed ← on_control_panel (process_pot_value (Z.of_nat i) raw_value);
          if negb controls_active_ then ret processed
          else
            match (if String.eqb (Pot.type config) "Axis"
                   then Pot.vjoy_axis config else None) with
            | Some axis =>
                axis_value ← int (processed * lit 32768 100)%py;
                int raw_value ;;
                vjoy_edit (axis_setter axis axis_value) ;;
                ret processed
            | None =>
                match (if String.eqb (Pot.type config) "Switch"
                          || String.eqb (Pot.type config) "Button"
                       then Pot.button_id config else None) with
                | Some button_id =>
                    map_button i config button_id processed raw_value ;;
                    ret processed
                | None => ret processed
                end
            end
      end
  end.

(** [for i, raw_value in enumerate(pot_values)], with its [break]. *)
Fixpoint panel_loop (controls_active_ : bool) (i : nat) (pot_values : list (option N))
    (processed_values : list N) : M N (list N) :=
  match pot_values with
  | [] => ret processed_values
  | raw_value :: rest =>
      self ← get;
      if bool_decide (length (pot_config (control_panel self)) ≤ i)%nat
      then ret processed_values
      else
        processed ← process_pot controls_active_ i raw_value;
        panel_loop controls_active_ (S i) rest (processed_values ++ [processed])
  end.

(** [process_control_panel]: without a vJoy device the argument comes back
    as it is; [button_states] and [last_pot_values] exist since
    [__init__]. *)
Definition process_control_panel (pot_values : list (option N)) : M N (list (option N)) :=
  self ← get;
  match vjoy_dev self with
  | None => ret pot_values
  | Some _ =>
      let controls_active_ := default true (controls_active self) in
      processed_values ← panel_loop controls_active_ 0 pot_values [];
      vjoy_update ;;
      ret (Some <$> processed_values)
  end.

Definition next_profile_of (p : ControlProfile) : ControlProfile :=
  match p with
  | MSFS => DCS | DCS => XPLANE | XPLANE => IL2 | IL2 => WAR_THUNDER
  | WAR_THUNDER => MSFS
  end.

Definition next_profile : M N ControlProfile :=
  self ← get ;
  let p := next_profile_of (current_profile self) in
  modify (with_current_profile p) ;;
  ret p.

End FlightControls.

(** ** Calibration actions of the interface

    The buttons of [FlightControlGUI] that calibrate the throttle quadrant.
    Each of them takes the last raw value received for its control and
    assigns it to one entry of [self.controls.calibration]; the rest of the
    method updates labels.  The raw value is an argument here. *)

Definition Control_eqb (a b : Control) : bool :=
  match a, b with
  | throttle, throttle | reverse, reverse | prop, prop | mixture, mixture => true
  | _, _ => false
  end.

Section CalibrationActions.
Context {N : Type}.

(** [self.controls.calibration[control_type][key] = v] *)
Definition update_calibration (control_type : Control) (f : Cal.t N -> Cal.t N)
    (s : FlightControls N) : FlightControls N :=
  with_calibration
    (fun c => if Control_eqb control_type c then f (calibration s c) else calibration s c) s.

(** [set_idle_point(control_type)] *)
Definition set_idle_point (control_type : Control) (raw_value : N)
    (s : FlightControls N) : FlightControls N :=
  update_calibration control_type (fun cal => Cal.mk (Cal.min cal) (Cal.max cal) raw_value) s.

(** [set_max_forward()]: the throttle entry's [max]. *)
Definition set_max_forward (raw_value : N) (s : FlightControls N) : FlightControls N :=
  update_calibration throttle (fun cal => Cal.mk (Cal.min cal) raw_value (Cal.idle cal)) s.

(** [set_max_reverse()]: the reverse entry's [min]. *)
Definition set_max_reverse (raw_value : N) (s : FlightControls N) : FlightControls N :=
  update_calibration reverse (fun cal => Cal.mk raw_value (Cal.max cal) (Cal.idle cal)) s.

(** [set_max_position(control_type)] *)
Definition set_max_position (control_type : Control) (raw_value : N)
    (s : FlightControls N) : FlightControls N :=
  update_calibration control_type (fun cal => Cal.mk (Cal.min cal) raw_value (Cal.idle cal)) s.

(** [reset_control_panel_mapping()]: every pot loses its axis and its
    button. *)
Definition reset_control_panel_mapping (s : FlightControls N) : FlightControls N :=
  with_control_panel
    {| pot_config := (fun c => Pot.set_button_id None (Pot.set_vjoy_axis None c))
                       <$> pot_config (control_panel s) |} s.

(** [reset_toggle_states()]: both dictionaries are replaced by empty
    ones. *)
Definition reset_toggle_states (s : FlightControls N) : FlightControls N :=
  with_last_pot_values ∅ (with_button_states ∅ s).

End CalibrationActions.

(** ** Reading aids

    Names for what the properties below talk about. *)

(** What [max(0, min(32768, v))] leaves of a converted value. *)
Definition axis_range (v : Z) : Z := Z.max 0 (Z.min 32768 v).

(** The position record after the four axis writes of the vJoy mapping. *)
Definition mapped_position (x rx y z : Z) (d : JoystickData) : JoystickData :=
  set_wAxisZ (axis_range z) (set_wAxisY (axis_range y)
    (set_wAxisXRot (axis_range rx) (set_wAxisX (axis_range x) d))).

(** The scaling law in the words of the specification:
    [round(percentage * fullScale / 100)], with Python's [round] (to the
    nearest integer, ties to the even one). *)
Definition py_round (q : Q) : Z :=
  let f := Qfloor q in
  let r := (q - inject_Z f)%Q in
  if Qle_bool r (1 # 2)
  then (if Qle_bool (1 # 2) r then (if Z.even f then f else f + 1)%Z else f)
  else (f + 1)%Z.

Definition spec_scale (percentage fullScale : Z) : Z :=
  py_round (inject_Z percentage * inject_Z fullScale / 100)%Q.

(** The full scale the factor 327.67 of the trigger mappings stands for:
    [int(100 * 327.67)]. *)
Definition triggerFullScale : Z := 32767.

(** A computation that leaves the observation [P] of the state alone,
    however it ends. *)
Definition preserves {N X A} (P : FlightControls N -> X) (m : M N A) : Prop :=
  forall s, P (snd (m s)) = P s.

(** A computation over exact rationals that ends with [return], from every
    state. *)
Definition returns {A} (m : M Q A) : Prop := forall s, exists a, fst (m s) = Return a.

Section ToggleReading.
Context {N : Type} `{PyNum N}.

(** [self.button_states.get(key, 0)] and
    [self.last_pot_values.get(key, False)]: the toggle state of a key as
    the next call will find it. *)
Definition stored_button (key : string) (s : FlightControls N) : Z :=
  dict_get (button_states s) key 0%Z.
Definition stored_threshold (key : string) (s : FlightControls N) : bool :=
  dict_get (last_pot_values s) key false.

(** Whether the calibrated value of a sample, [calibrated] of
    [process_pot_value] after inversion, is above the threshold of its
    pot. *)
Definition above_threshold (config : Pot.t N) (raw_value : N) : bool :=
  (inverted_pot config raw_value >? Pot.threshold config)%py.

(** What the toggle bookkeeping shows of a key. *)
Definition toggle_view (key : string) (s : FlightControls N) : Z * bool :=
  (stored_button key s, stored_threshold key s).

(** One sample through the latch of a Switch pot: the stored button state
    is toggled when the sample is above and the one before it was not. *)
Definition switch_step (above : bool) (view : Z * bool) : Z * bool :=
  ((if above && negb (snd view) then toggled (fst view) else fst view), above).

(** Whether a vJoy device is there. *)
Definition has_device (s : FlightControls N) : bool :=
  match vjoy_dev s with Some _ => true | None => false end.

(** What a call leaves alone of the panel set-up. *)
Definition panel_view (s : FlightControls N)
    : ControlPanelConfig N * option bool * bool :=
  (control_panel s, controls_active s, has_device s).


(** The serial reader: one call of [process_control_panel] per frame
    received.  The list returned is the stored button state of [key] after
    each call. *)
Fixpoint feed_frames (key : string) (frames : list (list (option N))) : M N (list Z) :=
  match frames with
  | [] => ret []
  | pot_values :: rest =>
      process_control_panel pot_values ;;
      self ← get;
      buttons ← feed_frames key rest;
      ret (stored_button key self :: buttons)
  end.

End ToggleReading.




(** ** Scenarios

    States and configurations the properties below are read at. *)

Section PanelReading.
Context {N : Type} `{PyNum N}.

(** What a turn of the loop of [process_control_panel] appends for pot [j]:
    0 for a missing sample, the processed value otherwise. *)
Definition pot_reading (cp : ControlPanelConfig N) (j : nat) (raw_value : option N) : N :=
  match raw_value with
  | None => of_int 0
  | Some raw_value => fst (process_pot_value (Z.of_nat j) raw_value cp)
  end.

(** The readings of a frame: one per sample, as far as there are pots. *)
Definition panel_readings (cp : ControlPanelConfig N) (pot_values : list (option N)) : list N :=
  imap (pot_reading cp) (take (length (pot_config cp)) pot_values).

(** A computation that, when it returns, returns [v]. *)
Definition yields {A} (v : A) (m : M N A) : Prop :=
  forall s a s', m s = (Return a, s') -> a = v.


(** One sample through the bookkeeping of a key: the latch of a Switch
    pot, the level of a Button pot. *)
Definition button_step (config : Pot.t N) (above : bool) (view : Z * bool) : Z * bool :=
  if String.eqb (Pot.type config) "Switch" then switch_step above view
  else ((if above then 1 else 0)%Z, above).




End PanelReading.

(** [list(ControlProfile)]: the members in the order of their definition. *)
Definition profiles : list ControlProfile := [MSFS; DCS; XPLANE; IL2; WAR_THUNDER].

(** [profiles.index(p)] *)
Definition profile_index (p : ControlProfile) : nat :=
  match p with
  | MSFS => 0 | DCS => 1 | XPLANE => 2 | IL2 => 3 | WAR_THUNDER => 4
  end.

(** What neither output device holds: the settings, the panel and the
    toggle state. *)
Definition settings_view {N} (s : FlightControls N) :=
  (controller_type s, current_profile s, calibration s, invert_axis s,
   prop_as_speedbrake s, control_panel s, button_states s, last_pot_values s,
   controls_active s).

(** Whether [apply_mapping] takes the vJoy route from [s]. *)
Definition vjoy_route {N} (s : FlightControls N) : bool :=
  is_VJOY (controller_type s) || is_WAR_THUNDER (current_profile s).

(** The value written to a stick, [int(x * 655.34 - 32768)], and to a
    trigger, [int(x * 327.67)], over the rationals. *)
Definition stick_value (x : Q) : Z := Qtrunc (x * lit 65534 100 - of_int 32768)%py.
Definition trigger_value (x : Q) : Z := Qtrunc (x * lit 32767 100)%py.

Section Scenarios.
Context {N : Type} `{PyNum N}.

(** The calibration profile [{min: 0, idle: 200, max: 1000}]. *)
Definition scenario_profile : Cal.t N := Cal.mk (of_int 0) (of_int 1000) (of_int 200).

(** A fresh [FlightControls] whose throttle and reverse entries were set to
    [scenario_profile]. *)
Definition scenario_controls : FlightControls N :=
  with_calibration
    (fun c => match c with
              | throttle | reverse => scenario_profile
              | _ => Cal.mk (of_int 0) (of_int 100) (of_int 0)
              end)
    (FlightControls_init true).

(** A fresh panel after [calibrate_pot_min(0, 100)]: pot 0 has the
    zero-width range [100, 100]. *)
Definition zero_width_panel : ControlPanelConfig N :=
  snd (calibrate_pot_min 0 (of_int 100) ControlPanelConfig_init).

(** A fresh panel after [calibrate_pot_min(0, 900)]: pot 0 has the inverted
    bounds [900, 100]. *)
Definition inverted_bounds_panel : ControlPanelConfig N :=
  snd (calibrate_pot_min 0 (of_int 900) ControlPanelConfig_init).

(** A fresh [FlightControls] on which vJoy did not open, switched to the
    vJoy controller. *)
Definition no_sink_controls : FlightControls N :=
  with_controller_type VJOY (FlightControls_init false).


(** A fresh [FlightControls] whose pot 2 was made a Switch on button 3,
    threshold 50, calibrated to the raw range 0..1023. *)
Definition switch_controls : FlightControls N :=
  with_control_panel
    (update_pot 2 (fun c => Pot.set_button_id (Some 3%Z)
                              (Pot.set_calibrated_max (of_int 1023)
                                 (Pot.set_type "Switch" c)))
       ControlPanelConfig_init)
    (FlightControls_init true).

(** A fresh panel after [calibrate_pot_min(1, 100)] and
    [calibrate_pot_max(1, 900)]. *)
Definition calibrated_panel : ControlPanelConfig N :=
  snd (calibrate_pot_max 1 (of_int 900) (snd (calibrate_pot_min 1 (of_int 100)
         ControlPanelConfig_init))).

(** [scenario_controls] on the Xbox controller with the profile [p]. *)
Definition profile_controls (p : ControlProfile) : FlightControls N :=
  with_current_profile p scenario_controls.



(** [switch_controls] after [controls_active] was set to [False], as
    [load_settings] does from a settings file that says so. *)
Definition paused_controls : FlightControls N :=
  let s := switch_controls in
  {| controller_type := controller_type s; gamepad := gamepad s;
     current_profile := current_profile s; vjoy_dev := vjoy_dev s;
     calibration := calibration s; invert_axis := invert_axis s;
     prop_as_speedbrake := prop_as_speedbrake s; control_panel := control_panel s;
     button_states := button_states s; last_pot_values := last_pot_values s;
     controls_active := Some false |}.

(** A frame of the panel with the raw value [r] on every pot. *)
Definition frame_of (r : Z) : list (option N) := replicate 7 (Some (of_int r)).

(** [switch_controls] with toggle state on record for its Switch: the
    button released, the last sample above the threshold. *)
Definition used_switch_controls : FlightControls N :=
  with_last_pot_values (<[button_key 2 3 := true]> ∅)
    (with_button_states (<[button_key 2 3 := 0%Z]> ∅) switch_controls).

End Scenarios.

(** * Properties *)

(** ** The decimal literals at binary64 *)

Example lit_327_67 : lit 32767 100 = 327.67%float.
Proof. vm_compute. reflexivity. Qed.
Example lit_327_68 : lit 32768 100 = 327.68%float.
Proof. vm_compute. reflexivity. Qed.
Example lit_655_34 : lit 65534 100 = 655.34%float.
Proof. vm_compute. reflexivity. Qed.
Example lit_163_835 : lit 163835 1000 = 163.835%float.
Proof. vm_compute. reflexivity. Qed.

(** ** Comparisons and clamping over exact rationals *)

Section RationalFacts.
Local Open Scope Q_scope.

Lemma plt_Q (a b : Q) : plt a b = true <-> a < b.
Proof.
  cbn. rewrite negb_true_iff, <- not_true_iff_false, Qle_bool_iff.
  split; [apply Qnot_le_lt | apply Qlt_not_le].
Qed.

Lemma plt_Q_false (a b : Q) : plt a b = false <-> b <= a.
Proof. cbn. rewrite negb_false_iff. apply Qle_bool_iff. Qed.

Lemma ple_Q (a b : Q) : ple a b = true <-> a <= b.
Proof. cbn. apply Qle_bool_iff. Qed.

Lemma ple_Q_false (a b : Q) : ple a b = false <-> b < a.
Proof.
  cbn. rewrite <- not_true_iff_false, Qle_bool_iff.
  split; [apply Qnot_le_lt | apply Qlt_not_le].
Qed.

Lemma peq_Q (a b : Q) : peq a b = true <-> a == b.
Proof. cbn. apply Qeq_bool_iff. Qed.

(** [max(lo, min(hi, x))] lands between its bounds. *)
Lemma clamp_Q (lo hi x : Q) :
  lo <= hi -> lo <= py_max lo (py_min hi x) <= hi.
Proof.
  intros Hlh. unfold py_max, py_min.
  destruct (plt x hi) eqn:E1.
  - apply plt_Q in E1. destruct (plt lo x) eqn:E2.
    + apply plt_Q in E2. lra.
    + lra.
  - destruct (plt lo hi) eqn:E2; lra.
Qed.

(** Where the clamp leaves a value alone. *)
Lemma clamp_Q_id (lo hi x : Q) :
  lo <= x <= hi -> py_max lo (py_min hi x) == x.
Proof.
  intros [Hlo Hhi]. unfold py_max, py_min.
  destruct (plt x hi) eqn:E1.
  - destruct (plt lo x) eqn:E2; [reflexivity |].
    apply plt_Q_false in E2. lra.
  - apply plt_Q_false in E1.
    destruct (plt lo hi) eqn:E2; [lra |].
    apply plt_Q_false in E2. lra.
Qed.

End RationalFacts.

(** The rational instance, unfolded to the operations of [Q]. *)
Ltac q_ops :=
  cbv [of_int padd psub pmul pdiv PyNum_Q inject_Z] in *.

(** ** The panel configuration: defaults, setters, index guard *)

Section PanelConfiguration.
Context {N : Type} `{PyNum N}.

Lemma init_length : length (pot_config (ControlPanelConfig_init (N:=N))) = 7%nat.
Proof. reflexivity. Qed.

Lemma index_ok_false (self : ControlPanelConfig N) (index : Z) :
  length (pot_config self) = 7%nat -> (index < 0 \/ 6 < index)%Z ->
  index_ok index self = false.
Proof.
  intros Hlen Hout. unfold index_ok. rewrite Hlen.
  apply andb_false_iff. rewrite Z.leb_gt, Z.ltb_ge. lia.
Qed.

Lemma index_ok_true (self : ControlPanelConfig N) (index : Z) :
  index_ok index self = true ->
  (0 <= index)%Z /\ (Z.to_nat index < length (pot_config self))%nat.
Proof.
  unfold index_ok. rewrite andb_true_iff, Z.leb_le, Z.ltb_lt. lia.
Qed.

(** The setters keep the number of pots. *)
Lemma update_pot_length (index : Z) (f : Pot.t N -> Pot.t N) (self : ControlPanelConfig N) :
  length (pot_config (update_pot index f self)) = length (pot_config self).
Proof. unfold update_pot. cbn. apply length_alter. Qed.

(** C8, what the constructor builds: all seven pots start with
    [calibrated_min = 0] and [calibrated_max = 100], the value of the
    percentage field [max], not the top of the raw range 1023. *)
Theorem init_calibrated_bounds :
  Pot.calibrated_min <$> pot_config (ControlPanelConfig_init (N:=N)) = replicate 7 (of_int 0)
  /\ Pot.calibrated_max <$> pot_config (ControlPanelConfig_init (N:=N)) = replicate 7 (of_int 100).
Proof. split; reflexivity. Qed.

(** C9: for a panel of seven pots, an index below 0 or above 6 makes
    [process_pot_value] return 0 for every raw value; the lookup
    [pot_config[index]] is not reached and [self] comes back as it went
    in. *)
Theorem process_pot_value_out_of_range
    (self : ControlPanelConfig N) (index : Z) (raw_value : N) :
  length (pot_config self) = 7%nat ->
  (index < 0 \/ 6 < index)%Z ->
  process_pot_value index raw_value self = (of_int 0, self).
Proof.
  intros Hlen Hout. unfold process_pot_value. rewrite Hlen.
  destruct Hout as [Hneg | Hbig].
  - apply Z.ltb_lt in Hneg. rewrite Hneg. reflexivity.
  - assert (Hle : (Z.of_nat 7 <=? index)%Z = true) by (apply Z.leb_le; lia).
    rewrite Hle, orb_true_r. reflexivity.
Qed.

(** [process_pot_value] writes nothing, whatever it is given. *)
Lemma process_pot_value_reads_only (self : ControlPanelConfig N) (index : Z) (raw_value : N) :
  snd (process_pot_value index raw_value self) = self.
Proof.
  unfold process_pot_value.
  destruct (_ || _); [reflexivity |].
  destruct (pot_config self !! Z.to_nat index); [| reflexivity].
  destruct (String.eqb _ _); reflexivity.
Qed.

(** C10: a setter called with invalid arguments changes nothing.
    [set_pot_type] with a name outside [CONTROL_TYPES] is a no-op at every
    index, and each of the six setters is a no-op at an index outside
    0..6. *)
Theorem setters_reject_invalid_arguments (self : ControlPanelConfig N) :
  length (pot_config self) = 7%nat ->
  (forall index type_name,
      type_name ∉ CONTROL_TYPES -> set_pot_type index type_name self = (tt, self))
  /\ (forall index, (index < 0 \/ 6 < index)%Z ->
      (forall name, set_pot_name index name self = (tt, self))
      /\ (forall type_name, set_pot_type index type_name self = (tt, self))
      /\ (forall threshold, set_pot_threshold index threshold self = (tt, self))
      /\ toggle_pot_inversion index self = (tt, self)
      /\ (forall value, calibrate_pot_min index value self = (tt, self))
      /\ (forall value, calibrate_pot_max index value self = (tt, self))).
Proof.
  intros Hlen. split.
  - intros index type_name Hnot. unfold set_pot_type.
    rewrite (bool_decide_eq_false_2 _ Hnot), andb_false_r. reflexivity.
  - intros index Hout.
    pose proof (index_ok_false self index Hlen Hout) as Hko.
    unfold set_pot_name, set_pot_type, set_pot_threshold, toggle_pot_inversion,
      calibrate_pot_min, calibrate_pot_max.
    rewrite Hko. repeat split; reflexivity.
Qed.

End PanelConfiguration.

(** With these defaults a pot saturates early: raw 512 of 1023 on a fresh
    panel already reads 100, at binary64 and at exact rationals. *)
Example fresh_panel_saturates :
  fst (process_pot_value (N:=float) 0 512%float ControlPanelConfig_init) = 100%float
  /\ fst (process_pot_value (N:=Q) 0 (512 # 1)%Q ControlPanelConfig_init) = 100%Q.
Proof. split; vm_compute; reflexivity. Qed.

(** Index 7 and index -1 on a fresh panel, at both instances. *)
Lemma process_pot_value_out_of_range_witness :
  process_pot_value 7 (512 # 1)%Q (ControlPanelConfig_init (N:=Q))
  = (of_int 0, ControlPanelConfig_init)
  /\ process_pot_value (-1) 512%float (ControlPanelConfig_init (N:=float))
     = (of_int 0, ControlPanelConfig_init).
Proof.
  split.
  - apply (process_pot_value_out_of_range (N:=Q)); [reflexivity | lia].
  - apply (process_pot_value_out_of_range (N:=float)); [reflexivity | lia].
Defined.

(** An unknown type name at index 2 and a calibration at index 7, on a
    fresh panel. *)
Lemma setters_reject_invalid_arguments_witness :
  set_pot_type 2 "Slider" (ControlPanelConfig_init (N:=Q)) = (tt, ControlPanelConfig_init)
  /\ calibrate_pot_max 7 (900 # 1)%Q (ControlPanelConfig_init (N:=Q)) = (tt, ControlPanelConfig_init).
Proof.
  destruct (setters_reject_invalid_arguments (N:=Q) ControlPanelConfig_init eq_refl)
    as [Htype Hindex].
  split.
  - apply Htype. vm_compute. intros Hin.
    repeat (apply elem_of_cons in Hin; destruct Hin as [Heq | Hin]; [discriminate Heq |]).
    apply elem_of_nil in Hin. exact Hin.
  - apply (Hindex 7%Z); lia.
Defined.

(** ** Idle-split calibration of the throttle *)

Section IdleSplitGeneric.
Context {N : Type} `{PyNum N}.

(** At or below the idle point of the throttle entry there is no forward
    thrust: the first test of [calibrate_throttle] decides, at any
    arithmetic. *)
Lemma calibrate_throttle_below_idle (s : FlightControls N) (r : N) :
  (r <=? Cal.idle (calibration s throttle))%py = true ->
  calibrate_throttle s r = of_int 0.
Proof. intros Hle. unfold calibrate_throttle. rewrite Hle. reflexivity. Qed.

(** At or above the idle point of the reverse entry there is no reverse
    thrust. *)
Lemma calibrate_reverse_above_idle (s : FlightControls N) (r : N) :
  (r >=? Cal.idle (calibration s reverse))%py = true ->
  calibrate_reverse s r = of_int 0.
Proof. intros Hge. unfold calibrate_reverse. rewrite Hge. reflexivity. Qed.

Lemma apply_inversion_off (s : FlightControls N) (v : N) (c : Control) :
  invert_axis s c = false -> apply_inversion s v c = v.
Proof. intros Hoff. unfold apply_inversion. rewrite Hoff. reflexivity. Qed.

End IdleSplitGeneric.

Section IdleSplitRational.
Local Open Scope Q_scope.

(** A clamped ratio scaled by 100 is a percentage. *)
Lemma scaled_ratio_range (ratio : Q) :
  0 <= py_max 0 (py_min 1 ratio) * 100 <= 100.
Proof.
  pose proof (clamp_Q 0 1 ratio) as Hc.
  assert (H01 : 0 <= 1) by lra. specialize (Hc H01). q_ops. lra.
Qed.

Lemma calibrate_throttle_range (s : FlightControls Q) (r : Q) :
  0 <= calibrate_throttle s r <= 100.
Proof.
  unfold calibrate_throttle.
  destruct (ple r _); [q_ops; lra |].
  destruct (peq _ _); [q_ops; lra |].
  apply scaled_ratio_range.
Qed.

Lemma calibrate_reverse_range (s : FlightControls Q) (r : Q) :
  0 <= calibrate_reverse s r <= 100.
Proof.
  unfold calibrate_reverse.
  destruct (ple _ r); [q_ops; lra |].
  destruct (peq _ _); [q_ops; lra |].
  apply scaled_ratio_range.
Qed.

Lemma calibrate_simple_range (s : FlightControls Q) (r : Q) (c : Control) :
  0 <= calibrate_simple s r c <= 100.
Proof.
  unfold calibrate_simple.
  destruct (ple r _); [q_ops; lra |].
  destruct (peq _ _); [q_ops; lra |].
  apply scaled_ratio_range.
Qed.

Lemma apply_inversion_range (s : FlightControls Q) (v : Q) (c : Control) :
  0 <= v <= 100 -> 0 <= apply_inversion s v c <= 100.
Proof.
  intros Hv. unfold apply_inversion. destruct (invert_axis s c); q_ops; lra.
Qed.

(** C6: with inversion off for throttle and reverse, a raw value at or
    below the idle point gives forward 0, a raw value at or above the idle
    point gives reverse 0, and both outputs are percentages in [0, 100] for
    every raw value. *)
Theorem idle_split_sides_and_range (s : FlightControls Q) (r : Q) :
  invert_axis s throttle = false ->
  invert_axis s reverse = false ->
  (r <= Cal.idle (calibration s throttle) -> fst (process_throttle_input s r) = 0)
  /\ (Cal.idle (calibration s reverse) <= r -> snd (process_throttle_input s r) = 0)
  /\ 0 <= fst (process_throttle_input s r) <= 100
  /\ 0 <= snd (process_throttle_input s r) <= 100.
Proof.
  intros Ht Hr. unfold process_throttle_input. cbn [fst snd].
  rewrite !apply_inversion_off by assumption.
  repeat split.
  - intros Hle. exact (calibrate_throttle_below_idle s r (proj2 (ple_Q _ _) Hle)).
  - intros Hge. exact (calibrate_reverse_above_idle s r (proj2 (ple_Q _ _) Hge)).
  - apply calibrate_throttle_range.
  - apply calibrate_throttle_range.
  - apply calibrate_reverse_range.
  - apply calibrate_reverse_range.
Qed.

End IdleSplitRational.

(** Raw 150 (below idle 200) and raw 640 (above it) on the scenario
    calibration. *)
Lemma idle_split_sides_and_range_witness :
  fst (process_throttle_input (N:=Q) scenario_controls (150 # 1)) = 0%Q
  /\ snd (process_throttle_input (N:=Q) scenario_controls (640 # 1)) = 0%Q
  /\ (0 <= fst (process_throttle_input (N:=Q) scenario_controls (640 # 1)) <= 100)%Q
  /\ (0 <= snd (process_throttle_input (N:=Q) scenario_controls (150 # 1)) <= 100)%Q.
Proof.
  pose proof (idle_split_sides_and_range scenario_controls (150 # 1) eq_refl eq_refl)
    as (Hf & _ & _ & Hr).
  pose proof (idle_split_sides_and_range scenario_controls (640 # 1) eq_refl eq_refl)
    as (_ & Hs & Hfr & _).
  split; [| split; [| split]].
  - apply Hf. vm_compute. discriminate.
  - apply Hs. vm_compute. discriminate.
  - exact Hfr.
  - exact Hr.
Defined.

(** C7: with throttle and reverse calibrated to [{min: 0, idle: 200,
    max: 1000}] and inversion off, raw 0 gives forward 0 and reverse 100,
    raw 200 gives 0 and 0, raw 1000 gives forward 100 and reverse 0; at
    exact rationals and at binary64 alike. *)
Theorem idle_split_scenario :
  (forall s : FlightControls Q,
      calibration s throttle = scenario_profile ->
      calibration s reverse = scenario_profile ->
      invert_axis s throttle = false ->
      invert_axis s reverse = false ->
      process_throttle_input s (of_int 0) = (of_int 0, of_int 100)
      /\ process_throttle_input s (of_int 200) = (of_int 0, of_int 0)
      /\ process_throttle_input s (of_int 1000) = (of_int 100, of_int 0))
  /\ (forall s : FlightControls float,
      calibration s throttle = scenario_profile ->
      calibration s reverse = scenario_profile ->
      invert_axis s throttle = false ->
      invert_axis s reverse = false ->
      process_throttle_input s (of_int 0) = (of_int 0, of_int 100)
      /\ process_throttle_input s (of_int 200) = (of_int 0, of_int 0)
      /\ process_throttle_input s (of_int 1000) = (of_int 100, of_int 0)).
Proof.
  split; intros s Ht Hr Hit Hir;
    unfold process_throttle_input, calibrate_throttle, calibrate_reverse, apply_inversion;
    rewrite Ht, Hr, Hit, Hir; repeat split; vm_compute; reflexivity.
Qed.

(** The scenario on a fresh [FlightControls] with that calibration. *)
Lemma idle_split_scenario_witness :
  process_throttle_input (N:=Q) scenario_controls (of_int 0) = (of_int 0, of_int 100)
  /\ process_throttle_input (N:=float) scenario_controls (of_int 1000) = (of_int 100, of_int 0).
Proof.
  destruct idle_split_scenario as [HQ Hf].
  split.
  - apply (HQ scenario_controls); reflexivity.
  - apply (Hf scenario_controls); reflexivity.
Defined.

(** ** Degenerate calibration ranges of a pot *)

Section DegenerateRange.
Local Open Scope Q_scope.

(** The bounds [process_pot_value] maps over are strictly ordered, so the
    test [cal_max == cal_min] that guards the midpoint 50 never holds. *)
Lemma effective_bounds_ordered (config : Pot.t Q) :
  fst (effective_bounds config) < snd (effective_bounds config).
Proof.
  unfold effective_bounds.
  destruct (ple (Pot.calibrated_max config) (Pot.calibrated_min config)) eqn:E; cbn [fst snd].
  - q_ops. lra.
  - apply ple_Q_false in E. exact E.
Qed.

Lemma midpoint_branch_unreachable (config : Pot.t Q) :
  peq (snd (effective_bounds config)) (fst (effective_bounds config)) = false.
Proof.
  pose proof (effective_bounds_ordered config) as Hlt.
  apply not_true_iff_false. intros Heq. apply peq_Q in Heq. lra.
Qed.

Lemma clamp_raw_range (raw_value : Q) : 0 <= clamp_raw raw_value <= 1023.
Proof. unfold clamp_raw. apply (clamp_Q 0 1023). lra. Qed.

(** C4 as the code has it: a pot whose [calibrated_min] is at or above its
    [calibrated_max] (zero width or inverted bounds) and whose type is not
    "Disabled" is mapped over the full raw range 0..1023.  The value before
    inversion is [clamp(raw) / 1023 * 100], and the call returns its
    interpretation by type. *)
Theorem degenerate_range_maps_full_domain
    (self : ControlPanelConfig Q) (index : Z) (config : Pot.t Q) (raw_value : Q) :
  (0 <= index)%Z ->
  pot_config self !! Z.to_nat index = Some config ->
  Pot.type config <> "Disabled"%string ->
  Pot.calibrated_max config <= Pot.calibrated_min config ->
  let full := clamp_raw raw_value / 1023 * 100 in
  calibrate_pot config raw_value == full
  /\ 0 <= full <= 100
  /\ exists calibrated,
       calibrated == full
       /\ process_pot_value index raw_value self
          = (interpret_pot config
               (if Pot.invert config then 100 - calibrated else calibrated), self).
Proof.
  intros Hidx Hget Htype Hdeg full.
  pose proof (clamp_raw_range raw_value) as Hraw.
  assert (Hfull : 0 <= full <= 100).
  { subst full. unfold Qdiv. change (/ 1023) with (1 # 1023). lra. }
  assert (Hcal : calibrate_pot config raw_value == full).
  { unfold calibrate_pot, effective_bounds.
    apply ple_Q in Hdeg. rewrite Hdeg.
    replace (peq (of_int 1023) (of_int 0)) with false by reflexivity.
    assert (Hsame : (clamp_raw raw_value - of_int 0) / (of_int 1023 - of_int 0) * of_int 100
                    == full).
    { subst full. q_ops. unfold Qdiv.
      change (/ (1023 - 0)) with (1 # 1023). change (/ 1023) with (1 # 1023). lra. }
    rewrite clamp_Q_id; [exact Hsame |].
    rewrite Hsame. q_ops. exact Hfull. }
  split; [exact Hcal | split; [exact Hfull |]].
  exists (calibrate_pot config raw_value). split; [exact Hcal |].
  unfold process_pot_value.
  assert (Hlt : (Z.to_nat index < length (pot_config self))%nat)
    by (eapply lookup_lt_Some; eassumption).
  replace (index <? 0)%Z with false by (symmetry; apply Z.ltb_ge; lia).
  replace (Z.of_nat (length (pot_config self)) <=? index)%Z with false
    by (symmetry; apply Z.leb_gt; lia).
  cbn [orb]. rewrite Hget.
  apply String.eqb_neq in Htype. rewrite Htype. reflexivity.
Qed.

End DegenerateRange.

(** Pot 0 with the inverted bounds [900, 100] at raw 512. *)
Lemma degenerate_range_maps_full_domain_witness :
  (calibrate_pot (N:=Q) (Pot.set_calibrated_min (900 # 1) (default_pot 0)) (512 # 1)
   == clamp_raw (512 # 1) / 1023 * 100)%Q.
Proof.
  assert (Hdeg : (Pot.calibrated_max (Pot.set_calibrated_min (900 # 1) (default_pot 0))
                  <= Pot.calibrated_min (Pot.set_calibrated_min (900 # 1) (default_pot 0)))%Q)
    by (vm_compute; discriminate).
  assert (Htype : Pot.type (Pot.set_calibrated_min (900 # 1)%Q (default_pot (N:=Q) 0))
                  <> "Disabled"%string) by (vm_compute; discriminate).
  pose proof (degenerate_range_maps_full_domain inverted_bounds_panel 0
                (Pot.set_calibrated_min (900 # 1)%Q (default_pot 0)) (512 # 1)%Q
                (Z.le_refl 0) eq_refl Htype Hdeg) as [Hcal _].
  exact Hcal.
Defined.

(** Two floats that [==] tells apart, the first of them not a nan, are
    different values. *)
Lemma float_neq (x y : float) :
  PrimFloat.eqb x x = true -> PrimFloat.eqb x y = false -> x <> y.
Proof. intros Hxx Hxy Heq. subst y. congruence. Qed.

(** C4, the zero-width case at an explicit input: after
    [calibrate_pot_min(0, 100)] pot 0 of a fresh panel has
    [calibrated_min = calibrated_max = 100] and type "Axis", and
    [process_pot_value(0, raw)] is 0 at raw 0 and 100 at raw 1023, at exact
    rationals and at binary64: not the midpoint 50. *)
Lemma zero_width_range_is_not_midpoint :
  (Pot.calibrated_min <$> pot_config (zero_width_panel (N:=Q)) !! 0%nat = Some (of_int 100)
   /\ Pot.calibrated_max <$> pot_config (zero_width_panel (N:=Q)) !! 0%nat = Some (of_int 100)
   /\ Pot.type <$> pot_config (zero_width_panel (N:=Q)) !! 0%nat = Some "Axis"%string
   /\ Pot.invert <$> pot_config (zero_width_panel (N:=Q)) !! 0%nat = Some false)
  /\ (fst (process_pot_value (N:=Q) 0 (of_int 0) zero_width_panel) == 0
      /\ fst (process_pot_value (N:=Q) 0 (of_int 1023) zero_width_panel) == 100
      /\ ~ fst (process_pot_value (N:=Q) 0 (of_int 0) zero_width_panel) == 50)%Q
  /\ (fst (process_pot_value (N:=float) 0 (of_int 0) zero_width_panel) = 0%float
      /\ fst (process_pot_value (N:=float) 0 (of_int 1023) zero_width_panel) = 100%float
      /\ fst (process_pot_value (N:=float) 0 (of_int 0) zero_width_panel) <> 50%float).
Proof.
  split; [repeat split; reflexivity |].
  split.
  - split; [vm_compute; reflexivity |]. split; [vm_compute; reflexivity |].
    vm_compute. discriminate.
  - split; [vm_compute; reflexivity |]. split; [vm_compute; reflexivity |].
    apply float_neq; vm_compute; reflexivity.
Qed.

(** ** The vJoy device is not there *)

Section NoSink.
Context {N : Type} `{PyNum N}.

(** C5 as the code has it: without a vJoy device [map_controls_vjoy]
    returns [0, 0, 0, 0] as an ordinary result and leaves the whole state as
    it was; no calibrated value is handed back and nothing is written.
    [apply_mapping] does the same whenever it takes the vJoy route. *)
Theorem no_vjoy_device_returns_zeros
    (s : FlightControls N) (throttle_raw prop_raw mixture_raw : N) :
  vjoy_dev s = None ->
  map_controls_vjoy throttle_raw prop_raw mixture_raw s = (Return zeros, s)
  /\ (is_VJOY (controller_type s) || is_WAR_THUNDER (current_profile s) = true ->
      apply_mapping throttle_raw prop_raw mixture_raw s = (Return zeros, s)).
Proof.
  intros Hnone.
  assert (Hv : map_controls_vjoy throttle_raw prop_raw mixture_raw s = (Return zeros, s)).
  { unfold map_controls_vjoy, mbind, M_bind, bind, get. rewrite Hnone. reflexivity. }
  split; [exact Hv |].
  intros Hroute. unfold apply_mapping, mbind, M_bind, bind, get.
  rewrite Hroute. exact Hv.
Qed.

End NoSink.

(** Raw 80, 50, 50 on a fresh [FlightControls] without vJoy. *)
Lemma no_vjoy_device_returns_zeros_witness :
  map_controls_vjoy (N:=float) 80%float 50%float 50%float no_sink_controls
  = (Return zeros, no_sink_controls).
Proof.
  exact (proj1 (no_vjoy_device_returns_zeros (N:=float) no_sink_controls
                  80%float 50%float 50%float eq_refl)).
Defined.

(** C5 at an explicit input: on a fresh [FlightControls] without vJoy,
    switched to the vJoy controller, raw throttle 80, prop 50 and mixture 50
    calibrate to 80, 0, 50, 50, yet [apply_mapping] hands back
    [0, 0, 0, 0]; and the outcome is the one a present device gives at raw
    0, so the caller cannot tell the missing sink from it. *)
Lemma unavailable_sink_hides_calibrated_values :
  vjoy_dev (no_sink_controls (N:=float)) = None
  /\ process_throttle_input (N:=float) no_sink_controls 80%float = (80%float, 0%float)
  /\ calibrate_simple (N:=float) no_sink_controls 50%float prop = 50%float
  /\ calibrate_simple (N:=float) no_sink_controls 50%float mixture = 50%float
  /\ fst (apply_mapping (N:=float) 80%float 50%float 50%float no_sink_controls)
     = Return (0%float, 0%float, 0%float, 0%float)
  /\ fst (apply_mapping (N:=float) 80%float 50%float 50%float no_sink_controls)
     <> Return (80%float, 0%float, 50%float, 50%float)
  /\ fst (apply_mapping (N:=float) 0%float 0%float 0%float
            (with_controller_type VJOY (FlightControls_init true)))
     = fst (apply_mapping (N:=float) 80%float 50%float 50%float no_sink_controls).
Proof.
  split; [reflexivity |].
  split; [vm_compute; reflexivity |].
  split; [vm_compute; reflexivity |].
  split; [vm_compute; reflexivity |].
  split; [vm_compute; reflexivity |].
  split; [| vm_compute; reflexivity].
  intros Heq.
  assert (Hfwd : 0%float = 80%float).
  { change (fst (apply_mapping (N:=float) 80%float 50%float 50%float no_sink_controls))
      with (Return (A:=float * float * float * float)
              (0%float, 0%float, 0%float, 0%float)) in Heq.
    congruence. }
  revert Hfwd. apply float_neq; vm_compute; reflexivity.
Qed.

(** ** The vJoy route *)

(** The plumbing of [M], unfolded. *)
Ltac run_M :=
  unfold mbind, M_bind, bind, get, modify, ret, raise, try_except, lift.

Section Preservation.
Context {N : Type} {X : Type}.
Variable P : FlightControls N -> X.

Lemma preserves_ret {A} (a : A) : preserves P (ret a).
Proof. intros s. reflexivity. Qed.

Lemma preserves_raise {A} (e : exn) : preserves P (raise (A:=A) e).
Proof. intros s. reflexivity. Qed.

Lemma preserves_get : preserves P get.
Proof. intros s. reflexivity. Qed.

Lemma preserves_lift {A} (o : option A) (e : exn) : preserves P (lift o e).
Proof. intros s. destruct o; reflexivity. Qed.

Lemma preserves_modify (f : FlightControls N -> FlightControls N) :
  (forall s, P (f s) = P s) -> preserves P (modify f).
Proof. intros Hf s. apply Hf. Qed.

Lemma preserves_bind {A B} (m : M N A) (k : A -> M N B) :
  preserves P m -> (forall a, preserves P (k a)) -> preserves P (bind m k).
Proof.
  intros Hm Hk s. unfold bind. specialize (Hm s).
  destruct (m s) as [[a | e] s1]; cbn [snd] in *.
  - rewrite Hk. exact Hm.
  - exact Hm.
Qed.

Lemma preserves_try_except {A} (m : M N A) (h : exn -> M N A) :
  preserves P m -> (forall e, preserves P (h e)) -> preserves P (try_except m h).
Proof.
  intros Hm Hh s. unfold try_except. specialize (Hm s).
  destruct (m s) as [[a | e] s1]; cbn [snd] in *.
  - exact Hm.
  - rewrite Hh. exact Hm.
Qed.

End Preservation.

(** Goals [preserves P m], taken apart along the structure of [m]. *)
Ltac preserves_step :=
  lazymatch goal with
  | |- preserves _ (mbind _ _) => apply preserves_bind; [| intros ?]
  | |- preserves _ (bind _ _) => apply preserves_bind; [| intros ?]
  | |- preserves _ (try_except _ _) => apply preserves_try_except; [| intros ?]
  | |- preserves _ (ret _) => apply preserves_ret
  | |- preserves _ (raise _) => apply preserves_raise
  | |- preserves _ get => apply preserves_get
  | |- preserves _ (lift _ _) => apply preserves_lift
  | |- preserves _ (modify _) => apply preserves_modify; intros ?
  | |- preserves _ (let '(_, _) := ?p in _) => destruct p
  | |- preserves _ (match ?o with Some _ => _ | None => _ end) => destruct o
  | |- preserves _ (if ?b then _ else _) => destruct b
  end.

Section VJoyRoute.
Context {N : Type} `{PyNum N}.

(** With the device there and the four conversions going through, the
    mapping writes forward to X, reverse to RX, prop to Y and mixture to Z,
    pushes the position to the driver and returns the calibrated values. *)
Lemma vjoy_mapping_delivers
    (s : FlightControls N) (d : VJoyDevice) (throttle_raw prop_raw mixture_raw : N)
    (x rx y z : Z) :
  vjoy_dev s = Some d ->
  let forward := fst (process_throttle_input s throttle_raw) in
  let reverse_ := snd (process_throttle_input s throttle_raw) in
  let prop_ := apply_inversion s (calibrate_simple s prop_raw prop) prop in
  let mixture_ := apply_inversion s (calibrate_simple s mixture_raw mixture) mixture in
  int_of (forward * lit 32768 100)%py = Some x ->
  int_of (reverse_ * lit 32768 100)%py = Some rx ->
  int_of (prop_ * lit 32768 100)%py = Some y ->
  int_of (mixture_ * lit 32768 100)%py = Some z ->
  map_controls_vjoy throttle_raw prop_raw mixture_raw s
  = (Return (forward, reverse_, prop_, mixture_),
     with_vjoy_dev (Some {| data := mapped_position x rx y z (data d);
                            reported := mapped_position x rx y z (data d) |}) s).
Proof.
  intros Hd forward reverse_ prop_ mixture_ Hx Hrx Hy Hz.
  subst forward reverse_ prop_ mixture_.
  unfold map_controls_vjoy, vjoy_mapping, vjoy_scale, int, vjoy_edit, vjoy_update.
  run_M. run_M. cbv beta iota. rewrite Hd. cbv beta iota.
  destruct (process_throttle_input s throttle_raw) as [forward reverse_].
  cbn [fst snd] in Hx, Hrx |- *.
  destruct (prop_as_speedbrake s).
  all: rewrite Hx, Hrx, Hy, Hz; cbv beta iota zeta; rewrite Hd;
    cbn [vjoy_dev with_vjoy_dev data reported]; reflexivity.
Qed.

Lemma preserves_vjoy_edit {X} (P : FlightControls N -> X) (f : JoystickData -> JoystickData) :
  (forall d s, P (with_vjoy_dev d s) = P s) -> preserves P (vjoy_edit f).
Proof.
  intros HP. apply preserves_modify. intros s.
  destruct (vjoy_dev s); [apply HP | reflexivity].
Qed.

Lemma preserves_vjoy_update {X} (P : FlightControls N -> X) :
  (forall d s, P (with_vjoy_dev d s) = P s) -> preserves (N:=N) P vjoy_update.
Proof.
  intros HP. apply preserves_modify. intros s.
  destruct (vjoy_dev s); [apply HP | reflexivity].
Qed.

Lemma preserves_vjoy_scale {X} (P : FlightControls N -> X) (x : N) :
  preserves P (vjoy_scale x).
Proof. unfold vjoy_scale, int. repeat preserves_step. Qed.



End VJoyRoute.


(** ** The MSFS mapping on the gamepad *)

Section MSFS.
Context {N : Type} `{PyNum N}.

(** C2 as the code has it: under MSFS on the Xbox gamepad, with
    [net = forward - reverse], the right trigger carries
    [int(net * 327.67)] and the left trigger 0 when [net >= 0], and the left
    trigger carries [int(abs(net) * 327.67)] and the right trigger 0
    otherwise; the product is truncated toward zero.  So at most one trigger
    is non-zero, chosen by the sign of [net]. *)
Theorem msfs_triggers_exclusive
    (s : FlightControls N) (throttle_raw prop_raw mixture_raw : N) (v y1 y2 : Z) :
  controller_type s = XBOX ->
  current_profile s = MSFS ->
  let forward := fst (process_throttle_input s throttle_raw) in
  let reverse_ := snd (process_throttle_input s throttle_raw) in
  let net := (forward - reverse_)%py in
  let prop_ := apply_inversion s (calibrate_simple s prop_raw prop) prop in
  let mixture_ := apply_inversion s (calibrate_simple s mixture_raw mixture) mixture in
  int_of ((if (net >=? of_int 0)%py then net else pabs net) * lit 32767 100)%py = Some v ->
  int_of (prop_ * lit 65534 100 - of_int 32768)%py = Some y1 ->
  int_of (mixture_ * lit 65534 100 - of_int 32768)%py = Some y2 ->
  apply_mapping throttle_raw prop_raw mixture_raw s
  = (Return (forward, reverse_, prop_, mixture_),
     with_gamepad
       {| right_trigger := if (net >=? of_int 0)%py then v else 0;
          left_trigger := if (net >=? of_int 0)%py then 0 else v;
          right_joystick := (0, y1)%Z;
          left_joystick := (0, y2)%Z |} s)
  /\ (right_trigger (gamepad (snd (apply_mapping throttle_raw prop_raw mixture_raw s))) = 0%Z
      \/ left_trigger (gamepad (snd (apply_mapping throttle_raw prop_raw mixture_raw s))) = 0%Z).
Proof.
  intros Hc Hp forward reverse_ net prop_ mixture_ Hv Hy1 Hy2.
  assert (Hmap : apply_mapping throttle_raw prop_raw mixture_raw s
    = (Return (forward, reverse_, prop_, mixture_),
       with_gamepad
         {| right_trigger := if (net >=? of_int 0)%py then v else 0;
            left_trigger := if (net >=? of_int 0)%py then 0 else v;
            right_joystick := (0, y1)%Z;
            left_joystick := (0, y2)%Z |} s)).
  { subst forward reverse_ net prop_ mixture_.
    unfold apply_mapping, map_controls_msfs, int,
      gamepad_right_trigger, gamepad_left_trigger,
      gamepad_right_joystick, gamepad_left_joystick.
    run_M. run_M. cbv beta iota. rewrite Hc, Hp.
    cbn [is_VJOY is_WAR_THUNDER orb mapping_functions].
    destruct (process_throttle_input s throttle_raw) as [forward reverse_].
    cbn [fst snd] in Hv |- *.
    unfold map_controls_msfs, int,
      gamepad_right_trigger, gamepad_left_trigger,
      gamepad_right_joystick, gamepad_left_joystick.
    run_M. run_M.
    destruct (ple (of_int 0) (forward - reverse_)%py);
      rewrite Hv, Hy1, Hy2; reflexivity. }
  split; [exact Hmap |].
  rewrite Hmap. cbn [snd gamepad with_gamepad right_trigger left_trigger].
  destruct (ple (of_int 0) net); [right | left]; reflexivity.
Qed.

End MSFS.

(** MSFS on a fresh [FlightControls], raw 80, 50, 25 at binary64. *)
Lemma msfs_triggers_exclusive_witness :
  gamepad (snd (apply_mapping (N:=float) 80%float 50%float 25%float (FlightControls_init true)))
  = {| right_trigger := 26213; left_trigger := 0;
       right_joystick := (0, -1)%Z; left_joystick := (0, -16384)%Z |}.
Proof.
  assert (Hv : float_trunc (80 * 327.67)%float = Some 26213%Z) by (vm_compute; reflexivity).
  assert (Hy1 : float_trunc (50 * 655.34 - 32768)%float = Some (-1)%Z)
    by (vm_compute; reflexivity).
  assert (Hy2 : float_trunc (25 * 655.34 - 32768)%float = Some (-16384)%Z)
    by (vm_compute; reflexivity).
  pose proof (msfs_triggers_exclusive (N:=float) (FlightControls_init true)
                80%float 50%float 25%float 26213 (-1) (-16384) eq_refl eq_refl Hv Hy1 Hy2)
    as [Hmap _].
  rewrite Hmap. reflexivity.
Defined.

(** Scaling 100 percent by the spec's law gives the full scale back. *)
Lemma spec_scale_full (F : Z) : spec_scale 100 F = F.
Proof.
  unfold spec_scale, py_round.
  assert (Hq : (inject_Z 100 * inject_Z F / 100 == inject_Z F)%Q) by (field).
  assert (Hfloor : Qfloor (inject_Z 100 * inject_Z F / 100) = F)
    by (rewrite Hq; apply Qfloor_Z).
  rewrite Hfloor.
  assert (Hr : (inject_Z 100 * inject_Z F / 100 - inject_Z F == 0)%Q) by (rewrite Hq; ring).
  rewrite !Hr. reflexivity.
Qed.

(** C2 at an explicit input: a fresh [FlightControls] (MSFS, Xbox
    gamepad, calibration 0..100) fed raw throttle 80 has forward 80 and
    reverse 0, and its right trigger is set to 26213 = [int(80 * 327.67)],
    at binary64 and at exact rationals; the spec's
    [round(80 * 32767 / 100)] is 26214.  No other full scale mends it:
    raw throttle 100 sets the trigger to 32767, which fixes the scale. *)
Lemma msfs_trigger_is_truncated :
  process_throttle_input (N:=float) (FlightControls_init true) 80%float = (80%float, 0%float)
  /\ right_trigger (gamepad (snd (apply_mapping (N:=float) 80%float 0%float 0%float
                                    (FlightControls_init true)))) = 26213%Z
  /\ left_trigger (gamepad (snd (apply_mapping (N:=float) 80%float 0%float 0%float
                                   (FlightControls_init true)))) = 0%Z
  /\ right_trigger (gamepad (snd (apply_mapping (N:=Q) (80 # 1)%Q 0%Q 0%Q
                                    (FlightControls_init true)))) = 26213%Z
  /\ spec_scale 80 triggerFullScale = 26214%Z
  /\ right_trigger (gamepad (snd (apply_mapping (N:=float) 80%float 0%float 0%float
                                    (FlightControls_init true))))
     <> spec_scale 80 triggerFullScale
  /\ ~ (exists F : Z,
          right_trigger (gamepad (snd (apply_mapping (N:=float) 80%float 0%float 0%float
                                         (FlightControls_init true)))) = spec_scale 80 F
          /\ right_trigger (gamepad (snd (apply_mapping (N:=float) 100%float 0%float 0%float
                                            (FlightControls_init true)))) = spec_scale 100 F).
Proof.
  assert (H80 : right_trigger (gamepad (snd (apply_mapping (N:=float) 80%float 0%float 0%float
                                               (FlightControls_init true)))) = 26213%Z)
    by (vm_compute; reflexivity).
  assert (H100 : right_trigger (gamepad (snd (apply_mapping (N:=float) 100%float 0%float
                                                0%float (FlightControls_init true))))
                 = 32767%Z)
    by (vm_compute; reflexivity).
  split; [vm_compute; reflexivity |].
  split; [exact H80 |].
  split; [vm_compute; reflexivity |].
  split; [vm_compute; reflexivity |].
  split; [vm_compute; reflexivity |].
  split.
  - rewrite H80. vm_compute. discriminate.
  - intros [F [HF80 HF100]].
    rewrite H100, spec_scale_full in HF100. subst F.
    rewrite H80 in HF80. vm_compute in HF80. discriminate HF80.
Qed.

(** ** The toggle latch of a Switch pot *)




(** The key of a pot starts with its index: pots 0..6 never share a key. *)
Lemma button_key_tag (i : nat) (b : Z) :
  (i < 7)%nat -> String.get 4 (button_key i b) = String.get 0 (pretty i).
Proof.
  intros Hi. unfold button_key.
  do 7 (destruct i as [| i]; [reflexivity |]). lia.
Qed.

Lemma button_key_inj (i j : nat) (b b' : Z) :
  (i < 7)%nat -> (j < 7)%nat -> button_key i b = button_key j b' -> i = j.
Proof.
  intros Hi Hj Heq.
  pose proof (button_key_tag i b Hi) as Ti.
  pose proof (button_key_tag j b' Hj) as Tj.
  rewrite Heq, Tj in Ti. clear Heq Tj.
  do 7 (destruct i as [| i];
        [do 7 (destruct j as [| j]; [first [reflexivity | discriminate Ti] |]); lia |]).
  lia.
Qed.

Section Latch.
Context {N : Type} `{PyNum N}.

Lemma stored_button_insert (key : string) (v : Z) (s : FlightControls N) :
  stored_button key (with_button_states (<[key := v]> (button_states s)) s) = v.
Proof. unfold stored_button, dict_get. cbn. rewrite lookup_insert_eq. reflexivity. Qed.

Lemma stored_threshold_insert (key : string) (v : bool) (s : FlightControls N) :
  stored_threshold key (with_last_pot_values (<[key := v]> (last_pot_values s)) s) = v.
Proof. unfold stored_threshold, dict_get. cbn. rewrite lookup_insert_eq. reflexivity. Qed.

(** The bookkeeping of a Switch pot, spelled out: the stored button state
    is toggled exactly when the threshold state goes from below to above,
    and the threshold state is stored. *)
Lemma update_button_state_switch
    (config : Pot.t N) (key : string) (above : bool) (s : FlightControls N) :
  Pot.type config = "Switch"%string ->
  exists s',
    update_button_state config key above s
    = (Return (fst (switch_step above (toggle_view key s))), s')
    /\ toggle_view key s' = switch_step above (toggle_view key s)
    /\ control_panel s' = control_panel s
    /\ controls_active s' = controls_active s
    /\ vjoy_dev s' = vjoy_dev s.
Proof.
  intros Htype.
  set (s1 := if above && negb (stored_threshold key s)
             then with_button_states
                    (<[key := toggled (stored_button key s)]> (button_states s)) s
             else s).
  exists (with_last_pot_values (<[key := above]> (last_pot_values s1)) s1).
  assert (Hb1 : stored_button key s1
                = if above && negb (stored_threshold key s)
                  then toggled (stored_button key s) else stored_button key s).
  { subst s1. destruct (above && negb (stored_threshold key s)); [| reflexivity].
    apply stored_button_insert. }
  split; [| split; [| repeat split]].
  - unfold update_button_state. rewrite Htype.
    change (String.eqb "Switch" "Switch") with true. cbv beta iota.
    run_M. cbv beta iota.
    fold (stored_threshold key s). fold (stored_button key s).
    unfold switch_step, toggle_view. cbn [fst snd]. rewrite <- Hb1. subst s1.
    destruct above, (stored_threshold key s); reflexivity.
  - unfold toggle_view, switch_step. cbn [fst snd].
    rewrite stored_threshold_insert. f_equal. exact Hb1.
  - subst s1. destruct (above && negb (stored_threshold key s)); reflexivity.
  - subst s1. destruct (above && negb (stored_threshold key s)); reflexivity.
  - subst s1. destruct (above && negb (stored_threshold key s)); reflexivity.
Qed.

End Latch.

(** *** What one turn of the panel loop leaves alone *)

Section PanelTurn.
Context {N : Type} `{PyNum N}.

Lemma panel_view_vjoy_edit (f : JoystickData -> JoystickData) :
  preserves (N:=N) panel_view (vjoy_edit f).
Proof.
  apply preserves_modify. intros s. unfold panel_view, has_device.
  destruct (vjoy_dev s) eqn:Hd; [reflexivity |]. rewrite Hd. reflexivity.
Qed.

Lemma panel_view_vjoy_update : preserves (N:=N) panel_view vjoy_update.
Proof.
  apply preserves_modify. intros s. unfold panel_view, has_device.
  destruct (vjoy_dev s) eqn:Hd; [reflexivity |]. rewrite Hd. reflexivity.
Qed.

Lemma with_control_panel_same (s : FlightControls N) :
  with_control_panel (control_panel s) s = s.
Proof. destruct s. reflexivity. Qed.

(** Calling [process_pot_value] changes nothing at all. *)
Lemma on_control_panel_process_pot_value (index : Z) (raw_value : N) (s : FlightControls N) :
  on_control_panel (process_pot_value index raw_value) s
  = (Return (fst (process_pot_value index raw_value (control_panel s))), s).
Proof.
  unfold on_control_panel.
  pose proof (process_pot_value_reads_only (control_panel s) index raw_value) as Hro.
  destruct (process_pot_value index raw_value (control_panel s)) as [v cp].
  cbn [fst snd] in *. subst cp. rewrite with_control_panel_same. reflexivity.
Qed.

Lemma preserves_process_pot_value {X} (P : FlightControls N -> X) (index : Z) (raw_value : N) :
  preserves P (on_control_panel (process_pot_value index raw_value)).
Proof. intros s. rewrite on_control_panel_process_pot_value. reflexivity. Qed.

Lemma toggle_view_other_button (key k : string) (v : Z) (s : FlightControls N) :
  k <> key ->
  toggle_view key (with_button_states (<[k := v]> (button_states s)) s) = toggle_view key s.
Proof.
  intros Hne. unfold toggle_view, stored_button, stored_threshold, dict_get. cbn.
  rewrite lookup_insert_ne by exact Hne. reflexivity.
Qed.

Lemma toggle_view_other_threshold (key k : string) (v : bool) (s : FlightControls N) :
  k <> key ->
  toggle_view key (with_last_pot_values (<[k := v]> (last_pot_values s)) s) = toggle_view key s.
Proof.
  intros Hne. unfold toggle_view, stored_button, stored_threshold, dict_get. cbn.
  rewrite lookup_insert_ne by exact Hne. reflexivity.
Qed.

(** The bookkeeping of one key leaves every other key alone. *)
Lemma toggle_view_update_button_state
    (key k : string) (config : Pot.t N) (above : bool) :
  k <> key -> preserves (toggle_view key) (update_button_state config k above).
Proof.
  intros Hne. unfold update_button_state.
  repeat first
    [ apply preserves_modify; intros ?;
      first [ apply toggle_view_other_button; exact Hne
            | apply toggle_view_other_threshold; exact Hne ]
    | preserves_step ].
Qed.

Lemma panel_view_update_button_state (k : string) (config : Pot.t N) (above : bool) :
  preserves panel_view (update_button_state config k above).
Proof.
  unfold update_button_state.
  repeat first [ apply preserves_modify; intros ?; reflexivity | preserves_step ].
Qed.

Lemma toggle_view_set_button_bit (key : string) (button_id button_state : Z) :
  preserves (N:=N) (toggle_view key) (set_button_bit button_id button_state).
Proof.
  unfold set_button_bit.
  repeat first [ apply preserves_vjoy_edit; reflexivity | preserves_step ].
Qed.

Lemma panel_view_set_button_bit (button_id button_state : Z) :
  preserves (N:=N) panel_view (set_button_bit button_id button_state).
Proof.
  unfold set_button_bit.
  repeat first [ apply panel_view_vjoy_edit | preserves_step ].
Qed.

(** A turn of the loop never changes the panel set-up. *)
Lemma panel_view_process_pot (ca : bool) (j : nat) (raw_value : option N) :
  preserves panel_view (process_pot ca j raw_value).
Proof.
  unfold process_pot, map_button, int.
  repeat first
    [ apply preserves_process_pot_value
    | apply panel_view_update_button_state
    | apply panel_view_set_button_bit
    | apply panel_view_vjoy_edit
    | preserves_step ].
Qed.

(** The turn of pot [j] leaves the keys of the other pots alone. *)
Lemma toggle_view_process_pot (key : string) (ca : bool) (j : nat) (raw_value : option N) :
  (forall b, button_key j b <> key) ->
  preserves (toggle_view key) (process_pot ca j raw_value).
Proof.
  intros Hne. unfold process_pot, map_button, int.
  repeat first
    [ apply preserves_process_pot_value
    | apply toggle_view_update_button_state; apply Hne
    | apply toggle_view_set_button_bit
    | apply preserves_vjoy_edit; reflexivity
    | preserves_step ].
Qed.

End PanelTurn.

(** *** Termination without exception, over exact rationals *)

Section Returns.

Lemma returns_ret {A} (a : A) : returns (ret a).
Proof. intros s. exists a. reflexivity. Qed.

Lemma returns_get : returns get.
Proof. intros s. exists s. reflexivity. Qed.

Lemma returns_modify (f : FlightControls Q -> FlightControls Q) : returns (modify f).
Proof. intros s. exists tt. reflexivity. Qed.

(** [int(x)] of a rational always succeeds. *)
Lemma returns_int (x : Q) : returns (int x).
Proof. intros s. exists (Qtrunc x). reflexivity. Qed.

Lemma returns_bind {A B} (m : M Q A) (k : A -> M Q B) :
  returns m -> (forall a, returns (k a)) -> returns (bind m k).
Proof.
  intros Hm Hk s. unfold bind. destruct (Hm s) as [a Ha].
  destruct (m s) as [o s1]. cbn [fst] in Ha. subst o. apply Hk.
Qed.

(** A [try] whose handler returns does so itself. *)
Lemma returns_try_except {A} (m : M Q A) (h : exn -> M Q A) :
  (forall e, returns (h e)) -> returns (try_except m h).
Proof.
  intros Hh s. unfold try_except. destruct (m s) as [[a | e] s1].
  - exists a. reflexivity.
  - apply Hh.
Qed.

Lemma returns_on_control_panel {A} (m : method Q A) : returns (on_control_panel m).
Proof.
  intros s. unfold on_control_panel.
  destruct (m (control_panel s)) as [a cp]. exists a. reflexivity.
Qed.

End Returns.

Ltac returns_step :=
  lazymatch goal with
  | |- returns (mbind _ _) => apply returns_bind; [| intros ?]
  | |- returns (bind _ _) => apply returns_bind; [| intros ?]
  | |- returns (try_except _ _) => apply returns_try_except; intros ?
  | |- returns (ret _) => apply returns_ret
  | |- returns get => apply returns_get
  | |- returns (modify _) => apply returns_modify
  | |- returns (int _) => apply returns_int
  | |- returns (on_control_panel _) => apply returns_on_control_panel
  | |- returns (vjoy_edit _) => apply returns_modify
  | |- returns vjoy_update => apply returns_modify
  | |- returns (let '(_, _) := ?p in _) => destruct p
  | |- returns (match ?o with Some _ => _ | None => _ end) => destruct o
  | |- returns (if ?b then _ else _) => destruct b
  end.

Section SwitchPot.
Local Open Scope Q_scope.

Lemma returns_process_pot (ca : bool) (j : nat) (raw_value : option Q) :
  returns (process_pot ca j raw_value).
Proof. unfold process_pot, map_button. repeat returns_step. Qed.

(** A turn of the loop, put together: it returns, keeps the panel set-up,
    and keeps the keys of the other pots. *)
Lemma process_pot_turn (ca : bool) (j : nat) (raw_value : option Q) (s : FlightControls Q) :
  exists v s',
    process_pot ca j raw_value s = (Return v, s')
    /\ panel_view s' = panel_view s
    /\ forall key, (forall b, button_key j b <> key) -> toggle_view key s' = toggle_view key s.
Proof.
  destruct (returns_process_pot ca j raw_value s) as [v Hv].
  pose proof (panel_view_process_pot ca j raw_value s) as Hpanel.
  assert (Hkeys : forall key, (forall b, button_key j b <> key) ->
                    toggle_view key (snd (process_pot ca j raw_value s)) = toggle_view key s)
    by (intros key Hne; apply toggle_view_process_pot; exact Hne).
  destruct (process_pot ca j raw_value s) as [o s'].
  cbn [fst snd] in *. subst o. exists v, s'. split; [reflexivity |]. split; assumption.
Qed.

Lemma calibrate_pot_range (config : Pot.t Q) (raw_value : Q) :
  0 <= calibrate_pot config raw_value <= 100.
Proof.
  unfold calibrate_pot. destruct (effective_bounds config) as [cal_min cal_max].
  destruct (peq cal_max cal_min).
  - q_ops. lra.
  - apply (clamp_Q 0 100). lra.
Qed.

Lemma inverted_pot_range (config : Pot.t Q) (raw_value : Q) :
  0 <= inverted_pot config raw_value <= 100.
Proof.
  unfold inverted_pot. pose proof (calibrate_pot_range config raw_value) as Hc.
  destruct (Pot.invert config); q_ops; lra.
Qed.



End SwitchPot.

(** *** Frames through [process_control_panel] *)


Section SwitchFrames.
Variables (i : nat) (config : Pot.t Q) (b : Z).





End SwitchFrames.



(** The same frames at binary64: raw 0, 600, 0, 600, 700, 0 on a Switch
    pot calibrated to 0..1023 with threshold 50 leave the button at 0, 1, 1,
    0, 0, 0. *)
Example switch_frames_binary64 :
  fst (feed_frames (N:=float) (button_key 2 3) (frame_of <$> [0; 600; 0; 600; 700; 0]%Z)
         switch_controls)
  = Return [0; 1; 1; 0; 0; 0]%Z.
Proof. vm_compute. reflexivity. Qed.

(** * Further properties of the panel configuration *)

Section PotValueRational.
Local Open Scope Q_scope.

(** What [process_pot_value] returns for a pot that is there and not
    disabled. *)
Lemma process_pot_value_enabled
    (self : ControlPanelConfig Q) (index : Z) (config : Pot.t Q) (raw_value : Q) :
  (0 <= index)%Z ->
  pot_config self !! Z.to_nat index = Some config ->
  Pot.type config <> "Disabled"%string ->
  process_pot_value index raw_value self
  = (interpret_pot config (inverted_pot config raw_value), self).
Proof.
  intros Hidx Hget Htype. unfold process_pot_value.
  assert (Hlt : (Z.to_nat index < length (pot_config self))%nat)
    by (eapply lookup_lt_Some; eassumption).
  replace (index <? 0)%Z with false by (symmetry; apply Z.ltb_ge; lia).
  replace (Z.of_nat (length (pot_config self)) <=? index)%Z with false
    by (symmetry; apply Z.leb_gt; lia).
  cbn [orb]. rewrite Hget.
  apply String.eqb_neq in Htype. rewrite Htype. reflexivity.
Qed.

Lemma interpret_pot_range (config : Pot.t Q) (calibrated : Q) :
  0 <= calibrated <= 100 -> 0 <= interpret_pot config calibrated <= 100.
Proof.
  intros Hc. unfold interpret_pot.
  destruct (String.eqb (Pot.type config) "Axis"); [exact Hc |].
  destruct (String.eqb (Pot.type config) "Switch" || String.eqb (Pot.type config) "Button");
    [| exact Hc].
  destruct (plt (Pot.threshold config) calibrated); q_ops; lra.
Qed.

(** X1: whatever the index, the sample and the configuration of the pots,
    [process_pot_value] returns a percentage between 0 and 100. *)
Theorem process_pot_value_range (self : ControlPanelConfig Q) (index : Z) (raw_value : Q) :
  0 <= fst (process_pot_value index raw_value self) <= 100.
Proof.
  unfold process_pot_value.
  destruct (_ || _); [cbn [fst]; q_ops; lra |].
  destruct (pot_config self !! Z.to_nat index) as [config |]; [| cbn [fst]; q_ops; lra].
  destruct (String.eqb (Pot.type config) "Disabled"); [cbn [fst]; q_ops; lra |].
  cbn [fst]. apply interpret_pot_range, inverted_pot_range.
Qed.

(** X2: a Switch or Button pot whose threshold is 100 or more never reads
    active, and one whose threshold is negative always does: the calibrated
    value stays within 0..100 and the comparison is strict. *)
Theorem threshold_outside_percent_range
    (self : ControlPanelConfig Q) (index : Z) (config : Pot.t Q) (raw_value : Q) :
  (0 <= index)%Z ->
  pot_config self !! Z.to_nat index = Some config ->
  Pot.type config = "Switch"%string \/ Pot.type config = "Button"%string ->
  (100 <= Pot.threshold config -> fst (process_pot_value index raw_value self) = 0)
  /\ (Pot.threshold config < 0 -> fst (process_pot_value index raw_value self) = 100).
Proof.
  intros Hidx Hget Htype.
  assert (Hen : Pot.type config <> "Disabled"%string)
    by (destruct Htype as [-> | ->]; discriminate).
  rewrite (process_pot_value_enabled self index config raw_value Hidx Hget Hen).
  cbn [fst]. pose proof (inverted_pot_range config raw_value) as Hr.
  assert (Hint : interpret_pot config (inverted_pot config raw_value)
                 = if plt (Pot.threshold config) (inverted_pot config raw_value)
                   then 100 else 0).
  { unfold interpret_pot. destruct Htype as [-> | ->]; reflexivity. }
  rewrite Hint. split; intros Ht.
  - destruct (plt _ _) eqn:E; [| reflexivity]. apply plt_Q in E. lra.
  - destruct (plt _ _) eqn:E; [reflexivity |]. apply plt_Q_false in E. lra.
Qed.

End PotValueRational.

(** A Switch on a fresh panel with threshold 100, and one with threshold
    -1, at raw 1023 and raw 0. *)
Lemma threshold_outside_percent_range_witness :
  fst (process_pot_value (N:=Q) 2 (1023 # 1)
         (update_pot 2 (fun c => Pot.set_threshold (100 # 1)%Q (Pot.set_type "Switch" c))
            ControlPanelConfig_init)) = 0%Q
  /\ fst (process_pot_value (N:=Q) 2 0%Q
            (update_pot 2 (fun c => Pot.set_threshold (-1 # 1)%Q (Pot.set_type "Switch" c))
               ControlPanelConfig_init)) = 100%Q.
Proof.
  split.
  - apply (threshold_outside_percent_range
             (update_pot 2 (fun c => Pot.set_threshold (100 # 1)%Q (Pot.set_type "Switch" c))
                ControlPanelConfig_init) 2 _ (1023 # 1)%Q ltac:(lia) eq_refl
             (or_introl eq_refl)).
    vm_compute. discriminate.
  - apply (threshold_outside_percent_range
             (update_pot 2 (fun c => Pot.set_threshold (-1 # 1)%Q (Pot.set_type "Switch" c))
                ControlPanelConfig_init) 2 _ 0%Q ltac:(lia) eq_refl
             (or_introl eq_refl)).
    reflexivity.
Defined.

(** ** Samples outside the raw range *)

Section RawClamp.
Context {N : Type} `{PyNum N}.
Hypothesis zero_below_top : plt (of_int 0) (of_int 1023) = true.

(** A sample that is not below 1023 is taken for 1023. *)
Lemma clamp_raw_high (raw_value : N) :
  plt raw_value (of_int 1023) = false -> clamp_raw raw_value = of_int 1023.
Proof.
  intros Hhigh. unfold clamp_raw, py_min, py_max.
  rewrite Hhigh, zero_below_top. reflexivity.
Qed.

(** A sample below 1023 that is not above 0 is taken for 0. *)
Lemma clamp_raw_low (raw_value : N) :
  plt raw_value (of_int 1023) = true -> plt (of_int 0) raw_value = false ->
  clamp_raw raw_value = of_int 0.
Proof.
  intros Hbelow Hlow. unfold clamp_raw, py_min, py_max.
  rewrite Hbelow, Hlow. reflexivity.
Qed.

(** [process_pot_value] sees a sample through its clamp only. *)
Lemma process_pot_value_clamp
    (self : ControlPanelConfig N) (index : Z) (raw1 raw2 : N) :
  clamp_raw raw1 = clamp_raw raw2 ->
  process_pot_value index raw1 self = process_pot_value index raw2 self.
Proof.
  intros Hclamp. unfold process_pot_value, inverted_pot, calibrate_pot.
  rewrite Hclamp. reflexivity.
Qed.

End RawClamp.

Lemma zero_below_top_Q : plt (N:=Q) (of_int 0) (of_int 1023) = true.
Proof. reflexivity. Qed.

Lemma zero_below_top_float : plt (N:=float) (of_int 0) (of_int 1023) = true.
Proof. reflexivity. Qed.

(** X3: samples outside the raw range are clamped, never rejected.  Over
    exact rationals a sample of 1023 or more is processed as 1023 and a
    sample of 0 or less as 0.  At binary64 every sample that is not below
    1023, a nan and the infinity among them, is processed as 1023, and a
    sample below 1023 that is not above 0 as 0. *)
Theorem raw_samples_saturate :
  (forall (self : ControlPanelConfig Q) (index : Z) (raw_value : Q),
      ((1023 <= raw_value)%Q ->
       process_pot_value index raw_value self = process_pot_value index (of_int 1023) self)
      /\ ((raw_value <= 0)%Q ->
          process_pot_value index raw_value self = process_pot_value index (of_int 0) self))
  /\ (forall (self : ControlPanelConfig float) (index : Z) (raw_value : float),
      (PrimFloat.ltb raw_value 1023 = false ->
       process_pot_value index raw_value self = process_pot_value index (of_int 1023) self)
      /\ (PrimFloat.ltb raw_value 1023 = true -> PrimFloat.ltb 0 raw_value = false ->
          process_pot_value index raw_value self = process_pot_value index (of_int 0) self)).
Proof.
  split.
  - intros self index raw_value. split; intros Hraw; apply process_pot_value_clamp.
    + rewrite (clamp_raw_high zero_below_top_Q raw_value)
        by (apply plt_Q_false; q_ops; lra).
      rewrite (clamp_raw_high zero_below_top_Q (of_int 1023)) by reflexivity.
      reflexivity.
    + rewrite (clamp_raw_low raw_value)
        by (first [apply plt_Q; q_ops; lra | apply plt_Q_false; q_ops; lra]).
      reflexivity.
  - intros self index raw_value. split.
    + intros Hhigh. apply process_pot_value_clamp.
      change (plt raw_value (of_int 1023) = false) in Hhigh.
      rewrite (clamp_raw_high zero_below_top_float raw_value Hhigh).
      rewrite (clamp_raw_high zero_below_top_float (of_int 1023)) by reflexivity.
      reflexivity.
    + intros Hbelow Hlow. apply process_pot_value_clamp.
      change (plt raw_value (of_int 1023) = true) in Hbelow.
      change (plt (of_int 0) raw_value = false) in Hlow.
      rewrite (clamp_raw_low (N:=float) raw_value Hbelow Hlow). reflexivity.
Qed.

(** A nan, the infinity and raw 5000 on pot 0 of a fresh panel read as raw
    1023; raw -3 reads as raw 0. *)
Lemma raw_samples_saturate_witness :
  process_pot_value (N:=float) 0 PrimFloat.nan ControlPanelConfig_init
  = process_pot_value 0 (of_int 1023) ControlPanelConfig_init
  /\ process_pot_value (N:=float) 0 PrimFloat.infinity ControlPanelConfig_init
     = process_pot_value 0 (of_int 1023) ControlPanelConfig_init
  /\ process_pot_value (N:=Q) 0 (5000 # 1)%Q ControlPanelConfig_init
     = process_pot_value 0 (of_int 1023) ControlPanelConfig_init
  /\ process_pot_value (N:=float) 0 (-3)%float ControlPanelConfig_init
     = process_pot_value 0 (of_int 0) ControlPanelConfig_init.
Proof.
  destruct raw_samples_saturate as [HQ Hf].
  split; [| split; [| split]].
  - apply (proj1 (Hf ControlPanelConfig_init 0%Z PrimFloat.nan)). reflexivity.
  - apply (proj1 (Hf ControlPanelConfig_init 0%Z PrimFloat.infinity)). reflexivity.
  - apply (proj1 (HQ ControlPanelConfig_init 0%Z (5000 # 1)%Q)). vm_compute. discriminate.
  - apply (proj2 (Hf ControlPanelConfig_init 0%Z (-3)%float)); reflexivity.
Defined.

(** ** The calibration map of an Axis pot *)

Section AxisMap.
Local Open Scope Q_scope.

Lemma clamp_Q_mono (lo hi x y : Q) :
  lo <= hi -> x <= y -> py_max lo (py_min hi x) <= py_max lo (py_min hi y).
Proof.
  intros Hlh Hxy. unfold py_max, py_min.
  destruct (plt x hi) eqn:Ex, (plt y hi) eqn:Ey;
    repeat match goal with
           | E : plt _ _ = true |- _ => apply plt_Q in E
           | E : plt _ _ = false |- _ => apply plt_Q_false in E
           end.
  - destruct (plt lo x) eqn:E1, (plt lo y) eqn:E2;
      repeat match goal with
             | E : plt _ _ = true |- _ => apply plt_Q in E
             | E : plt _ _ = false |- _ => apply plt_Q_false in E
             end; lra.
  - destruct (plt lo x) eqn:E1, (plt lo hi) eqn:E2;
      repeat match goal with
             | E : plt _ _ = true |- _ => apply plt_Q in E
             | E : plt _ _ = false |- _ => apply plt_Q_false in E
             end; lra.
  - lra.
  - lra.
Qed.

(** Scaling by a positive width keeps the order. *)
Lemma ratio_mono (x y lo width : Q) :
  0 < width -> x <= y -> (x - lo) / width * 100 <= (y - lo) / width * 100.
Proof.
  intros Hw Hxy.
  apply Qmult_le_compat_r; [| lra].
  apply Qmult_le_compat_r; [lra |].
  apply Qinv_le_0_compat. lra.
Qed.

(** The calibrated value as the ordered bounds give it. *)
Lemma calibrate_pot_ordered (config : Pot.t Q) (raw_value : Q) :
  calibrate_pot config raw_value
  = py_max 0 (py_min 100
      ((clamp_raw raw_value - fst (effective_bounds config))
       / (snd (effective_bounds config) - fst (effective_bounds config)) * 100)).
Proof.
  unfold calibrate_pot.
  pose proof (midpoint_branch_unreachable config) as Hne.
  destruct (effective_bounds config) as [cal_min cal_max]. cbn [fst snd] in *.
  rewrite Hne. reflexivity.
Qed.

Lemma calibrate_pot_mono (config : Pot.t Q) (raw1 raw2 : Q) :
  raw1 <= raw2 -> calibrate_pot config raw1 <= calibrate_pot config raw2.
Proof.
  intros Hraw. rewrite !calibrate_pot_ordered.
  apply clamp_Q_mono; [lra |].
  pose proof (effective_bounds_ordered config) as Hord.
  q_ops. apply ratio_mono; [lra |].
  apply (clamp_Q_mono 0 1023); [lra | exact Hraw].
Qed.

(** X4: an Axis pot follows its knob.  With inversion off a larger sample
    never reads lower, with inversion on it never reads higher, whatever
    the calibration bounds are. *)
Theorem axis_pot_monotone
    (self : ControlPanelConfig Q) (index : Z) (config : Pot.t Q) (raw1 raw2 : Q) :
  (0 <= index)%Z ->
  pot_config self !! Z.to_nat index = Some config ->
  Pot.type config = "Axis"%string ->
  raw1 <= raw2 ->
  if Pot.invert config
  then fst (process_pot_value index raw2 self) <= fst (process_pot_value index raw1 self)
  else fst (process_pot_value index raw1 self) <= fst (process_pot_value index raw2 self).
Proof.
  intros Hidx Hget Htype Hraw.
  assert (Hen : Pot.type config <> "Disabled"%string) by (rewrite Htype; discriminate).
  rewrite !(process_pot_value_enabled self index config _ Hidx Hget Hen).
  cbn [fst]. unfold interpret_pot, inverted_pot. rewrite Htype.
  change (String.eqb "Axis" "Axis") with true. cbv beta iota.
  pose proof (calibrate_pot_mono config raw1 raw2 Hraw) as Hmono.
  destruct (Pot.invert config); q_ops; lra.
Qed.

End AxisMap.

(** Pot 0 of a fresh panel at raw 20 and raw 60. *)
Lemma axis_pot_monotone_witness :
  (fst (process_pot_value (N:=Q) 0 (20 # 1) ControlPanelConfig_init)
   <= fst (process_pot_value (N:=Q) 0 (60 # 1) ControlPanelConfig_init))%Q.
Proof.
  apply (axis_pot_monotone ControlPanelConfig_init 0 (default_pot 0) (20 # 1) (60 # 1)
           (Z.le_refl 0) eq_refl eq_refl).
  vm_compute. discriminate.
Defined.

(** ** Setters at a valid index *)

Section SettersApplied.
Context {N : Type} `{PyNum N}.

Lemma update_pot_lookup (self : ControlPanelConfig N) (index : Z) (f : Pot.t N -> Pot.t N)
    (j : nat) :
  pot_config (update_pot index f self) !! j
  = if decide (Z.to_nat index = j) then f <$> pot_config self !! j else pot_config self !! j.
Proof.
  unfold update_pot. cbn [pot_config]. destruct (decide (Z.to_nat index = j)) as [<- | Hne].
  - apply list_lookup_alter_eq.
  - apply list_lookup_alter_ne. exact Hne.
Qed.

(** The pot addressed after [calibrate_pot_min] and then
    [calibrate_pot_max]. *)
Lemma setters_write_lookup (self : ControlPanelConfig N) (index : Z) (config : Pot.t N)
    (lo hi : N) :
  (0 <= index)%Z ->
  pot_config self !! Z.to_nat index = Some config ->
  pot_config (snd (calibrate_pot_min index lo self)) !! Z.to_nat index
  = Some (Pot.set_calibrated_min lo config)
  /\ pot_config (snd (calibrate_pot_max index hi (snd (calibrate_pot_min index lo self))))
       !! Z.to_nat index
     = Some (Pot.set_calibrated_max hi (Pot.set_calibrated_min lo config)).
Proof.
  intros Hidx Hget.
  assert (Hlt : (Z.to_nat index < length (pot_config self))%nat)
    by (eapply lookup_lt_Some; exact Hget).
  assert (Hok : index_ok index self = true).
  { unfold index_ok. apply andb_true_iff. rewrite Z.leb_le, Z.ltb_lt. lia. }
  assert (Hmin : pot_config (snd (calibrate_pot_min index lo self)) !! Z.to_nat index
                 = Some (Pot.set_calibrated_min lo config)).
  { unfold calibrate_pot_min. rewrite Hok. cbn [snd].
    rewrite update_pot_lookup, decide_True by reflexivity. rewrite Hget. reflexivity. }
  split; [exact Hmin |].
  unfold calibrate_pot_max.
  assert (Hok' : index_ok index (snd (calibrate_pot_min index lo self)) = true).
  { unfold calibrate_pot_min. rewrite Hok. cbn [snd].
    unfold index_ok in *. rewrite update_pot_length. exact Hok. }
  rewrite Hok'. cbn [snd]. rewrite update_pot_lookup, decide_True by reflexivity.
  rewrite Hmin. reflexivity.
Qed.


(** X7: toggling the inversion of a pot twice gives the configuration
    back, at every index. *)
Theorem toggle_pot_inversion_twice (self : ControlPanelConfig N) (index : Z) :
  snd (toggle_pot_inversion index (snd (toggle_pot_inversion index self))) = self.
Proof.
  unfold toggle_pot_inversion.
  destruct (index_ok index self) eqn:Hok; cbn [snd].
  - assert (Hok' : index_ok index
                     (update_pot index (fun c => Pot.set_invert (negb (Pot.invert c)) c) self)
                   = true).
    { unfold index_ok in *. rewrite update_pot_length. exact Hok. }
    rewrite Hok'. cbn [snd]. unfold update_pot. cbn [pot_config].
    destruct self as [pots]. cbn [pot_config]. f_equal.
    rewrite list_alter_alter_eq. apply list_alter_id.
    intros [? ? inv ? ? ? ? ? ? ?]. unfold Pot.set_invert. cbn.
    rewrite negb_involutive. reflexivity.
  - rewrite Hok. reflexivity.
Qed.

(** X9: the names read back are the names set: after [set_pot_name] at a
    valid index [get_pot_names] returns the former list with that one name
    replaced, and at an invalid index the former list. *)
Theorem pot_names_round_trip (self : ControlPanelConfig N) (index : Z) (name : string) :
  fst (get_pot_names (snd (set_pot_name index name self)))
  = if index_ok index self
    then <[Z.to_nat index := name]> (fst (get_pot_names self))
    else fst (get_pot_names self).
Proof.
  unfold get_pot_names, set_pot_name.
  destruct (index_ok index self) eqn:Hok; cbn [fst snd]; [| reflexivity].
  unfold update_pot. cbn [pot_config].
  apply list_eq. intros j. rewrite list_lookup_fmap.
  destruct (decide (Z.to_nat index = j)) as [<- | Hne].
  - apply index_ok_true in Hok. destruct Hok as [_ Hlt].
    rewrite list_lookup_alter_eq, list_lookup_insert_eq
      by (rewrite length_fmap; exact Hlt).
    destruct (lookup_lt_is_Some_2 _ _ Hlt) as [c Hc]. rewrite Hc. reflexivity.
  - rewrite list_lookup_alter_ne, list_lookup_insert_ne by exact Hne.
    rewrite list_lookup_fmap. reflexivity.
Qed.

End SettersApplied.


(** ** Calibrating and inverting an Axis pot *)

Section AxisCalibration.
Local Open Scope Q_scope.

Lemma clamp_raw_inside (raw_value : Q) :
  0 <= raw_value <= 1023 -> clamp_raw raw_value == raw_value.
Proof. intros Hr. unfold clamp_raw. apply (clamp_Q_id 0 1023). exact Hr. Qed.

(** Between ordered bounds inside the raw range the calibration map is the
    straight line through its two end points. *)
Lemma calibrate_pot_linear (config : Pot.t Q) (raw_value : Q) :
  0 <= Pot.calibrated_min config ->
  Pot.calibrated_min config < Pot.calibrated_max config ->
  Pot.calibrated_max config <= 1023 ->
  Pot.calibrated_min config <= raw_value <= Pot.calibrated_max config ->
  calibrate_pot config raw_value
  == (raw_value - Pot.calibrated_min config)
     / (Pot.calibrated_max config - Pot.calibrated_min config) * 100.
Proof.
  intros Hlo Hord Hhi Hr. rewrite calibrate_pot_ordered.
  unfold effective_bounds.
  replace (ple (Pot.calibrated_max config) (Pot.calibrated_min config)) with false
    by (symmetry; apply ple_Q_false; exact Hord).
  cbn [fst snd]. q_ops.
  set (lo := Pot.calibrated_min config) in *. set (hi := Pot.calibrated_max config) in *.
  assert (Hraw : clamp_raw raw_value == raw_value) by (apply clamp_raw_inside; lra).
  assert (Hline : (clamp_raw raw_value - lo) / (hi - lo) * 100
                  == (raw_value - lo) / (hi - lo) * 100) by (rewrite Hraw; reflexivity).
  assert (Hunit : 0 <= (raw_value - lo) / (hi - lo) <= 1).
  { split.
    - apply Qle_shift_div_l; lra.
    - apply Qle_shift_div_r; lra. }
  rewrite clamp_Q_id; [exact Hline |].
  rewrite Hline. lra.
Qed.

(** X5: calibration sets the end points.  After [calibrate_pot_min] at
    [lo] and [calibrate_pot_max] at [hi], with [0 <= lo < hi <= 1023], an
    Axis pot without inversion reads 0 at [lo], 100 at [hi] and
    [(raw - lo) / (hi - lo) * 100] in between. *)
Theorem calibration_sets_end_points
    (self : ControlPanelConfig Q) (index : Z) (config : Pot.t Q) (lo hi : Q) :
  (0 <= index)%Z ->
  pot_config self !! Z.to_nat index = Some config ->
  Pot.type config = "Axis"%string ->
  Pot.invert config = false ->
  0 <= lo -> lo < hi -> hi <= 1023 ->
  let self' := snd (calibrate_pot_max index hi (snd (calibrate_pot_min index lo self))) in
  fst (process_pot_value index lo self') == 0
  /\ fst (process_pot_value index hi self') == 100
  /\ forall raw_value,
       lo <= raw_value <= hi ->
       fst (process_pot_value index raw_value self') == (raw_value - lo) / (hi - lo) * 100.
Proof.
  intros Hidx Hget Htype Hinv Hlo Hord Hhi self'.
  set (config' := Pot.set_calibrated_max hi (Pot.set_calibrated_min lo config)).
  assert (Hget' : pot_config self' !! Z.to_nat index = Some config').
  { subst self' config'.
    destruct (setters_write_lookup self index config lo hi Hidx Hget) as [Hmin Hmax].
    exact Hmax. }
  assert (Hline : forall raw_value,
             lo <= raw_value <= hi ->
             fst (process_pot_value index raw_value self')
             == (raw_value - lo) / (hi - lo) * 100).
  { intros raw_value Hr.
    rewrite (process_pot_value_enabled self' index config' raw_value Hidx Hget')
      by (subst config'; cbn; rewrite Htype; discriminate).
    cbn [fst]. unfold interpret_pot, inverted_pot.
    replace (Pot.type config') with "Axis"%string by (symmetry; exact Htype).
    replace (Pot.invert config') with false by (symmetry; exact Hinv).
    change (String.eqb "Axis" "Axis") with true. cbv beta iota.
    apply (calibrate_pot_linear config' raw_value); subst config'; cbn; lra. }
  split; [| split; [| exact Hline]].
  - rewrite Hline by lra. unfold Qdiv. ring.
  - rewrite Hline by lra. field. lra.
Qed.


End AxisCalibration.

(** Pot 1 of a fresh panel calibrated to 100..900: raw 100 reads 0, raw
    900 reads 100 and raw 300 reads 25. *)
Lemma calibration_sets_end_points_witness :
  (fst (process_pot_value (N:=Q) 1 (100 # 1) calibrated_panel) == 0
   /\ fst (process_pot_value (N:=Q) 1 (900 # 1) calibrated_panel) == 100
   /\ fst (process_pot_value (N:=Q) 1 (300 # 1) calibrated_panel) == 25)%Q.
Proof.
  assert (H0 : (0 <= 100 # 1)%Q) by (vm_compute; discriminate).
  assert (H1 : (100 # 1 < 900 # 1)%Q) by reflexivity.
  assert (H2 : (900 # 1 <= 1023)%Q) by (vm_compute; discriminate).
  destruct (calibration_sets_end_points ControlPanelConfig_init 1 (default_pot 1)
              (100 # 1)%Q (900 # 1)%Q ltac:(lia) eq_refl eq_refl eq_refl H0 H1 H2)
    as (Hlo & Hhi & Hline).
  split; [exact Hlo | split; [exact Hhi |]].
  transitivity ((300 - 100) / (900 - 100) * 100)%Q; [| reflexivity].
  apply (Hline (300 # 1)%Q). split; vm_compute; discriminate.
Defined.


(** * Further properties of the throttle calibration *)

Section IdleToMaxLaw.
Local Open Scope Q_scope.

Lemma clamp_Q_low (lo hi x : Q) : lo <= hi -> x <= lo -> py_max lo (py_min hi x) == lo.
Proof.
  intros Hlh Hx. unfold py_max, py_min.
  destruct (plt x hi) eqn:E1.
  - destruct (plt lo x) eqn:E2; [| reflexivity]. apply plt_Q in E2. lra.
  - apply plt_Q_false in E1. destruct (plt lo hi) eqn:E2; [| reflexivity].
    apply plt_Q in E2. lra.
Qed.

Lemma clamp_Q_high (lo hi x : Q) : lo <= hi -> hi <= x -> py_max lo (py_min hi x) == hi.
Proof.
  intros Hlh Hx. unfold py_max, py_min.
  destruct (plt x hi) eqn:E1.
  - apply plt_Q in E1. lra.
  - destruct (plt lo hi) eqn:E2; [reflexivity |]. apply plt_Q_false in E2. lra.
Qed.

Lemma Qdiv_nonneg_neg (x d : Q) : 0 <= x -> d < 0 -> x / d <= 0.
Proof.
  intros Hx Hd.
  assert (Hflip : x / d == - (x / - d)) by (field; lra).
  rewrite Hflip.
  assert (0 <= x / - d) by (apply Qle_shift_div_l; lra).
  lra.
Qed.

Lemma Qdiv_mono (x y d : Q) : 0 < d -> x <= y -> x / d <= y / d.
Proof.
  intros Hd Hxy. apply Qmult_le_compat_r; [exact Hxy |].
  apply Qinv_le_0_compat. lra.
Qed.

(** The law shared by [calibrate_simple] and [calibrate_throttle], on the
    side of the idle point where it is not 0. *)
Lemma calibrate_simple_above_idle (s : FlightControls Q) (r : Q) (c : Control) :
  Cal.idle (calibration s c) < r ->
  calibrate_simple s r c
  = if peq (Cal.max (calibration s c)) (Cal.idle (calibration s c)) then 100
    else py_max 0 (py_min 1 ((r - Cal.idle (calibration s c))
                              / (Cal.max (calibration s c) - Cal.idle (calibration s c))))
         * 100.
Proof.
  intros Hr. unfold calibrate_simple.
  replace (ple r (Cal.idle (calibration s c))) with false
    by (symmetry; apply ple_Q_false; exact Hr).
  reflexivity.
Qed.

Lemma calibrate_simple_mono (s : FlightControls Q) (r1 r2 : Q) (c : Control) :
  r1 <= r2 -> calibrate_simple s r1 c <= calibrate_simple s r2 c.
Proof.
  intros Hr.
  destruct (Qlt_le_dec (Cal.idle (calibration s c)) r1) as [Habove | Hbelow].
  - rewrite !calibrate_simple_above_idle by lra.
    destruct (peq _ _) eqn:E; [lra |].
    set (idle := Cal.idle (calibration s c)) in *.
    set (top := Cal.max (calibration s c)) in *.
    assert (Hne : ~ top == idle) by (intros Heq; apply peq_Q in Heq; congruence).
    q_ops. apply Qmult_le_compat_r; [| lra].
    destruct (Qlt_le_dec idle top) as [Hup | Hdown].
    + apply (clamp_Q_mono 0 1); [lra |]. apply Qdiv_mono; lra.
    + assert (Hd : top - idle < 0).
      { destruct (Qeq_dec top idle) as [Heq | _]; [contradiction |].
        assert (~ top - idle == 0) by (intros Hz; apply Hne; lra). lra. }
      rewrite !(clamp_Q_low 0 1) by (first [lra | apply Qdiv_nonneg_neg; lra]). lra.
  - unfold calibrate_simple at 1.
    replace (ple r1 (Cal.idle (calibration s c))) with true
      by (symmetry; apply ple_Q; exact Hbelow).
    apply calibrate_simple_range.
Qed.

(** The mirror law of [calibrate_reverse], below its idle point. *)
Lemma calibrate_reverse_below_idle (s : FlightControls Q) (r : Q) :
  r < Cal.idle (calibration s reverse) ->
  calibrate_reverse s r
  = if peq (Cal.idle (calibration s reverse)) (Cal.min (calibration s reverse)) then 100
    else py_max 0 (py_min 1 ((Cal.idle (calibration s reverse) - r)
                              / (Cal.idle (calibration s reverse)
                                 - Cal.min (calibration s reverse))))
         * 100.
Proof.
  intros Hr. unfold calibrate_reverse.
  replace (ple (Cal.idle (calibration s reverse)) r) with false
    by (symmetry; apply ple_Q_false; exact Hr).
  reflexivity.
Qed.

Lemma calibrate_reverse_antitone (s : FlightControls Q) (r1 r2 : Q) :
  r1 <= r2 -> calibrate_reverse s r2 <= calibrate_reverse s r1.
Proof.
  intros Hr.
  destruct (Qlt_le_dec r2 (Cal.idle (calibration s reverse))) as [Hbelow | Habove].
  - rewrite !calibrate_reverse_below_idle by lra.
    destruct (peq _ _) eqn:E; [lra |].
    set (idle := Cal.idle (calibration s reverse)) in *.
    set (bottom := Cal.min (calibration s reverse)) in *.
    assert (Hne : ~ idle == bottom) by (intros Heq; apply peq_Q in Heq; congruence).
    q_ops. apply Qmult_le_compat_r; [| lra].
    destruct (Qlt_le_dec bottom idle) as [Hup | Hdown].
    + apply (clamp_Q_mono 0 1); [lra |]. apply Qdiv_mono; lra.
    + assert (Hd : idle - bottom < 0).
      { assert (~ idle - bottom == 0) by (intros Hz; apply Hne; lra). lra. }
      rewrite !(clamp_Q_low 0 1) by (first [lra | apply Qdiv_nonneg_neg; lra]). lra.
  - unfold calibrate_reverse at 1.
    replace (ple (Cal.idle (calibration s reverse)) r2) with true
      by (symmetry; apply ple_Q; exact Habove).
    apply calibrate_reverse_range.
Qed.


(** X11: the calibration laws follow the lever, whatever the calibration
    entries hold: a larger raw value never gives less forward thrust, never
    gives more reverse thrust, and never gives a lower prop or mixture
    reading. *)
Theorem calibration_monotone (s : FlightControls Q) (r1 r2 : Q) :
  r1 <= r2 ->
  calibrate_throttle s r1 <= calibrate_throttle s r2
  /\ calibrate_reverse s r2 <= calibrate_reverse s r1
  /\ forall c, calibrate_simple s r1 c <= calibrate_simple s r2 c.
Proof.
  intros Hr. split; [| split].
  - exact (calibrate_simple_mono s r1 r2 throttle Hr).
  - apply calibrate_reverse_antitone, Hr.
  - intros c. apply calibrate_simple_mono, Hr.
Qed.

End IdleToMaxLaw.


Lemma calibration_monotone_witness :
  (calibrate_throttle (N:=Q) scenario_controls (150 # 1)
   <= calibrate_throttle (N:=Q) scenario_controls (640 # 1))%Q.
Proof.
  apply (calibration_monotone scenario_controls (150 # 1)%Q (640 # 1)%Q).
  vm_compute. discriminate.
Defined.

Section CalibratedSegments.
Local Open Scope Q_scope.

(** Forward thrust over an entry with [idle < max]: 0 up to the idle point,
    a straight line up to the maximum, 100 beyond it. *)
Lemma forward_segments (s : FlightControls Q) (r : Q) :
  Cal.idle (calibration s throttle) < Cal.max (calibration s throttle) ->
  (r <= Cal.idle (calibration s throttle) -> calibrate_throttle s r == 0)
  /\ (Cal.idle (calibration s throttle) <= r <= Cal.max (calibration s throttle) ->
      calibrate_throttle s r
      == (r - Cal.idle (calibration s throttle))
         / (Cal.max (calibration s throttle) - Cal.idle (calibration s throttle)) * 100)
  /\ (Cal.max (calibration s throttle) <= r -> calibrate_throttle s r == 100).
Proof.
  set (idle := Cal.idle (calibration s throttle)).
  set (top := Cal.max (calibration s throttle)).
  intros Hord.
  assert (Hbelow : r <= idle -> calibrate_throttle s r == 0).
  { intros Hr. rewrite (calibrate_throttle_below_idle s r (proj2 (ple_Q _ _) Hr)).
    reflexivity. }
  assert (Habove : idle < r ->
            calibrate_throttle s r == py_max 0 (py_min 1 ((r - idle) / (top - idle))) * 100).
  { intros Hr. change (calibrate_throttle s r) with (calibrate_simple s r throttle).
    rewrite calibrate_simple_above_idle by exact Hr. fold idle top.
    replace (peq top idle) with false; [reflexivity |].
    symmetry. apply not_true_iff_false. intros Heq. apply peq_Q in Heq. lra. }
  split; [exact Hbelow | split].
  - intros [Hlo Hhi]. destruct (Qlt_le_dec idle r) as [Hr | Hr].
    + rewrite Habove by exact Hr. rewrite clamp_Q_id; [reflexivity |].
      split; [apply Qle_shift_div_l; lra | apply Qle_shift_div_r; lra].
    + rewrite Hbelow by exact Hr.
      assert (Heq : r == idle) by lra. rewrite Heq. unfold Qdiv. ring.
  - intros Hr. rewrite Habove by lra. rewrite clamp_Q_high; [lra | lra |].
    apply Qle_shift_div_l; lra.
Qed.

(** Reverse thrust over an entry with [min < idle]: 100 up to the minimum,
    a straight line down to the idle point, 0 beyond it. *)
Lemma reverse_segments (s : FlightControls Q) (r : Q) :
  Cal.min (calibration s reverse) < Cal.idle (calibration s reverse) ->
  (r <= Cal.min (calibration s reverse) -> calibrate_reverse s r == 100)
  /\ (Cal.min (calibration s reverse) <= r <= Cal.idle (calibration s reverse) ->
      calibrate_reverse s r
      == (Cal.idle (calibration s reverse) - r)
         / (Cal.idle (calibration s reverse) - Cal.min (calibration s reverse)) * 100)
  /\ (Cal.idle (calibration s reverse) <= r -> calibrate_reverse s r == 0).
Proof.
  set (idle := Cal.idle (calibration s reverse)).
  set (bottom := Cal.min (calibration s reverse)).
  intros Hord.
  assert (Habove : idle <= r -> calibrate_reverse s r == 0).
  { intros Hr. rewrite (calibrate_reverse_above_idle s r (proj2 (ple_Q _ _) Hr)).
    reflexivity. }
  assert (Hbelow : r < idle ->
            calibrate_reverse s r == py_max 0 (py_min 1 ((idle - r) / (idle - bottom))) * 100).
  { intros Hr. rewrite calibrate_reverse_below_idle by exact Hr. fold idle bottom.
    replace (peq idle bottom) with false; [reflexivity |].
    symmetry. apply not_true_iff_false. intros Heq. apply peq_Q in Heq. lra. }
  split; [| split; [| exact Habove]].
  - intros Hr. rewrite Hbelow by lra. rewrite clamp_Q_high; [lra | lra |].
    apply Qle_shift_div_l; lra.
  - intros [Hlo Hhi]. destruct (Qlt_le_dec r idle) as [Hr | Hr].
    + rewrite Hbelow by exact Hr. rewrite clamp_Q_id; [reflexivity |].
      split; [apply Qle_shift_div_l; lra | apply Qle_shift_div_r; lra].
    + rewrite Habove by exact Hr.
      assert (Heq : r == idle) by lra. rewrite Heq. unfold Qdiv. ring.
Qed.

(** X12: the calibration buttons set the working range of the throttle.
    After the idle point of throttle and reverse was set at [idle], the
    maximum forward at [top] and the maximum reverse at [bottom], with
    [bottom < idle < top] and no inversion, a raw value reads full reverse up
    to [bottom], reverse thrust falling in a straight line to 0 at [idle],
    forward thrust rising in a straight line to 100 at [top], and full
    forward beyond. *)
Theorem throttle_calibration_actions (s : FlightControls Q) (bottom idle_ top r : Q) :
  bottom < idle_ -> idle_ < top ->
  invert_axis s throttle = false ->
  invert_axis s reverse = false ->
  let s' := set_max_reverse bottom (set_max_forward top
              (set_idle_point reverse idle_ (set_idle_point throttle idle_ s))) in
  (r <= bottom ->
   fst (process_throttle_input s' r) == 0 /\ snd (process_throttle_input s' r) == 100)
  /\ (bottom <= r <= idle_ ->
      fst (process_throttle_input s' r) == 0
      /\ snd (process_throttle_input s' r) == (idle_ - r) / (idle_ - bottom) * 100)
  /\ (idle_ <= r <= top ->
      fst (process_throttle_input s' r) == (r - idle_) / (top - idle_) * 100
      /\ snd (process_throttle_input s' r) == 0)
  /\ (top <= r ->
      fst (process_throttle_input s' r) == 100 /\ snd (process_throttle_input s' r) == 0).
Proof.
  intros Hlow Hhigh Hit Hir s'.
  assert (Ht : calibration s' throttle = Cal.mk (Cal.min (calibration s throttle)) top idle_)
    by reflexivity.
  assert (Hr : calibration s' reverse = Cal.mk bottom (Cal.max (calibration s reverse)) idle_)
    by reflexivity.
  assert (Hit' : invert_axis s' throttle = false) by exact Hit.
  assert (Hir' : invert_axis s' reverse = false) by exact Hir.
  pose proof (forward_segments s' r) as Hf. pose proof (reverse_segments s' r) as Hv.
  rewrite Ht in Hf. rewrite Hr in Hv. cbn [Cal.min Cal.max Cal.idle] in Hf, Hv.
  specialize (Hf Hhigh). specialize (Hv Hlow).
  destruct Hf as (Hf0 & Hfline & Hf100). destruct Hv as (Hv100 & Hvline & Hv0).
  unfold process_throttle_input. cbn [fst snd].
  rewrite !apply_inversion_off by assumption.
  split; [| split; [| split]].
  - intros Hq. split; [apply Hf0; lra | apply Hv100; lra].
  - intros Hq. split; [apply Hf0; lra | apply Hvline; lra].
  - intros Hq. split; [apply Hfline; lra | apply Hv0; lra].
  - intros Hq. split; [apply Hf100; lra | apply Hv0; lra].
Qed.


End CalibratedSegments.

(** A fresh quadrant calibrated at 100, 300 and 900: raw 600 reads half
    forward thrust. *)
Lemma throttle_calibration_actions_witness :
  (fst (process_throttle_input (N:=Q)
          (set_max_reverse (100 # 1) (set_max_forward (900 # 1)
             (set_idle_point reverse (300 # 1) (set_idle_point throttle (300 # 1)
                (FlightControls_init true))))) (600 # 1)) == 50)%Q.
Proof.
  destruct (throttle_calibration_actions (FlightControls_init true)
              (100 # 1)%Q (300 # 1)%Q (900 # 1)%Q (600 # 1)%Q
              eq_refl eq_refl eq_refl eq_refl) as (_ & _ & Hmid & _).
  transitivity ((600 - 300) / (900 - 300) * 100)%Q; [| reflexivity].
  apply Hmid. split; vm_compute; discriminate.
Defined.


(** * A nan on the serial line, at binary64 *)

Section NanSample.

Lemma Prim2SF_nan : Prim2SF PrimFloat.nan = S754_nan.
Proof. vm_compute. reflexivity. Qed.

Lemma nan_leb_l (x : float) : PrimFloat.leb PrimFloat.nan x = false.
Proof. rewrite leb_spec, Prim2SF_nan. reflexivity. Qed.

Lemma nan_leb_r (x : float) : PrimFloat.leb x PrimFloat.nan = false.
Proof. rewrite leb_spec, Prim2SF_nan. destruct (Prim2SF x); reflexivity. Qed.

Lemma nan_ltb_l (x : float) : PrimFloat.ltb PrimFloat.nan x = false.
Proof. rewrite ltb_spec, Prim2SF_nan. reflexivity. Qed.

Lemma nan_sub_l (x : float) : PrimFloat.sub PrimFloat.nan x = PrimFloat.nan.
Proof.
  rewrite <- (SF2Prim_Prim2SF (PrimFloat.sub PrimFloat.nan x)).
  rewrite sub_spec, Prim2SF_nan. reflexivity.
Qed.

Lemma nan_sub_r (x : float) : PrimFloat.sub x PrimFloat.nan = PrimFloat.nan.
Proof.
  rewrite <- (SF2Prim_Prim2SF (PrimFloat.sub x PrimFloat.nan)).
  rewrite sub_spec, Prim2SF_nan. destruct (Prim2SF x); reflexivity.
Qed.

Lemma nan_div_l (x : float) : PrimFloat.div PrimFloat.nan x = PrimFloat.nan.
Proof.
  rewrite <- (SF2Prim_Prim2SF (PrimFloat.div PrimFloat.nan x)).
  rewrite div_spec, Prim2SF_nan. reflexivity.
Qed.

(** [max(0.0, min(1.0, nan))] is 1.0: [min] keeps its first argument when
    the comparison with the nan fails. *)
Lemma clamp_ratio_nan :
  py_max (N:=float) (of_int 0) (py_min (of_int 1) PrimFloat.nan) = of_int 1.
Proof. reflexivity. Qed.

(** X15: a nan sample pushes both ways.  At binary64, whatever the
    calibration entries hold, a nan raw value gives forward thrust 100 and
    reverse thrust 100 when neither is inverted: every comparison with the
    nan fails, and the clamp of the nan ratio is 1. *)
Theorem nan_sample_reads_full_both_ways (s : FlightControls float) :
  invert_axis s throttle = false ->
  invert_axis s reverse = false ->
  process_throttle_input s PrimFloat.nan = (100%float, 100%float).
Proof.
  intros Hit Hir. unfold process_throttle_input.
  rewrite !apply_inversion_off by assumption.
  f_equal.
  - unfold calibrate_throttle.
    change (ple PrimFloat.nan (Cal.idle (calibration s throttle)))
      with (PrimFloat.leb PrimFloat.nan (Cal.idle (calibration s throttle))).
    rewrite nan_leb_l.
    destruct (peq _ _); [reflexivity |].
    change (psub PrimFloat.nan (Cal.idle (calibration s throttle)))
      with (PrimFloat.sub PrimFloat.nan (Cal.idle (calibration s throttle))).
    rewrite nan_sub_l.
    change (pdiv PrimFloat.nan ?d) with (PrimFloat.div PrimFloat.nan d).
    rewrite nan_div_l, clamp_ratio_nan. reflexivity.
  - unfold calibrate_reverse.
    change (ple (Cal.idle (calibration s reverse)) PrimFloat.nan)
      with (PrimFloat.leb (Cal.idle (calibration s reverse)) PrimFloat.nan).
    rewrite nan_leb_r.
    destruct (peq _ _); [reflexivity |].
    change (psub (Cal.idle (calibration s reverse)) PrimFloat.nan)
      with (PrimFloat.sub (Cal.idle (calibration s reverse)) PrimFloat.nan).
    rewrite nan_sub_r.
    change (pdiv PrimFloat.nan ?d) with (PrimFloat.div PrimFloat.nan d).
    rewrite nan_div_l, clamp_ratio_nan. reflexivity.
Qed.

End NanSample.

(** The scenario calibration fed a nan. *)
Lemma nan_sample_reads_full_both_ways_witness :
  process_throttle_input (N:=float) scenario_controls PrimFloat.nan = (100%float, 100%float).
Proof.
  exact (nan_sample_reads_full_both_ways scenario_controls eq_refl eq_refl).
Defined.

(** * Further properties of the mappings *)

Section Truncation.
Local Open Scope Q_scope.

(** [int()] of a rational stays between the integers that bound it. *)
Lemma Qtrunc_bounds (q : Q) (a b : Z) :
  inject_Z a <= q -> q <= inject_Z b -> (a <= Qtrunc q <= b)%Z.
Proof.
  destruct q as [n d]. unfold Qle, Qtrunc. cbn [Qnum Qden inject_Z].
  intros Ha Hb.
  pose proof (Z.quot_rem' n (Zpos d)) as Hqr.
  destruct (Z.le_gt_cases 0 n) as [Hn | Hn].
  - pose proof (Z.rem_bound_pos n (Zpos d) Hn ltac:(lia)). nia.
  - pose proof (Z.rem_bound_pos_neg n (Zpos d) ltac:(lia) ltac:(lia)). nia.
Qed.

(** The axis value of a percentage: [int(x * 327.68)] lies within the
    range of the axis, so the clamp that follows changes nothing. *)
Lemma axis_value_range (x : Q) :
  0 <= x <= 100 -> (0 <= Qtrunc (x * lit 32768 100) <= 32768)%Z.
Proof.
  intros Hx. apply Qtrunc_bounds; unfold lit; q_ops; unfold Qdiv;
    change (/ 100) with (1 # 100); cbn [inject_Z]; lra.
Qed.

(** The stick value of a percentage: [int(x * 655.34 - 32768)] spans the
    negative half fully and stops one short of 32767. *)
Lemma stick_value_range (x : Q) :
  0 <= x <= 100 -> (-32768 <= Qtrunc (x * lit 65534 100 - of_int 32768) <= 32766)%Z.
Proof.
  intros Hx. apply Qtrunc_bounds; unfold lit; q_ops; unfold Qdiv;
    change (/ 100) with (1 # 100); cbn [inject_Z]; lra.
Qed.

(** The trigger value of a percentage: [int(x * 327.67)]. *)
Lemma trigger_value_range (x : Q) :
  0 <= x <= 100 -> (0 <= Qtrunc (x * lit 32767 100) <= 32767)%Z.
Proof.
  intros Hx. apply Qtrunc_bounds; unfold lit; q_ops; unfold Qdiv;
    change (/ 100) with (1 # 100); cbn [inject_Z]; lra.
Qed.

Lemma axis_range_id (v : Z) : (0 <= v <= 32768)%Z -> axis_range v = v.
Proof. unfold axis_range. lia. Qed.

Lemma process_throttle_input_range (s : FlightControls Q) (r : Q) :
  0 <= fst (process_throttle_input s r) <= 100
  /\ 0 <= snd (process_throttle_input s r) <= 100.
Proof.
  unfold process_throttle_input. cbn [fst snd]. split.
  - apply apply_inversion_range, calibrate_throttle_range.
  - apply apply_inversion_range, calibrate_reverse_range.
Qed.

(** X16: the vJoy mapping delivers in one piece.  With a device, over
    exact rationals, [map_controls_vjoy] always returns the four calibrated
    percentages, each within 0..100; it writes X, RX, Y and Z with
    [int(percentage * 327.68)], each within 0..32768, leaves RY, RZ, the two
    sliders and the buttons as they were, and pushes the position once, so
    that the driver holds exactly what was written. *)
Theorem vjoy_mapping_delivers_in_range
    (s : FlightControls Q) (d : VJoyDevice) (throttle_raw prop_raw mixture_raw : Q) :
  vjoy_dev s = Some d ->
  exists forward reverse_ prop_ mixture_ position,
    map_controls_vjoy throttle_raw prop_raw mixture_raw s
    = (Return (forward, reverse_, prop_, mixture_),
       with_vjoy_dev (Some {| data := position; reported := position |}) s)
    /\ (0 <= forward <= 100 /\ 0 <= reverse_ <= 100
        /\ 0 <= prop_ <= 100 /\ 0 <= mixture_ <= 100)
    /\ (wAxisX position = Qtrunc (forward * lit 32768 100)
        /\ wAxisXRot position = Qtrunc (reverse_ * lit 32768 100)
        /\ wAxisY position = Qtrunc (prop_ * lit 32768 100)
        /\ wAxisZ position = Qtrunc (mixture_ * lit 32768 100))%Z
    /\ (0 <= wAxisX position <= 32768 /\ 0 <= wAxisXRot position <= 32768
        /\ 0 <= wAxisY position <= 32768 /\ 0 <= wAxisZ position <= 32768)%Z
    /\ (wAxisYRot position = wAxisYRot (data d) /\ wAxisZRot position = wAxisZRot (data d)
        /\ wSlider position = wSlider (data d) /\ wDial position = wDial (data d)
        /\ lButtons position = lButtons (data d)).
Proof.
  intros Hd.
  pose proof (process_throttle_input_range s throttle_raw) as [Hf Hr].
  set (forward := fst (process_throttle_input s throttle_raw)) in *.
  set (reverse_ := snd (process_throttle_input s throttle_raw)) in *.
  set (prop_ := apply_inversion s (calibrate_simple s prop_raw prop) prop).
  set (mixture_ := apply_inversion s (calibrate_simple s mixture_raw mixture) mixture).
  assert (Hp : 0 <= prop_ <= 100)
    by (apply apply_inversion_range, calibrate_simple_range).
  assert (Hm : 0 <= mixture_ <= 100)
    by (apply apply_inversion_range, calibrate_simple_range).
  pose proof (axis_value_range forward Hf) as Hx.
  pose proof (axis_value_range reverse_ Hr) as Hrx.
  pose proof (axis_value_range prop_ Hp) as Hy.
  pose proof (axis_value_range mixture_ Hm) as Hz.
  exists forward, reverse_, prop_, mixture_,
    (mapped_position (Qtrunc (forward * lit 32768 100)) (Qtrunc (reverse_ * lit 32768 100))
       (Qtrunc (prop_ * lit 32768 100)) (Qtrunc (mixture_ * lit 32768 100)) (data d)).
  split.
  - apply (vjoy_mapping_delivers s d throttle_raw prop_raw mixture_raw); [exact Hd | ..];
      reflexivity.
  - unfold mapped_position. rewrite !axis_range_id by assumption.
    unfold set_wAxisZ, set_wAxisY, set_wAxisXRot, set_wAxisX.
    cbn [wAxisX wAxisY wAxisZ wAxisXRot wAxisYRot wAxisZRot wSlider wDial lButtons].
    repeat split; try assumption; try reflexivity; tauto.
Qed.

End Truncation.

(** The scenario calibration with a device, raw 600, 40, 70. *)
Lemma vjoy_mapping_delivers_in_range_witness :
  exists position,
    snd (map_controls_vjoy (N:=Q) (600 # 1) (40 # 1) (70 # 1) scenario_controls)
    = with_vjoy_dev (Some {| data := position; reported := position |}) scenario_controls
    /\ (wAxisX position = 16384 /\ wAxisY position = 13107 /\ wAxisZ position = 22937)%Z.
Proof.
  destruct (vjoy_mapping_delivers_in_range scenario_controls _
              (600 # 1)%Q (40 # 1)%Q (70 # 1)%Q eq_refl)
    as (forward & reverse_ & prop_ & mixture_ & position & Hrun & _ & Hvalues & _).
  exists position. rewrite Hrun. split; [reflexivity |].
  injection Hrun as Hf Hr Hp Hm Hpos.
  destruct Hvalues as (HX & _ & HY & HZ).
  rewrite HX, HY, HZ, <- Hf, <- Hp, <- Hm. repeat split; vm_compute; reflexivity.
Defined.

(** ** The gamepad route *)

Section GamepadRoute.
Context {N : Type} `{PyNum N}.

(** On the Xbox controller, outside War Thunder, [apply_mapping] hands the
    difference of the two throttle outputs and the calibrated prop and
    mixture to the function of the profile. *)
Lemma apply_mapping_gamepad
    (s : FlightControls N) (throttle_raw prop_raw mixture_raw : N)
    (f : N -> N -> N -> M N unit) :
  controller_type s = XBOX ->
  mapping_functions (current_profile s) = Some f ->
  apply_mapping throttle_raw prop_raw mixture_raw s
  = (f (fst (process_throttle_input s throttle_raw)
        - snd (process_throttle_input s throttle_raw))%py
       (apply_inversion s (calibrate_simple s prop_raw prop) prop)
       (apply_inversion s (calibrate_simple s mixture_raw mixture) mixture) ;;
     ret (fst (process_throttle_input s throttle_raw),
          snd (process_throttle_input s throttle_raw),
          apply_inversion s (calibrate_simple s prop_raw prop) prop,
          apply_inversion s (calibrate_simple s mixture_raw mixture) mixture)) s.
Proof.
  intros Hc Hf. unfold apply_mapping. run_M. cbv beta iota.
  rewrite Hc. destruct (current_profile s) eqn:Hp; try discriminate Hf.
  all: cbn [is_VJOY is_WAR_THUNDER orb];
    destruct (process_throttle_input s throttle_raw) as [forward reverse_];
    cbn [fst snd]; rewrite Hf; reflexivity.
Qed.

(** X17: the X-Plane mapping writes one trigger and leaves the other.
    Under X-Plane on the Xbox gamepad, with [net = forward - reverse], the
    right trigger receives [int(net * 327.67)] when [net >= 0] and the left
    trigger [int(abs(net) * 327.67)] otherwise; the trigger of the other
    side is not written and keeps the value of an earlier call.  The right
    stick receives mixture on x and prop on y, the left stick is left
    alone. *)
Theorem xplane_writes_one_trigger
    (s : FlightControls N) (throttle_raw prop_raw mixture_raw : N) (v x y : Z) :
  controller_type s = XBOX ->
  current_profile s = XPLANE ->
  let forward := fst (process_throttle_input s throttle_raw) in
  let reverse_ := snd (process_throttle_input s throttle_raw) in
  let net := (forward - reverse_)%py in
  let prop_ := apply_inversion s (calibrate_simple s prop_raw prop) prop in
  let mixture_ := apply_inversion s (calibrate_simple s mixture_raw mixture) mixture in
  int_of ((if (net >=? of_int 0)%py then net else pabs net) * lit 32767 100)%py = Some v ->
  int_of (mixture_ * lit 65534 100 - of_int 32768)%py = Some x ->
  int_of (prop_ * lit 65534 100 - of_int 32768)%py = Some y ->
  apply_mapping throttle_raw prop_raw mixture_raw s
  = (Return (forward, reverse_, prop_, mixture_),
     with_gamepad
       {| right_trigger := if (net >=? of_int 0)%py then v else right_trigger (gamepad s);
          left_trigger := if (net >=? of_int 0)%py then left_trigger (gamepad s) else v;
          right_joystick := (x, y);
          left_joystick := left_joystick (gamepad s) |} s).
Proof.
  intros Hc Hp forward reverse_ net prop_ mixture_ Hv Hx Hy.
  rewrite (apply_mapping_gamepad s _ _ _ map_controls_xplane Hc)
    by (rewrite Hp; reflexivity).
  fold forward reverse_ net prop_ mixture_.
  unfold map_controls_xplane, int, gamepad_right_trigger, gamepad_left_trigger,
    gamepad_right_joystick.
  run_M. run_M.
  destruct (ple (of_int 0) net); rewrite Hv, Hx, Hy; reflexivity.
Qed.

End GamepadRoute.

(** X-Plane after a reverse sample (raw 100) and then a forward sample (raw
    600): the second call writes the right trigger and the left trigger
    still carries the value of the first, so both are pressed. *)
Lemma xplane_writes_one_trigger_witness :
  let s1 := snd (apply_mapping (N:=Q) (100 # 1) (0 # 1) (0 # 1) (profile_controls XPLANE)) in
  gamepad (snd (apply_mapping (N:=Q) (600 # 1) (0 # 1) (0 # 1) s1))
  = {| right_trigger := 16383; left_trigger := 16383;
       right_joystick := (-32768, -32768)%Z; left_joystick := (0, 0)%Z |}.
Proof.
  intros s1.
  pose proof (xplane_writes_one_trigger s1 (600 # 1)%Q (0 # 1)%Q (0 # 1)%Q
                16383%Z (-32768)%Z (-32768)%Z eq_refl eq_refl) as Hrun.
  cbv zeta in Hrun.
  rewrite Hrun by (vm_compute; reflexivity).
  vm_compute. reflexivity.
Defined.

Section DCSLayout.
Local Open Scope Q_scope.

Lemma net_throttle_range (s : FlightControls Q) (r : Q) :
  -100 <= fst (process_throttle_input s r) - snd (process_throttle_input s r) <= 100.
Proof. pose proof (process_throttle_input_range s r). lra. Qed.

Lemma stick_value_bounds (x : Q) :
  0 <= x <= 100 -> (-32768 <= stick_value x <= 32766)%Z.
Proof. exact (stick_value_range x). Qed.

(** X18: the DCS mapping is a stick layout whose throttle axis leaves the
    stick range in reverse.  Under DCS on the Xbox gamepad, over exact
    rationals, [apply_mapping] always returns; the left stick receives prop
    on x and [net = forward - reverse] on y, the right stick 0 on x and
    mixture on y, each through [int(v * 655.34 - 32768)], and the triggers
    are left alone.  The prop and mixture values lie within -32768..32766.
    The throttle value lies within -98302..32766, and whenever [net] is
    negative it is at or below -32768, the lower end of a stick. *)
Theorem dcs_stick_layout
    (s : FlightControls Q) (throttle_raw prop_raw mixture_raw : Q) :
  controller_type s = XBOX ->
  current_profile s = DCS ->
  let forward := fst (process_throttle_input s throttle_raw) in
  let reverse_ := snd (process_throttle_input s throttle_raw) in
  let net := forward - reverse_ in
  let prop_ := apply_inversion s (calibrate_simple s prop_raw prop) prop in
  let mixture_ := apply_inversion s (calibrate_simple s mixture_raw mixture) mixture in
  apply_mapping throttle_raw prop_raw mixture_raw s
  = (Return (forward, reverse_, prop_, mixture_),
     with_gamepad
       {| right_trigger := right_trigger (gamepad s);
          left_trigger := left_trigger (gamepad s);
          right_joystick := (0%Z, stick_value mixture_);
          left_joystick := (stick_value prop_, stick_value net) |} s)
  /\ (-32768 <= stick_value prop_ <= 32766)%Z
  /\ (-32768 <= stick_value mixture_ <= 32766)%Z
  /\ (-98302 <= stick_value net <= 32766)%Z
  /\ (net < 0 -> (stick_value net <= -32768)%Z).
Proof.
  intros Hc Hp forward reverse_ net prop_ mixture_.
  assert (Hnet : -100 <= net <= 100) by apply net_throttle_range.
  split; [| split; [| split; [| split]]].
  - rewrite (apply_mapping_gamepad s _ _ _ map_controls_dcs Hc)
      by (rewrite Hp; reflexivity).
    reflexivity.
  - apply stick_value_bounds, apply_inversion_range, calibrate_simple_range.
  - apply stick_value_bounds, apply_inversion_range, calibrate_simple_range.
  - unfold stick_value. apply Qtrunc_bounds; unfold lit; q_ops; unfold Qdiv;
      change (/ 100) with (1 # 100); cbn [inject_Z]; lra.
  - intros Hneg. unfold stick_value.
    apply (Qtrunc_bounds _ (-98302) (-32768)); unfold lit; q_ops; unfold Qdiv;
      change (/ 100) with (1 # 100); cbn [inject_Z]; lra.
Qed.

End DCSLayout.

(** DCS on the scenario calibration at raw 100 (half reverse), prop and
    mixture at rest: the left stick is asked for y = -65535. *)
Lemma dcs_stick_layout_witness :
  gamepad (snd (apply_mapping (N:=Q) (100 # 1) (0 # 1) (0 # 1) (profile_controls DCS)))
  = {| right_trigger := 0; left_trigger := 0;
       right_joystick := (0, -32768)%Z; left_joystick := (-32768, -65535)%Z |}.
Proof.
  pose proof (dcs_stick_layout (profile_controls DCS) (100 # 1)%Q (0 # 1)%Q (0 # 1)%Q
                eq_refl eq_refl) as (Hrun & _).
  rewrite Hrun. vm_compute. reflexivity.
Defined.

(** ** One output device per call *)

Section OneSink.
Context {N : Type} `{PyNum N} {X : Type}.
Variable P : FlightControls N -> X.

(** The four gamepad mappings change the gamepad and nothing else. *)
Lemma gamepad_mappings_keep (p : ControlProfile) (f : N -> N -> N -> M N unit) (t pr mi : N) :
  (forall g s, P (with_gamepad g s) = P s) ->
  mapping_functions p = Some f ->
  preserves P (f t pr mi).
Proof.
  intros HP Hf.
  destruct p; cbn in Hf; try discriminate Hf; injection Hf as <-.
  all: unfold map_controls_msfs, map_controls_dcs, map_controls_xplane, map_controls_il2,
         int, gamepad_right_trigger, gamepad_left_trigger,
         gamepad_right_joystick, gamepad_left_joystick.
  all: repeat first [ preserves_step | apply HP ].
Qed.

(** The vJoy mapping changes the device and nothing else. *)
Lemma vjoy_mapping_keeps (t pr mi : N) :
  (forall d s, P (with_vjoy_dev d s) = P s) ->
  preserves P (map_controls_vjoy t pr mi).
Proof.
  intros HP. unfold map_controls_vjoy, vjoy_mapping.
  repeat first
    [ apply preserves_vjoy_scale
    | apply preserves_vjoy_edit; exact HP
    | apply preserves_vjoy_update; exact HP
    | preserves_step ].
Qed.

End OneSink.

Section OneSinkPerCall.
Context {N : Type} `{PyNum N}.

Lemma bind_get_at {A} (k : FlightControls N -> M N A) (s : FlightControls N) :
  (self ← get ; k self) s = k s s.
Proof. reflexivity. Qed.

(** X19: a call of [apply_mapping] reaches one output device.  However the
    call ends, and on either numeric model, it changes neither the
    controller kind, the profile, the calibration, the inversion flags, the
    panel set-up nor the toggle state; on the vJoy route (vJoy controller or
    War Thunder) the gamepad keeps its state, on the gamepad route the vJoy
    device keeps its position. *)
Theorem apply_mapping_one_sink
    (s : FlightControls N) (throttle_raw prop_raw mixture_raw : N) :
  let s' := snd (apply_mapping throttle_raw prop_raw mixture_raw s) in
  settings_view s' = settings_view s
  /\ if vjoy_route s then gamepad s' = gamepad s else vjoy_dev s' = vjoy_dev s.
Proof.
  cbv zeta. split.
  - revert s. change (preserves settings_view (apply_mapping throttle_raw prop_raw mixture_raw)).
    unfold apply_mapping. apply preserves_bind; [apply preserves_get | intros self].
    destruct (is_VJOY (controller_type self) || is_WAR_THUNDER (current_profile self)).
    + apply vjoy_mapping_keeps. reflexivity.
    + destruct (process_throttle_input self throttle_raw) as [forward reverse_].
      apply preserves_bind; [| intros ?; apply preserves_ret].
      destruct (mapping_functions (current_profile self)) as [f |] eqn:Hf.
      * apply (gamepad_mappings_keep settings_view _ f _ _ _ (fun _ _ => eq_refl) Hf).
      * apply preserves_raise.
  - unfold vjoy_route, apply_mapping. rewrite bind_get_at.
    destruct (is_VJOY (controller_type s) || is_WAR_THUNDER (current_profile s)).
    + apply vjoy_mapping_keeps. reflexivity.
    + destruct (process_throttle_input s throttle_raw) as [forward reverse_].
      apply (fun Hm Hk => preserves_bind vjoy_dev _ _ Hm Hk s);
        [| intros ?; apply preserves_ret].
      destruct (mapping_functions (current_profile s)) as [f |] eqn:Hf.
      * apply (gamepad_mappings_keep vjoy_dev _ f _ _ _ (fun _ _ => eq_refl) Hf).
      * apply preserves_raise.
Qed.

End OneSinkPerCall.

(** ** The profile cycle *)

Section ProfileCycle.
Context {N : Type} `{PyNum N}.

Lemma next_profile_run (s : FlightControls N) :
  next_profile s
  = (Return (next_profile_of (current_profile s)),
     with_current_profile (next_profile_of (current_profile s)) s).
Proof. reflexivity. Qed.

(** X20: [next_profile] walks the five profiles in the order of their
    definition and wraps around.  A call selects and returns the member at
    index [(index + 1) % 5] of [list(ControlProfile)] and changes nothing
    else; from any profile every profile is reached within four calls, and
    the fifth call restores the state it started from. *)
Theorem next_profile_cycles (s : FlightControls N) :
  let after n := Nat.iter n (fun s => snd (next_profile s)) s in
  fst (next_profile s) = Return (current_profile (after 1%nat))
  /\ profiles !! ((profile_index (current_profile s) + 1) mod length profiles)%nat
     = Some (current_profile (after 1%nat))
  /\ (gamepad (after 1%nat), vjoy_dev (after 1%nat),
      (controller_type (after 1%nat), calibration (after 1%nat), invert_axis (after 1%nat),
       prop_as_speedbrake (after 1%nat), control_panel (after 1%nat),
       button_states (after 1%nat), last_pot_values (after 1%nat),
       controls_active (after 1%nat)))
     = (gamepad s, vjoy_dev s,
        (controller_type s, calibration s, invert_axis s, prop_as_speedbrake s,
         control_panel s, button_states s, last_pot_values s, controls_active s))
  /\ (forall q, exists n, (n < 5)%nat /\ current_profile (after n) = q)
  /\ after 5%nat = s.
Proof.
  cbv zeta. destruct s as [ct g p d cal inv sb cp bs lp ca].
  split; [reflexivity |].
  split; [destruct p; reflexivity |].
  split; [reflexivity |].
  split.
  - intros q.
    destruct p, q;
      first [ exists 0%nat; split; [lia | reflexivity]
            | exists 1%nat; split; [lia | reflexivity]
            | exists 2%nat; split; [lia | reflexivity]
            | exists 3%nat; split; [lia | reflexivity]
            | exists 4%nat; split; [lia | reflexivity] ].
  - destruct p; reflexivity.
Qed.

End ProfileCycle.

(** * Further properties of the panel loop *)

Section Readings.
Context {N : Type} `{PyNum N}.

Lemma yields_ret {A} (v : A) : yields (N:=N) v (ret v).
Proof. intros s a s' [= <- _]. reflexivity. Qed.

Lemma yields_bind {A B} (v : B) (m : M N A) (k : A -> M N B) :
  (forall a, yields v (k a)) -> yields v (bind m k).
Proof.
  intros Hk s b s'. unfold bind.
  destruct (m s) as [[a | e] s1]; [apply Hk | discriminate].
Qed.

Lemma bind_process_pot_value {A} (j : Z) (raw_value : N) (k : N -> M N A)
    (s : FlightControls N) :
  (processed ← on_control_panel (process_pot_value j raw_value) ; k processed) s
  = k (fst (process_pot_value j raw_value (control_panel s))) s.
Proof.
  unfold mbind, M_bind, bind. rewrite on_control_panel_process_pot_value. reflexivity.
Qed.

Lemma get_at {A} (k : FlightControls N -> M N A) (s : FlightControls N) :
  (self ← get ; k self) s = k s s.
Proof. reflexivity. Qed.

(** The value a turn appends is the reading of its pot, whatever the pot
    is mapped to. *)
Lemma process_pot_reading (ca : bool) (j : nat) (raw_value : option N)
    (s s' : FlightControls N) (v : N) :
  (j < length (pot_config (control_panel s)))%nat ->
  process_pot ca j raw_value s = (Return v, s') ->
  v = pot_reading (control_panel s) j raw_value.
Proof.
  intros Hj. unfold process_pot. rewrite get_at.
  destruct (pot_config (control_panel s) !! j) as [config |] eqn:Hc;
    [| apply lookup_ge_None in Hc; lia].
  destruct raw_value as [raw_value |]; [| intros [= <- _]; reflexivity].
  rewrite bind_process_pot_value. cbn [pot_reading].
  revert s'.
  set (processed := fst (process_pot_value (Z.of_nat j) raw_value (control_panel s))).
  intros s'.
  assert (Hy : yields processed
    (if negb ca then ret processed
     else match (if String.eqb (Pot.type config) "Axis"
                 then Pot.vjoy_axis config else None) with
          | Some axis =>
              axis_value ← int (processed * lit 32768 100)%py;
              int raw_value ;;
              vjoy_edit (axis_setter axis axis_value) ;;
              ret processed
          | None =>
              match (if String.eqb (Pot.type config) "Switch"
                        || String.eqb (Pot.type config) "Button"
                     then Pot.button_id config else None) with
              | Some button_id =>
                  map_button j config button_id processed raw_value ;;
                  ret processed
              | None => ret processed
              end
          end)).
  { destruct (negb ca); [apply yields_ret |].
    destruct (if String.eqb (Pot.type config) "Axis" then Pot.vjoy_axis config else None).
    - repeat (apply yields_bind; intros ?). apply yields_ret.
    - destruct (if String.eqb (Pot.type config) "Switch"
                   || String.eqb (Pot.type config) "Button"
                then Pot.button_id config else None).
      + apply yields_bind; intros ?. apply yields_ret.
      + apply yields_ret. }
  apply Hy.
Qed.

(** With the controls switched off a turn reads its pot and writes
    nothing. *)
Lemma process_pot_paused (j : nat) (raw_value : option N) (s : FlightControls N) :
  (j < length (pot_config (control_panel s)))%nat ->
  process_pot false j raw_value s = (Return (pot_reading (control_panel s) j raw_value), s).
Proof.
  intros Hj. unfold process_pot. rewrite get_at.
  destruct (pot_config (control_panel s) !! j) as [config |] eqn:Hc;
    [| apply lookup_ge_None in Hc; lia].
  destruct raw_value as [raw_value |]; [| reflexivity].
  rewrite bind_process_pot_value. reflexivity.
Qed.

(** The readings of the samples from pot [j] on. *)
Lemma readings_nil (cp : ControlPanelConfig N) (j : nat) :
  imap (fun k => pot_reading cp (j + k)) (take (length (pot_config cp) - j) []) = [].
Proof. rewrite take_nil. reflexivity. Qed.

Lemma readings_done (cp : ControlPanelConfig N) (j : nat) (pot_values : list (option N)) :
  (length (pot_config cp) <= j)%nat ->
  imap (fun k => pot_reading cp (j + k)) (take (length (pot_config cp) - j) pot_values) = [].
Proof.
  intros Hj. replace (length (pot_config cp) - j)%nat with 0%nat by lia. reflexivity.
Qed.

Lemma readings_cons (cp : ControlPanelConfig N) (j : nat) (raw_value : option N)
    (rest : list (option N)) :
  (j < length (pot_config cp))%nat ->
  imap (fun k => pot_reading cp (j + k))
    (take (length (pot_config cp) - j) (raw_value :: rest))
  = pot_reading cp j raw_value
    :: imap (fun k => pot_reading cp (S j + k)) (take (length (pot_config cp) - S j) rest).
Proof.
  intros Hj.
  replace (length (pot_config cp) - j)%nat with (S (length (pot_config cp) - S j)) by lia.
  cbn [take imap]. rewrite Nat.add_0_r. f_equal.
  apply imap_ext. intros k x _. cbn. f_equal. lia.
Qed.

(** The loop with the controls switched off. *)
Lemma panel_loop_paused (pot_values : list (option N)) :
  forall (j : nat) (acc : list N) (s : FlightControls N),
    panel_loop false j pot_values acc s
    = (Return (acc ++ imap (fun k => pot_reading (control_panel s) (j + k))
                       (take (length (pot_config (control_panel s)) - j) pot_values)),
       s).
Proof.
  induction pot_values as [| raw_value rest IH]; intros j acc s.
  - rewrite readings_nil, app_nil_r. reflexivity.
  - cbn [panel_loop]. rewrite get_at.
    destruct (bool_decide (length (pot_config (control_panel s)) ≤ j)%nat) eqn:Hlen.
    + apply bool_decide_eq_true_1 in Hlen.
      rewrite readings_done by exact Hlen. rewrite app_nil_r. reflexivity.
    + apply bool_decide_eq_false_1 in Hlen.
      unfold mbind, M_bind, bind.
      rewrite process_pot_paused by lia. rewrite IH.
      rewrite readings_cons by lia. rewrite <- app_assoc. reflexivity.
Qed.

(** X13: with the controls switched off the panel is read and nothing is
    written.  On either numeric model and for every frame, nan samples
    included, [process_control_panel] with [controls_active] false and a
    device returns one reading per sample, as far as there are pots: 0 for a
    missing sample and [process_pot_value] of the sample otherwise.  It
    changes neither the toggle state nor the position record, and the one
    thing it does is to push that record to the driver. *)
Theorem paused_panel_is_read_only
    (s : FlightControls N) (d : VJoyDevice) (pot_values : list (option N)) :
  vjoy_dev s = Some d ->
  controls_active s = Some false ->
  process_control_panel pot_values s
  = (Return (Some <$> panel_readings (control_panel s) pot_values),
     with_vjoy_dev (Some {| data := data d; reported := data d |}) s).
Proof.
  intros Hd Hca. unfold process_control_panel. rewrite get_at, Hd, Hca.
  cbn [default]. unfold mbind, M_bind, bind.
  rewrite panel_loop_paused. cbn [app].
  unfold vjoy_update, modify, ret. rewrite Hd.
  unfold panel_readings. rewrite Nat.sub_0_r. reflexivity.
Qed.

End Readings.

(** A paused panel at binary64 with a nan, a missing and a low sample: the
    readings are 100, 0 and 0, and the state is the one before the call. *)
Lemma paused_panel_is_read_only_witness :
  process_control_panel (N:=float) [Some PrimFloat.nan; None; Some 100%float] paused_controls
  = (Return [Some 100%float; Some 0%float; Some 0%float], paused_controls).
Proof.
  rewrite (paused_panel_is_read_only paused_controls _ _ eq_refl eq_refl).
  vm_compute. reflexivity.
Defined.

(** ** Frames on active controls, over exact rationals *)

Section FrameReadings.
Local Open Scope Q_scope.

Lemma panel_view_control_panel (s s' : FlightControls Q) :
  panel_view s' = panel_view s -> control_panel s' = control_panel s.
Proof. unfold panel_view. intros [= Hcp _ _]. exact Hcp. Qed.

(** The loop returns the readings of the frame and keeps the panel
    set-up. *)
Lemma panel_loop_readings (pot_values : list (option Q)) :
  forall (ca : bool) (j : nat) (acc : list Q) (s : FlightControls Q),
  exists s',
    panel_loop ca j pot_values acc s
    = (Return (acc ++ imap (fun k => pot_reading (control_panel s) (j + k))
                       (take (length (pot_config (control_panel s)) - j) pot_values)),
       s')
    /\ panel_view s' = panel_view s.
Proof.
  induction pot_values as [| raw_value rest IH]; intros ca j acc s.
  - exists s. rewrite readings_nil, app_nil_r. split; reflexivity.
  - cbn [panel_loop]. rewrite get_at.
    destruct (bool_decide (length (pot_config (control_panel s)) ≤ j)%nat) eqn:Hlen.
    + apply bool_decide_eq_true_1 in Hlen. exists s.
      rewrite readings_done by exact Hlen. rewrite app_nil_r. split; reflexivity.
    + apply bool_decide_eq_false_1 in Hlen.
      destruct (process_pot_turn ca j raw_value s) as (v & s1 & Hrun & Hpanel & _).
      pose proof (process_pot_reading ca j raw_value s s1 v ltac:(lia) Hrun) as Hv.
      destruct (IH ca (S j) (acc ++ [v]) s1) as (s' & Hloop & Hpanel').
      exists s'. unfold mbind, M_bind, bind. rewrite Hrun, Hloop.
      rewrite (panel_view_control_panel _ _ Hpanel).
      rewrite (readings_cons (control_panel s)) by lia.
      rewrite <- app_assoc, Hv. split; [reflexivity |].
      rewrite Hpanel'. exact Hpanel.
Qed.


(** A frame returns its readings and keeps the panel set-up. *)
Lemma frame_readings_run (s : FlightControls Q) (pot_values : list (option Q)) :
  exists s',
    process_control_panel pot_values s
    = (Return (if has_device s
               then Some <$> panel_readings (control_panel s) pot_values
               else pot_values), s')
    /\ panel_view s' = panel_view s.
Proof.
  unfold process_control_panel, has_device. rewrite get_at.
  destruct (vjoy_dev s) as [d |] eqn:Hd.
  - destruct (panel_loop_readings pot_values (default true (controls_active s)) 0 [] s)
      as (s1 & Hloop & Hpanel).
    exists (snd (vjoy_update s1)). unfold mbind, M_bind, bind. rewrite Hloop.
    cbn [app]. unfold panel_readings. rewrite Nat.sub_0_r.
    split; [reflexivity |].
    rewrite panel_view_vjoy_update. exact Hpanel.
  - exists s. split; reflexivity.
Qed.


End FrameReadings.

(** *** One pot observed through a frame *)

Section FrameThrough.
Context {X : Type}.
Variable O : FlightControls Q -> X.
Variable i : nat.
Variable s0 : FlightControls Q.

(** [O] is something only the turn of pot [i] can change. *)
Hypothesis O_update : forall s, O (snd (vjoy_update s)) = O s.
Hypothesis others_quiet :
  forall ca j raw_value s,
    j <> i -> (j < length (pot_config (control_panel s0)))%nat ->
    panel_view s = panel_view s0 ->
    O (snd (process_pot ca j raw_value s)) = O s.

Lemma panel_loop_quiet (pot_values : list (option Q)) :
  forall (ca : bool) (j : nat) (acc : list Q) (s : FlightControls Q),
    (i < j)%nat -> panel_view s = panel_view s0 ->
    O (snd (panel_loop ca j pot_values acc s)) = O s.
Proof.
  induction pot_values as [| raw_value rest IH]; intros ca j acc s Hj Hs; [reflexivity |].
  cbn [panel_loop]. rewrite get_at.
  destruct (bool_decide (length (pot_config (control_panel s)) ≤ j)%nat) eqn:Hlen;
    [reflexivity |].
  apply bool_decide_eq_false_1 in Hlen.
  rewrite (panel_view_control_panel _ _ Hs) in Hlen.
  destruct (process_pot_turn ca j raw_value s) as (v & s1 & Hrun & Hpanel & _).
  pose proof (others_quiet ca j raw_value s ltac:(lia) ltac:(lia) Hs) as Hq.
  rewrite Hrun in Hq. cbn [snd] in Hq.
  unfold mbind, M_bind, bind. rewrite Hrun.
  rewrite IH; [exact Hq | lia | rewrite Hpanel; exact Hs].
Qed.

Lemma panel_loop_through (pot_values : list (option Q)) :
  forall (ca : bool) (j : nat) (acc : list Q) (s : FlightControls Q) (raw_value : option Q),
    (j <= i)%nat ->
    (i < length (pot_config (control_panel s0)))%nat ->
    pot_values !! (i - j)%nat = Some raw_value ->
    panel_view s = panel_view s0 ->
    exists s_mid,
      panel_view s_mid = panel_view s0
      /\ O s_mid = O s
      /\ O (snd (panel_loop ca j pot_values acc s))
         = O (snd (process_pot ca i raw_value s_mid)).
Proof.
  induction pot_values as [| raw0 rest IH]; intros ca j acc s raw_value Hj Hi Hget Hs;
    [discriminate Hget |].
  cbn [panel_loop]. rewrite get_at.
  rewrite (panel_view_control_panel _ _ Hs).
  rewrite bool_decide_eq_false_2 by lia.
  destruct (process_pot_turn ca j raw0 s) as (v & s1 & Hrun & Hpanel & _).
  unfold mbind, M_bind, bind. rewrite Hrun.
  destruct (decide (j = i)) as [-> | Hne].
  - rewrite Nat.sub_diag in Hget. injection Hget as ->.
    exists s. split; [exact Hs |]. split; [reflexivity |].
    rewrite panel_loop_quiet; [| lia | rewrite Hpanel; exact Hs].
    rewrite Hrun. reflexivity.
  - pose proof (others_quiet ca j raw0 s Hne ltac:(lia) Hs) as Hq.
    rewrite Hrun in Hq. cbn [snd] in Hq.
    replace (i - j)%nat with (S (i - S j)) in Hget by lia. cbn [lookup list_lookup] in Hget.
    destruct (IH ca (S j) (acc ++ [v]) s1 raw_value ltac:(lia) Hi Hget
                ltac:(rewrite Hpanel; exact Hs))
      as (s_mid & Hmid & HO & Hloop).
    exists s_mid. split; [exact Hmid |]. split; [rewrite HO; exact Hq | exact Hloop].
Qed.

(** A frame, seen from pot [i]: the call returns the readings, and what it
    does to [O] is what the turn of pot [i] does, from a state that shows
    the same [O] and the same panel set-up as the one before the call. *)
Lemma process_control_panel_through (pot_values : list (option Q)) (raw_value : option Q) :
  has_device s0 = true ->
  (i < length (pot_config (control_panel s0)))%nat ->
  pot_values !! i = Some raw_value ->
  exists s_mid s',
    process_control_panel pot_values s0
    = (Return (Some <$> panel_readings (control_panel s0) pot_values), s')
    /\ panel_view s' = panel_view s0
    /\ panel_view s_mid = panel_view s0
    /\ O s_mid = O s0
    /\ O s' = O (snd (process_pot (default true (controls_active s0)) i raw_value s_mid)).
Proof.
  intros Hdev Hi Hget.
  destruct (frame_readings_run s0 pot_values) as (s' & Hrun & Hpanel).
  rewrite Hdev in Hrun.
  destruct (panel_loop_through pot_values (default true (controls_active s0)) 0 [] s0
              raw_value ltac:(lia) Hi ltac:(rewrite Nat.sub_0_r; exact Hget) eq_refl)
    as (s_mid & Hmid & HO & Hloop).
  exists s_mid, s'. split; [exact Hrun |]. split; [exact Hpanel |].
  split; [exact Hmid |]. split; [exact HO |].
  rewrite <- Hloop. clear Hloop.
  revert Hrun. unfold process_control_panel, has_device in *. rewrite get_at.
  destruct (vjoy_dev s0) as [d |]; [| discriminate Hdev].
  unfold mbind, M_bind, bind.
  destruct (panel_loop (default true (controls_active s0)) 0 pot_values [] s0)
    as [[vs | e] s1]; [| discriminate].
  cbn [snd]. intros [= _ <-]. apply O_update.
Qed.

End FrameThrough.

(** *** The turn of a pot with a button *)

Section ButtonBookkeeping.
Context {N : Type} `{PyNum N}.

(** The bookkeeping of a Switch or Button pot, spelled out. *)
Lemma update_button_state_step
    (config : Pot.t N) (key : string) (above : bool) (s : FlightControls N) :
  exists s',
    update_button_state config key above s
    = (Return (fst (button_step config above (toggle_view key s))), s')
    /\ toggle_view key s' = button_step config above (toggle_view key s)
    /\ control_panel s' = control_panel s
    /\ controls_active s' = controls_active s
    /\ vjoy_dev s' = vjoy_dev s.
Proof.
  destruct (String.eqb (Pot.type config) "Switch") eqn:E.
  - unfold button_step. rewrite E. apply String.eqb_eq in E.
    apply update_button_state_switch, E.
  - exists (with_last_pot_values
              (<[key := above]> (last_pot_values s))
              (with_button_states
                 (<[key := if above then 1%Z else 0%Z]> (button_states s)) s)).
    unfold button_step, update_button_state. rewrite E. cbn [fst].
    split; [reflexivity |]. split; [| repeat split].
    unfold toggle_view, stored_threshold, stored_button, dict_get. cbn.
    rewrite !lookup_insert_eq. reflexivity.
Qed.

(** The mask of a button: [1 << (button_id - 1)] fails below button 1. *)
Lemma set_button_bit_run (button_id button_state : Z) (dv : VJoyDevice) (s : FlightControls N) :
  vjoy_dev s = Some dv ->
  set_button_bit button_id button_state s
  = if (button_id - 1 <? 0)%Z then (Raise ValueError, s)
    else (Return tt,
          with_vjoy_dev
            (Some {| data :=
                       set_lButtons
                         (if (button_state =? 0)%Z
                          then Z.land (lButtons (data dv))
                                 (Z.lnot (Z.shiftl 1 (button_id - 1)))
                          else Z.lor (lButtons (data dv)) (Z.shiftl 1 (button_id - 1)))
                         (data dv);
                     reported := reported dv |}) s).
Proof.
  intros Hd. unfold set_button_bit, vjoy_edit. run_M.
  destruct (button_id - 1 <? 0)%Z; [reflexivity |].
  run_M. cbv beta iota. rewrite Hd. destruct (button_state =? 0)%Z; reflexivity.
Qed.

End ButtonBookkeeping.


Section ButtonTurn.
Local Open Scope Q_scope.

(** The threshold state [process_control_panel] derives from the value
    returned for a Switch or Button pot (100 or 0) is the threshold state
    of the calibrated value itself. *)
Lemma button_threshold_state (config : Pot.t Q) (raw_value : Q) :
  Pot.type config = "Switch"%string \/ Pot.type config = "Button"%string ->
  plt (Pot.threshold config) (interpret_pot config (inverted_pot config raw_value))
  = above_threshold config raw_value.
Proof.
  intros Htype. unfold interpret_pot, above_threshold.
  replace (String.eqb (Pot.type config) "Axis") with false
    by (destruct Htype as [-> | ->]; reflexivity).
  replace (String.eqb (Pot.type config) "Switch" || String.eqb (Pot.type config) "Button")
    with true by (destruct Htype as [-> | ->]; reflexivity).
  pose proof (inverted_pot_range config raw_value) as Hr.
  destruct (plt (Pot.threshold config) (inverted_pot config raw_value)) eqn:E.
  - apply plt_Q in E. apply plt_Q. q_ops. lra.
  - apply plt_Q_false in E. apply plt_Q_false. q_ops. lra.
Qed.

(** The turn of a Switch or Button pot with a button id, on active
    controls: the bookkeeping of its key takes one step, and the bit of the
    button is written from the state that step returns, unless the button
    id is below 1. *)
Lemma process_pot_button
    (s : FlightControls Q) (i : nat) (config : Pot.t Q) (b : Z) (raw_value : Q)
    (dv : VJoyDevice) :
  pot_config (control_panel s) !! i = Some config ->
  Pot.type config = "Switch"%string \/ Pot.type config = "Button"%string ->
  Pot.button_id config = Some b ->
  vjoy_dev s = Some dv ->
  exists s1,
    toggle_view (button_key i b) s1
    = button_step config (above_threshold config raw_value) (toggle_view (button_key i b) s)
    /\ vjoy_dev s1 = Some dv
    /\ snd (process_pot true i (Some raw_value) s)
       = if (b - 1 <? 0)%Z then s1
         else with_vjoy_dev
                (Some {| data :=
                           set_lButtons
                             (if (stored_button (button_key i b) s1 =? 0)%Z
                              then Z.land (lButtons (data dv)) (Z.lnot (Z.shiftl 1 (b - 1)))
                              else Z.lor (lButtons (data dv)) (Z.shiftl 1 (b - 1)))
                             (data dv);
                         reported := reported dv |}) s1.
Proof.
  intros Hget Htype Hb Hd.
  assert (Hen : Pot.type config <> "Disabled"%string)
    by (destruct Htype as [-> | ->]; discriminate).
  assert (Hvalue : fst (process_pot_value (Z.of_nat i) raw_value (control_panel s))
                   = interpret_pot config (inverted_pot config raw_value)).
  { rewrite (process_pot_value_enabled (control_panel s) (Z.of_nat i) config raw_value);
      [reflexivity | lia | rewrite Nat2Z.id; exact Hget | exact Hen]. }
  destruct (update_button_state_step config (button_key i b)
              (above_threshold config raw_value) s)
    as (s1 & Hupd & Hview & _ & _ & Hdev).
  exists s1. split; [exact Hview |]. split; [rewrite Hdev; exact Hd |].
  unfold process_pot. rewrite get_at, Hget, bind_process_pot_value, Hvalue.
  cbn [negb].
  replace (String.eqb (Pot.type config) "Axis") with false
    by (destruct Htype as [-> | ->]; reflexivity).
  replace (String.eqb (Pot.type config) "Switch" || String.eqb (Pot.type config) "Button")
    with true by (destruct Htype as [-> | ->]; reflexivity).
  rewrite Hb. unfold map_button. rewrite button_threshold_state by exact Htype.
  unfold mbind, M_bind, bind, try_except. rewrite Hupd.
  unfold int, lift. cbn [int_of PyNum_Q]. unfold ret at 1.
  rewrite (set_button_bit_run b _ dv s1) by (rewrite Hdev; exact Hd).
  assert (Hst : stored_button (button_key i b) s1
                = fst (button_step config (above_threshold config raw_value)
                         (toggle_view (button_key i b) s)))
    by (rewrite <- Hview; reflexivity).
  rewrite Hst.
  destruct (b - 1 <? 0)%Z; reflexivity.
Qed.

End ButtonTurn.

(** *** What the turns of the other pots leave alone *)

Section OtherTurns.
Context {N : Type} `{PyNum N}.










End OtherTurns.

(** *** Frames, pot by pot *)

Section PotFrames.
Local Open Scope Q_scope.

Lemma has_device_Some (s : FlightControls Q) :
  has_device s = true -> exists dv, vjoy_dev s = Some dv.
Proof. unfold has_device. destruct (vjoy_dev s) as [dv |]; [eauto | discriminate]. Qed.

Lemma panel_view_has_device (s s' : FlightControls Q) :
  panel_view s' = panel_view s -> has_device s' = has_device s.
Proof. unfold panel_view. intros [= _ _ Hd]. exact Hd. Qed.

Lemma active_by_default (s : FlightControls Q) :
  controls_active s <> Some false -> default true (controls_active s) = true.
Proof. destruct (controls_active s) as [[|] |]; [reflexivity | congruence | reflexivity]. Qed.



End PotFrames.

Section PotFramesDevice.
Local Open Scope Q_scope.


Lemma toggle_view_vjoy_update (key : string) (s : FlightControls Q) :
  toggle_view key (snd (vjoy_update s)) = toggle_view key s.
Proof. apply (preserves_vjoy_update (toggle_view key)). reflexivity. Qed.




End PotFramesDevice.




(** * Further properties of the interface actions on the panel *)

Section UnmappedPanel.
Context {N : Type} `{PyNum N}.

(** A pot without axis and without button is read and nothing is
    written, whether the controls are active or not. *)
Lemma process_pot_unmapped (ca : bool) (j : nat) (raw_value : option N)
    (s : FlightControls N) :
  (forall c, pot_config (control_panel s) !! j = Some c ->
             Pot.vjoy_axis c = None /\ Pot.button_id c = None) ->
  (j < length (pot_config (control_panel s)))%nat ->
  process_pot ca j raw_value s = (Return (pot_reading (control_panel s) j raw_value), s).
Proof.
  intros Hun Hj. unfold process_pot. rewrite get_at.
  destruct (pot_config (control_panel s) !! j) as [config |] eqn:Hc;
    [| apply lookup_ge_None in Hc; lia].
  destruct (Hun config eq_refl) as [Hax Hb].
  destruct raw_value as [raw_value |]; [| reflexivity].
  rewrite bind_process_pot_value, Hax, Hb. cbn [pot_reading].
  destruct (negb ca); [reflexivity |].
  destruct (String.eqb (Pot.type config) "Axis");
    destruct (String.eqb (Pot.type config) "Switch" || String.eqb (Pot.type config) "Button");
    reflexivity.
Qed.

Lemma panel_loop_unmapped (pot_values : list (option N)) :
  forall (ca : bool) (j : nat) (acc : list N) (s : FlightControls N),
    (forall k c, pot_config (control_panel s) !! k = Some c ->
                 Pot.vjoy_axis c = None /\ Pot.button_id c = None) ->
    panel_loop ca j pot_values acc s
    = (Return (acc ++ imap (fun k => pot_reading (control_panel s) (j + k))
                       (take (length (pot_config (control_panel s)) - j) pot_values)),
       s).
Proof.
  induction pot_values as [| raw_value rest IH]; intros ca j acc s Hun.
  - rewrite readings_nil, app_nil_r. reflexivity.
  - cbn [panel_loop]. rewrite get_at.
    destruct (bool_decide (length (pot_config (control_panel s)) ≤ j)%nat) eqn:Hlen.
    + apply bool_decide_eq_true_1 in Hlen.
      rewrite readings_done by exact Hlen. rewrite app_nil_r. reflexivity.
    + apply bool_decide_eq_false_1 in Hlen.
      unfold mbind, M_bind, bind.
      rewrite process_pot_unmapped; [| intros c; apply Hun | lia].
      rewrite IH by exact Hun.
      rewrite readings_cons by lia. rewrite <- app_assoc. reflexivity.
Qed.

(** The reading of a pot does not depend on what the pot is mapped to. *)
Lemma pot_reading_reset (s : FlightControls N) (j : nat) (raw_value : option N) :
  pot_reading (control_panel (reset_control_panel_mapping s)) j raw_value
  = pot_reading (control_panel s) j raw_value.
Proof.
  destruct raw_value as [raw_value |]; [| reflexivity].
  unfold pot_reading, process_pot_value, reset_control_panel_mapping.
  cbn [control_panel with_control_panel pot_config].
  rewrite length_fmap, list_lookup_fmap.
  destruct (_ || _); [reflexivity |].
  destruct (pot_config (control_panel s) !! Z.to_nat (Z.of_nat j)) as [config |];
    [| reflexivity].
  cbn [fmap option_fmap option_map Pot.type Pot.set_button_id Pot.set_vjoy_axis].
  destruct (String.eqb (Pot.type config) "Disabled"); reflexivity.
Qed.

(** X25: a panel whose mappings were reset is read and nothing is written.
    After [reset_control_panel_mapping], on either numeric model, whether
    the controls are active or not and for every frame, nan samples
    included, [process_control_panel] with a device returns the readings of
    the frame, the same readings as before the reset, changes neither the
    toggle state nor the position record, and only pushes that record to the
    driver. *)
Theorem unmapped_panel_is_read_only
    (s : FlightControls N) (d : VJoyDevice) (pot_values : list (option N)) :
  vjoy_dev s = Some d ->
  process_control_panel pot_values (reset_control_panel_mapping s)
  = (Return (Some <$> panel_readings (control_panel s) pot_values),
     with_vjoy_dev (Some {| data := data d; reported := data d |})
       (reset_control_panel_mapping s)).
Proof.
  intros Hd. unfold process_control_panel. rewrite get_at.
  change (vjoy_dev (reset_control_panel_mapping s)) with (vjoy_dev s). rewrite Hd.
  unfold mbind, M_bind, bind.
  rewrite panel_loop_unmapped.
  - cbn [app]. unfold vjoy_update, modify, ret.
    change (vjoy_dev (reset_control_panel_mapping s)) with (vjoy_dev s). rewrite Hd.
    f_equal. f_equal. f_equal. unfold panel_readings.
    rewrite Nat.sub_0_r.
    replace (length (pot_config (control_panel (reset_control_panel_mapping s))))
      with (length (pot_config (control_panel s)))
      by (unfold reset_control_panel_mapping; cbn; rewrite length_fmap; reflexivity).
    apply imap_ext. intros k raw_value _. apply pot_reading_reset.
  - intros k c. unfold reset_control_panel_mapping.
    cbn [control_panel with_control_panel pot_config].
    rewrite list_lookup_fmap. destruct (pot_config (control_panel s) !! k); [| discriminate].
    intros [= <-]. split; reflexivity.
Qed.

End UnmappedPanel.

(** The Switch of [switch_controls] after the mappings were reset, fed a nan
    and a high sample at binary64: the readings are still 100 and 100, no
    toggle state is recorded and no button bit is set. *)
Lemma unmapped_panel_is_read_only_witness :
  let s1 := reset_control_panel_mapping (N:=float) switch_controls in
  process_control_panel [Some PrimFloat.nan; None; Some 900%float] s1
  = (Return [Some 100%float; Some 0%float; Some 100%float], s1).
Proof.
  intros s1. subst s1.
  rewrite (unmapped_panel_is_read_only switch_controls _ _ eq_refl).
  vm_compute. reflexivity.
Defined.

Section ResetToggles.
Local Open Scope Q_scope.

(** X26: after the toggle states were reset the first frame presses what
    is above its threshold.  On active controls with a device and seven
    pots, the frame that follows [reset_toggle_states] leaves the key of a
    Switch or Button pot with the stored state 1 when its calibrated sample
    is above the threshold and 0 otherwise: the latch of a Switch starts
    from released and below. *)
Theorem first_frame_after_reset
    (s : FlightControls Q) (i : nat) (config : Pot.t Q) (b : Z)
    (pot_values : list (option Q)) (raw_value : Q) :
  has_device s = true ->
  controls_active s <> Some false ->
  length (pot_config (control_panel s)) = 7%nat ->
  pot_config (control_panel s) !! i = Some config ->
  Pot.type config = "Switch"%string \/ Pot.type config = "Button"%string ->
  Pot.button_id config = Some b ->
  pot_values !! i = Some (Some raw_value) ->
  exists s',
    process_control_panel pot_values (reset_toggle_states s)
    = (Return (Some <$> panel_readings (control_panel s) pot_values), s')
    /\ toggle_view (button_key i b) s'
       = ((if above_threshold config raw_value then 1 else 0)%Z,
          above_threshold config raw_value).
Proof.
  intros Hdev Hca Hlen Hget Htype Hb Hraw.
  assert (Hi : (i < 7)%nat) by (rewrite <- Hlen; eapply lookup_lt_Some; exact Hget).
  destruct (process_control_panel_through (toggle_view (button_key i b)) i
              (reset_toggle_states s)
              ltac:(intros s1; apply toggle_view_vjoy_update)
              ltac:(intros ca j raw s1 Hne Hj _; apply toggle_view_process_pot;
                    intros b' Heq; apply Hne;
                    exact (button_key_inj j i b' b ltac:(exact Hj || (cbn in Hj; lia)) Hi Heq))
              pot_values (Some raw_value) Hdev ltac:(cbn; lia) Hraw)
    as (s_mid & s' & Hrun & _ & Hmid & HO & Hturn).
  exists s'. split; [exact Hrun |].
  rewrite Hturn.
  replace (default true (controls_active (reset_toggle_states s))) with true
    by (symmetry; apply (active_by_default s Hca)).
  destruct (has_device_Some s_mid) as (dv & Hd);
    [rewrite (panel_view_has_device _ _ Hmid); exact Hdev |].
  destruct (process_pot_button s_mid i config b raw_value dv
              ltac:(rewrite (panel_view_control_panel _ _ Hmid); exact Hget)
              Htype Hb Hd)
    as (s1 & Hview & _ & Hsnd).
  rewrite Hsnd.
  assert (Hs1 : toggle_view (button_key i b) s1
                = ((if above_threshold config raw_value then 1 else 0)%Z,
                   above_threshold config raw_value)).
  { rewrite Hview, HO. unfold button_step, switch_step.
    change (toggle_view (button_key i b) (reset_toggle_states s)) with (0%Z, false).
    cbn [fst snd negb]. rewrite andb_true_r.
    destruct (String.eqb (Pot.type config) "Switch"),
      (above_threshold config raw_value); reflexivity. }
  destruct (b - 1 <? 0)%Z; exact Hs1.
Qed.

End ResetToggles.

(** The Switch of [used_switch_controls] shows released after a sample
    above the threshold; once the toggle states are reset, the next frame of
    600 presses it. *)
Lemma first_frame_after_reset_witness :
  toggle_view (button_key 2 3) (used_switch_controls (N:=Q)) = (0%Z, true)
  /\ toggle_view (button_key 2 3)
       (snd (process_control_panel (N:=Q) (frame_of 600)
               (reset_toggle_states used_switch_controls)))
     = (1%Z, true).
Proof.
  split; [vm_compute; reflexivity |].
  destruct (first_frame_after_reset used_switch_controls 2 _ 3 (frame_of 600) (600 # 1)%Q
              ltac:(vm_compute; reflexivity) ltac:(vm_compute; discriminate)
              ltac:(vm_compute; reflexivity) ltac:(vm_compute; reflexivity)
              (or_introl eq_refl) eq_refl eq_refl)
    as (s' & Hrun & Hview).
  rewrite Hrun. exact Hview.
Defined.

(** * The keys of the toggle state *)

Lemma string_app_inv_head (p a b : string) : p +:+ a = p +:+ b -> a = b.
Proof.
  induction p as [| c p IH]; cbn; [trivial |]. intros [= Heq]. apply IH, Heq.
Qed.

(** X27: the keys of the toggle state tell pots and buttons apart.  For
    the seven pots of the panel, [f"pot_{i}_button_{button_id}"] gives the
    same key only for the same pot and the same button id, so no pot reads
    or overwrites the toggle state kept for another pot or for another
    button of the same pot. *)
Theorem button_keys_distinct (i j : nat) (b b' : Z) :
  (i < 7)%nat -> (j < 7)%nat ->
  button_key i b = button_key j b' <-> i = j /\ b = b'.
Proof.
  intros Hi Hj. split; [| intros [-> ->]; reflexivity].
  intros Heq. pose proof (button_key_inj i j b b' Hi Hj Heq) as ->.
  split; [reflexivity |]. unfold button_key in Heq.
  apply (string_app_inv_head "pot_") in Heq.
  apply (string_app_inv_head (pretty j)) in Heq.
  apply (string_app_inv_head "_button_") in Heq.
  exact (inj pretty b b' Heq).
Qed.

(** Pots 2 and 5, both on button 3, keep separate keys. *)
Lemma button_keys_distinct_witness : button_key 2 3 <> button_key 5 3.
Proof.
  intros Heq.
  apply (button_keys_distinct 2 5 3 3 ltac:(lia) ltac:(lia)) in Heq as [Hne _].
  discriminate Hne.
Defined.
